(** * ESB Fleet Planner: the simulation engine, embedded and verified

    The engine of [simulation.js], with the state of [state.js], the constants
    of [config.js] and the path helpers of [utils.js], as Rocq functions over
    an explicit application state.

    JavaScript numbers are modelled as exact rationals ([Q]); equalities
    between computed quantities are therefore stated with [==].  Counters and
    array indices are [nat], score points are [Z].  [Date.now()] is an
    explicit argument, and the body of every [setTimeout] callback is an
    operation of its own. *)

From Stdlib Require Import QArith Qminmax Qround Qabs Lqa Lia ZArith List String Bool.
From Stdlib Require Import Sorted Permutation.
Import ListNotations.
Open Scope Q_scope.

(** ** JavaScript idioms *)

Definition Qltb (x y : Q) : bool := negb (Qle_bool y x).

Notation "x <? y" := (Qltb x y) : Q_scope.
Notation "x <=? y" := (Qle_bool x y) : Q_scope.
Notation "x >? y" := (Qltb y x) : Q_scope.
Notation "x >=? y" := (Qle_bool y x) : Q_scope.
Notation "x =? y" := (Qeq_bool x y) : Q_scope.

(** Sequential assignment: [r |> set_a x |> set_b y]. *)
Notation "r |> f" := (f r) (at level 71, left associativity, only parsing).

(** [Math.round]: the nearest integer, halves going up. *)
Definition Math_round (x : Q) : Z := Qfloor (x + (1#2)).

(** [Math.floor]. *)
Definition Math_floor (x : Q) : Z := Qfloor x.

(** Truthiness of a number that may be [null]: [null] and [0] are falsy. *)
Definition truthy (o : option Q) : bool :=
  match o with
  | Some q => negb (q =? 0)
  | None => false
  end.

(** [x || d] for a number [x] that may be [null]. *)
Definition orElse (o : option Q) (d : Q) : Q :=
  match o with
  | Some q => if q =? 0 then d else q
  | None => d
  end.

(** A [null] used in arithmetic counts as [0]. *)
Definition toNumber (o : option Q) : Q :=
  match o with
  | Some q => q
  | None => 0
  end.

Definition isSome {A : Type} (o : option A) : bool :=
  match o with
  | Some _ => true
  | None => false
  end.

(** ** config.js *)

Inductive Weather : Type := fair | cold | extreme.

Inductive Difficulty : Type := Easy | Medium | Hard | Expert.

Inductive WeatherPattern : Type := spring | fall | winter | polar.

(** An entry of a weather schedule: the day number and its weather. *)
Record ScheduleDay : Type := mkScheduleDay {
  sd_day : nat;
  sd_weather : Weather
}.

Module ESB_EFFICIENCY.
Definition typeA (w : Weather) : Q :=
    match w with
    | fair => 1.3
    | cold => 1.6
    | extreme => 1.9
    end.
Definition typeC (w : Weather) : Q :=
    match w with
    | fair => 1.3 * 1.5
    | cold => 1.6 * 1.5
    | extreme => 1.9 * 1.5
    end.
End ESB_EFFICIENCY.

Module FUEL_COSTS.
Definition overnight : Q := 0.18.
Definition daytime : Q := 0.36.
Definition pricePerGallon : Q := 3.
End FUEL_COSTS.

Module DIESEL_MPG.
Definition typeA : Q := 9.
Definition typeC : Q := 6.
End DIESEL_MPG.

Module CO2_CONFIG.
Definition poundsPerGallon : Q := 19.4.
Definition typeCMultiplier : Q := 1.5.
End CO2_CONFIG.

Module BATTERY_CONFIG.
Definition defaultCapacity : Q := 100.
Definition safetyBuffer : Q := 0.15.
Definition chargingNeededThreshold : Q := 0.20.
Definition minReturnCharge : Q := 0.15.
Definition chargingRateKwhPerHour : Q := 50.
End BATTERY_CONFIG.

Module SIMULATION_CONFIG.
Definition targetDuration : Q := 15000.
Definition updateInterval : Q := 50.
Definition arrivalThreshold : Q := 0.1.
Definition baseSpeedMph : Q := 25.
End SIMULATION_CONFIG.

Module TIME_WINDOWS.
Definition dayStart : Q := 5.
Definition amTripStart : Q := 5.
Definition amTripEnd : Q := 9.
Definition midDayStart : Q := 9.
Definition midDayEnd : Q := 12.
Definition pmTripStart : Q := 12.
Definition pmTripEnd : Q := 16.
Definition dayEnd : Q := 16.
End TIME_WINDOWS.

Module WEATHER_PATTERNS.
Definition schedule (p : WeatherPattern) : list ScheduleDay :=
    match p with
    | spring => [mkScheduleDay 1 fair; mkScheduleDay 2 fair; mkScheduleDay 3 cold]
    | fall => [mkScheduleDay 1 fair; mkScheduleDay 2 cold; mkScheduleDay 3 extreme]
    | winter => [mkScheduleDay 1 cold; mkScheduleDay 2 extreme; mkScheduleDay 3 extreme]
    | polar => [mkScheduleDay 1 extreme; mkScheduleDay 2 extreme; mkScheduleDay 3 extreme]
    end.
Definition difficulty (p : WeatherPattern) : Difficulty :=
    match p with
    | spring => Easy
    | fall => Medium
    | winter => Hard
    | polar => Expert
    end.
End WEATHER_PATTERNS.

Module SCORING.
Definition dayCompleted : Z := 100.
Definition noMidDayChargeBonus : Z := 150.
Definition midDayChargePenalty : Z := -50.
Definition efficientChargeBonus : Z := 75.
Definition overchargePerKwhPenalty : Z := -2.
Definition underchargePenalty : Z := -100.
Definition perfectRoutePrediction : Z := 500.
Definition difficultyMultiplier (d : Difficulty) : Q :=
    match d with
    | Easy => 1.0
    | Medium => 1.5
    | Hard => 2.0
    | Expert => 3.0
    end.
Definition perfectWeekBonus : Z := 1000.
End SCORING.

Module MIDDAY_CHARGING.
Definition deadheadPenaltyPerMile : Q := 5.
Definition energyCostDeadhead : Q := 1.5.
Definition minChargeLevel : Q := 20.
Definition maxChargingDuration : Q := 3.
End MIDDAY_CHARGING.

(** ** utils.js: coordinates and paths *)

(** A coordinate pair [[lng, lat]]. *)
Definition Coord : Type := (Q * Q)%type.

(** The great-circle distance in miles.  [haversineDistance] is computed with
    [Math.sin], [Math.cos] and [Math.atan2], which have no rational model; the
    engine is parametrised by it. *)
Class Geodesy : Type := {
  haversineDistance : Coord -> Coord -> Q
}.

Definition lerp (start end_ t : Q) : Q := start + (end_ - start) * t.

Section Paths.
Context {geodesy : Geodesy}.

  (** The lengths of the consecutive segments of a path. *)
Fixpoint segmentLengths (path : list Coord) : list Q :=
    match path with
    | a :: (b :: _) as rest => haversineDistance a b :: segmentLengths rest
    | _ => []
    end.

Definition sumLengths (ls : list Q) : Q := fold_left Qplus ls 0.

Definition calculatePathLength (path : option (list Coord)) : Q :=
    match path with
    | None => 0
    | Some p => if (List.length p <? 2)%nat then 0 else sumLengths (segmentLengths p)
    end.

  (** The second loop of [interpolatePosition]: walk the segments until the
      accumulated length reaches the target distance. *)
Fixpoint walkSegments (path : list Coord) (targetDistance accumulated : Q)
      (lastPoint : Coord) : Coord :=
    match path with
    | a :: (b :: _) as rest =>
        let len := haversineDistance a b in
        if len =? 0 then walkSegments rest targetDistance accumulated lastPoint
        else if accumulated + len >=? targetDistance then
          let segmentProgress := (targetDistance - accumulated) / len in
          (lerp (fst a) (fst b) segmentProgress, lerp (snd a) (snd b) segmentProgress)
        else walkSegments rest targetDistance (accumulated + len) lastPoint
    | _ => lastPoint
    end.

Definition interpolatePosition (path : list Coord) (progress : Q) : Coord :=
    match path with
    | [] => (0, 0)
    | [p] => p
    | first :: _ =>
        let progress := Qmax 0 (Qmin 1 progress) in
        if progress <=? 0 then first
        else if progress >=? 1 then last path first
        else
          let totalLength := sumLengths (segmentLengths path) in
          if totalLength =? 0 then first
          else walkSegments path (progress * totalLength) 0 (last path first)
    end.
End Paths.

(** ** The data model *)

Inductive BusStatus : Type :=
  | waiting | moving | dwelling | at_school | traveling_to_charger
  | charging | returning_from_charger | completed | stranded.

(** [bus.tripPhase] and [state.simulation.tripPhase]. *)
Inductive TripPhase : Type := phase_am | phase_school | phase_midday | phase_pm.

Inductive StopType : Type := depot | pickup | school | dropoff.

Inductive RouteStatus : Type :=
  | route_waiting | route_active | route_charging | route_deadhead
  | route_failed | route_completed.

Inductive LocationType : Type := at_the_school | at_the_depot | at_public_charger.

Definition BusStatus_eqb (a b : BusStatus) : bool :=
  match a, b with
  | waiting, waiting | moving, moving | dwelling, dwelling | at_school, at_school
  | traveling_to_charger, traveling_to_charger | charging, charging
  | returning_from_charger, returning_from_charger | completed, completed
  | stranded, stranded => true
  | _, _ => false
  end.

Definition StopType_eqb (a b : StopType) : bool :=
  match a, b with
  | depot, depot | pickup, pickup | school, school | dropoff, dropoff => true
  | _, _ => false
  end.

(** A charging station offered by [getAvailableChargingStations]. *)
Record Station : Type := mkStation {
  st_name : string;
  st_locationType : LocationType;
  st_coords : Coord;
  st_rate : Q;
  st_kwhPerHour : Q;
  st_deadheadMiles : Q
}.

(** The answer of the routing service for a deadhead leg. *)
Record OsrmRoute : Type := mkOsrmRoute {
  osrm_path : list Coord;
  osrm_distance : Q
}.

(** [state.pendingCharge]; its [bus] and [route] are the ones of the state,
    and the station list is only shown to the player. *)
Record PendingCharge : Type := mkPendingCharge {
  pc_energyNeeded : Q;
  pc_currentBattery : Q;
  pc_timeRemaining : Q
}.

(** An entry of [state.week.dayResults]. *)
Record DayResult : Type := mkDayResult {
  dr_day : nat;
  dr_weather : Weather;
  dr_midDayCharged : bool;
  dr_cost : Q;
  dr_distance : Q;
  dr_energyConsumed : Q
}.

(** An entry of [state.score.dayScores]. *)
Record DayScore : Type := mkDayScore {
  ds_day : nat;
  ds_points : Z;
  ds_breakdown : list (Z * string)
}.

(** An entry of [state.score.bonuses] or [state.score.penalties]. *)
Record ScoreRecord : Type := mkScoreRecord {
  sr_reason : string;
  sr_points : Z;
  sr_day : option nat
}.

(** An entry of [state.nightlyCharging.decisions]. *)
Record NightlyDecision : Type := mkNightlyDecision {
  nd_day : nat;
  nd_targetPercent : Q;
  nd_startPercent : Q;
  nd_energyCharged : Q;
  nd_cost : Q;
  nd_routeAdjusted : bool;
  nd_newRouteDistance : option Q;
  nd_v2gAmount : Q;
  nd_v2gEarned : Q
}.

Module Stop.

(** A stop of the route. *)
Record t : Type := mk {
  type : StopType;
  coords : Coord;
  completed : bool
}.

Definition set_type (v : StopType) (r : t) : t :=
  {| type := v; coords := coords r; completed := completed r |}.
Definition set_coords (v : Coord) (r : t) : t :=
  {| type := type r; coords := v; completed := completed r |}.
Definition set_completed (v : bool) (r : t) : t :=
  {| type := type r; coords := coords r; completed := v |}.

End Stop.

Module Route.

(** The route object of [generateRoutes]; [path] is [None] when the property is missing. *)
Record t : Type := mk {
  busType : string;
  stops : list Stop.t;
  path : option (list Coord);
  distance : Q;
  status : RouteStatus;
  progress : Q
}.

Definition set_busType (v : string) (r : t) : t :=
  {| busType := v; stops := stops r; path := path r; distance := distance r; status :=
     status r; progress := progress r |}.
Definition set_stops (v : list Stop.t) (r : t) : t :=
  {| busType := busType r; stops := v; path := path r; distance := distance r; status :=
     status r; progress := progress r |}.
Definition set_path (v : option (list Coord)) (r : t) : t :=
  {| busType := busType r; stops := stops r; path := v; distance := distance r; status :=
     status r; progress := progress r |}.
Definition set_distance (v : Q) (r : t) : t :=
  {| busType := busType r; stops := stops r; path := path r; distance := v; status := status
     r; progress := progress r |}.
Definition set_status (v : RouteStatus) (r : t) : t :=
  {| busType := busType r; stops := stops r; path := path r; distance := distance r; status
     := v; progress := progress r |}.
Definition set_progress (v : Q) (r : t) : t :=
  {| busType := busType r; stops := stops r; path := path r; distance := distance r; status
     := status r; progress := v |}.

End Route.

Module Stats.

(** [state.stats], the statistics of the running day. *)
Record t : Type := mk {
  totalDistance : Q;
  totalEnergyConsumed : Q;
  electricCost : Q;
  midDayCharges : nat;
  midDayChargingCost : Q;
  midDayChargingKwh : Q;
  nightlyChargingKwh : Q;
  nightlyChargingCost : Q;
  deadheadMiles : Q;
  completedRoutes : nat;
  co2Avoided : Q;
  pickupsCompleted : nat;
  v2gEarnings : Q;
  v2gKwhDischarged : Q
}.

Definition set_totalDistance (v : Q) (r : t) : t :=
  {| totalDistance := v; totalEnergyConsumed := totalEnergyConsumed r; electricCost :=
     electricCost r; midDayCharges := midDayCharges r; midDayChargingCost :=
     midDayChargingCost r; midDayChargingKwh := midDayChargingKwh r; nightlyChargingKwh :=
     nightlyChargingKwh r; nightlyChargingCost := nightlyChargingCost r; deadheadMiles :=
     deadheadMiles r; completedRoutes := completedRoutes r; co2Avoided := co2Avoided r;
     pickupsCompleted := pickupsCompleted r; v2gEarnings := v2gEarnings r; v2gKwhDischarged
     := v2gKwhDischarged r |}.
Definition set_totalEnergyConsumed (v : Q) (r : t) : t :=
  {| totalDistance := totalDistance r; totalEnergyConsumed := v; electricCost :=
     electricCost r; midDayCharges := midDayCharges r; midDayChargingCost :=
     midDayChargingCost r; midDayChargingKwh := midDayChargingKwh r; nightlyChargingKwh :=
     nightlyChargingKwh r; nightlyChargingCost := nightlyChargingCost r; deadheadMiles :=
     deadheadMiles r; completedRoutes := completedRoutes r; co2Avoided := co2Avoided r;
     pickupsCompleted := pickupsCompleted r; v2gEarnings := v2gEarnings r; v2gKwhDischarged
     := v2gKwhDischarged r |}.
Definition set_electricCost (v : Q) (r : t) : t :=
  {| totalDistance := totalDistance r; totalEnergyConsumed := totalEnergyConsumed r;
     electricCost := v; midDayCharges := midDayCharges r; midDayChargingCost :=
     midDayChargingCost r; midDayChargingKwh := midDayChargingKwh r; nightlyChargingKwh :=
     nightlyChargingKwh r; nightlyChargingCost := nightlyChargingCost r; deadheadMiles :=
     deadheadMiles r; completedRoutes := completedRoutes r; co2Avoided := co2Avoided r;
     pickupsCompleted := pickupsCompleted r; v2gEarnings := v2gEarnings r; v2gKwhDischarged
     := v2gKwhDischarged r |}.
Definition set_midDayCharges (v : nat) (r : t) : t :=
  {| totalDistance := totalDistance r; totalEnergyConsumed := totalEnergyConsumed r;
     electricCost := electricCost r; midDayCharges := v; midDayChargingCost :=
     midDayChargingCost r; midDayChargingKwh := midDayChargingKwh r; nightlyChargingKwh :=
     nightlyChargingKwh r; nightlyChargingCost := nightlyChargingCost r; deadheadMiles :=
     deadheadMiles r; completedRoutes := completedRoutes r; co2Avoided := co2Avoided r;
     pickupsCompleted := pickupsCompleted r; v2gEarnings := v2gEarnings r; v2gKwhDischarged
     := v2gKwhDischarged r |}.
Definition set_midDayChargingCost (v : Q) (r : t) : t :=
  {| totalDistance := totalDistance r; totalEnergyConsumed := totalEnergyConsumed r;
     electricCost := electricCost r; midDayCharges := midDayCharges r; midDayChargingCost :=
     v; midDayChargingKwh := midDayChargingKwh r; nightlyChargingKwh := nightlyChargingKwh
     r; nightlyChargingCost := nightlyChargingCost r; deadheadMiles := deadheadMiles r;
     completedRoutes := completedRoutes r; co2Avoided := co2Avoided r; pickupsCompleted :=
     pickupsCompleted r; v2gEarnings := v2gEarnings r; v2gKwhDischarged := v2gKwhDischarged
     r |}.
Definition set_midDayChargingKwh (v : Q) (r : t) : t :=
  {| totalDistance := totalDistance r; totalEnergyConsumed := totalEnergyConsumed r;
     electricCost := electricCost r; midDayCharges := midDayCharges r; midDayChargingCost :=
     midDayChargingCost r; midDayChargingKwh := v; nightlyChargingKwh := nightlyChargingKwh
     r; nightlyChargingCost := nightlyChargingCost r; deadheadMiles := deadheadMiles r;
     completedRoutes := completedRoutes r; co2Avoided := co2Avoided r; pickupsCompleted :=
     pickupsCompleted r; v2gEarnings := v2gEarnings r; v2gKwhDischarged := v2gKwhDischarged
     r |}.
Definition set_nightlyChargingKwh (v : Q) (r : t) : t :=
  {| totalDistance := totalDistance r; totalEnergyConsumed := totalEnergyConsumed r;
     electricCost := electricCost r; midDayCharges := midDayCharges r; midDayChargingCost :=
     midDayChargingCost r; midDayChargingKwh := midDayChargingKwh r; nightlyChargingKwh :=
     v; nightlyChargingCost := nightlyChargingCost r; deadheadMiles := deadheadMiles r;
     completedRoutes := completedRoutes r; co2Avoided := co2Avoided r; pickupsCompleted :=
     pickupsCompleted r; v2gEarnings := v2gEarnings r; v2gKwhDischarged := v2gKwhDischarged
     r |}.
Definition set_nightlyChargingCost (v : Q) (r : t) : t :=
  {| totalDistance := totalDistance r; totalEnergyConsumed := totalEnergyConsumed r;
     electricCost := electricCost r; midDayCharges := midDayCharges r; midDayChargingCost :=
     midDayChargingCost r; midDayChargingKwh := midDayChargingKwh r; nightlyChargingKwh :=
     nightlyChargingKwh r; nightlyChargingCost := v; deadheadMiles := deadheadMiles r;
     completedRoutes := completedRoutes r; co2Avoided := co2Avoided r; pickupsCompleted :=
     pickupsCompleted r; v2gEarnings := v2gEarnings r; v2gKwhDischarged := v2gKwhDischarged
     r |}.
Definition set_deadheadMiles (v : Q) (r : t) : t :=
  {| totalDistance := totalDistance r; totalEnergyConsumed := totalEnergyConsumed r;
     electricCost := electricCost r; midDayCharges := midDayCharges r; midDayChargingCost :=
     midDayChargingCost r; midDayChargingKwh := midDayChargingKwh r; nightlyChargingKwh :=
     nightlyChargingKwh r; nightlyChargingCost := nightlyChargingCost r; deadheadMiles := v;
     completedRoutes := completedRoutes r; co2Avoided := co2Avoided r; pickupsCompleted :=
     pickupsCompleted r; v2gEarnings := v2gEarnings r; v2gKwhDischarged := v2gKwhDischarged
     r |}.
Definition set_completedRoutes (v : nat) (r : t) : t :=
  {| totalDistance := totalDistance r; totalEnergyConsumed := totalEnergyConsumed r;
     electricCost := electricCost r; midDayCharges := midDayCharges r; midDayChargingCost :=
     midDayChargingCost r; midDayChargingKwh := midDayChargingKwh r; nightlyChargingKwh :=
     nightlyChargingKwh r; nightlyChargingCost := nightlyChargingCost r; deadheadMiles :=
     deadheadMiles r; completedRoutes := v; co2Avoided := co2Avoided r; pickupsCompleted :=
     pickupsCompleted r; v2gEarnings := v2gEarnings r; v2gKwhDischarged := v2gKwhDischarged
     r |}.
Definition set_co2Avoided (v : Q) (r : t) : t :=
  {| totalDistance := totalDistance r; totalEnergyConsumed := totalEnergyConsumed r;
     electricCost := electricCost r; midDayCharges := midDayCharges r; midDayChargingCost :=
     midDayChargingCost r; midDayChargingKwh := midDayChargingKwh r; nightlyChargingKwh :=
     nightlyChargingKwh r; nightlyChargingCost := nightlyChargingCost r; deadheadMiles :=
     deadheadMiles r; completedRoutes := completedRoutes r; co2Avoided := v;
     pickupsCompleted := pickupsCompleted r; v2gEarnings := v2gEarnings r; v2gKwhDischarged
     := v2gKwhDischarged r |}.
Definition set_pickupsCompleted (v : nat) (r : t) : t :=
  {| totalDistance := totalDistance r; totalEnergyConsumed := totalEnergyConsumed r;
     electricCost := electricCost r; midDayCharges := midDayCharges r; midDayChargingCost :=
     midDayChargingCost r; midDayChargingKwh := midDayChargingKwh r; nightlyChargingKwh :=
     nightlyChargingKwh r; nightlyChargingCost := nightlyChargingCost r; deadheadMiles :=
     deadheadMiles r; completedRoutes := completedRoutes r; co2Avoided := co2Avoided r;
     pickupsCompleted := v; v2gEarnings := v2gEarnings r; v2gKwhDischarged :=
     v2gKwhDischarged r |}.
Definition set_v2gEarnings (v : Q) (r : t) : t :=
  {| totalDistance := totalDistance r; totalEnergyConsumed := totalEnergyConsumed r;
     electricCost := electricCost r; midDayCharges := midDayCharges r; midDayChargingCost :=
     midDayChargingCost r; midDayChargingKwh := midDayChargingKwh r; nightlyChargingKwh :=
     nightlyChargingKwh r; nightlyChargingCost := nightlyChargingCost r; deadheadMiles :=
     deadheadMiles r; completedRoutes := completedRoutes r; co2Avoided := co2Avoided r;
     pickupsCompleted := pickupsCompleted r; v2gEarnings := v; v2gKwhDischarged :=
     v2gKwhDischarged r |}.
Definition set_v2gKwhDischarged (v : Q) (r : t) : t :=
  {| totalDistance := totalDistance r; totalEnergyConsumed := totalEnergyConsumed r;
     electricCost := electricCost r; midDayCharges := midDayCharges r; midDayChargingCost :=
     midDayChargingCost r; midDayChargingKwh := midDayChargingKwh r; nightlyChargingKwh :=
     nightlyChargingKwh r; nightlyChargingCost := nightlyChargingCost r; deadheadMiles :=
     deadheadMiles r; completedRoutes := completedRoutes r; co2Avoided := co2Avoided r;
     pickupsCompleted := pickupsCompleted r; v2gEarnings := v2gEarnings r; v2gKwhDischarged
     := v |}.

End Stats.

Module Week.

(** [state.week]. *)
Record t : Type := mk {
  currentDay : nat;
  schedule : list ScheduleDay;
  dayResults : list DayResult;
  totalMidDayCharges : nat;
  totalMidDayCost : Q;
  totalOvernightCost : Q;
  totalV2GEarnings : Q;
  totalV2GKwh : Q
}.

Definition set_currentDay (v : nat) (r : t) : t :=
  {| currentDay := v; schedule := schedule r; dayResults := dayResults r; totalMidDayCharges
     := totalMidDayCharges r; totalMidDayCost := totalMidDayCost r; totalOvernightCost :=
     totalOvernightCost r; totalV2GEarnings := totalV2GEarnings r; totalV2GKwh :=
     totalV2GKwh r |}.
Definition set_schedule (v : list ScheduleDay) (r : t) : t :=
  {| currentDay := currentDay r; schedule := v; dayResults := dayResults r;
     totalMidDayCharges := totalMidDayCharges r; totalMidDayCost := totalMidDayCost r;
     totalOvernightCost := totalOvernightCost r; totalV2GEarnings := totalV2GEarnings r;
     totalV2GKwh := totalV2GKwh r |}.
Definition set_dayResults (v : list DayResult) (r : t) : t :=
  {| currentDay := currentDay r; schedule := schedule r; dayResults := v; totalMidDayCharges
     := totalMidDayCharges r; totalMidDayCost := totalMidDayCost r; totalOvernightCost :=
     totalOvernightCost r; totalV2GEarnings := totalV2GEarnings r; totalV2GKwh :=
     totalV2GKwh r |}.
Definition set_totalMidDayCharges (v : nat) (r : t) : t :=
  {| currentDay := currentDay r; schedule := schedule r; dayResults := dayResults r;
     totalMidDayCharges := v; totalMidDayCost := totalMidDayCost r; totalOvernightCost :=
     totalOvernightCost r; totalV2GEarnings := totalV2GEarnings r; totalV2GKwh :=
     totalV2GKwh r |}.
Definition set_totalMidDayCost (v : Q) (r : t) : t :=
  {| currentDay := currentDay r; schedule := schedule r; dayResults := dayResults r;
     totalMidDayCharges := totalMidDayCharges r; totalMidDayCost := v; totalOvernightCost :=
     totalOvernightCost r; totalV2GEarnings := totalV2GEarnings r; totalV2GKwh :=
     totalV2GKwh r |}.
Definition set_totalOvernightCost (v : Q) (r : t) : t :=
  {| currentDay := currentDay r; schedule := schedule r; dayResults := dayResults r;
     totalMidDayCharges := totalMidDayCharges r; totalMidDayCost := totalMidDayCost r;
     totalOvernightCost := v; totalV2GEarnings := totalV2GEarnings r; totalV2GKwh :=
     totalV2GKwh r |}.
Definition set_totalV2GEarnings (v : Q) (r : t) : t :=
  {| currentDay := currentDay r; schedule := schedule r; dayResults := dayResults r;
     totalMidDayCharges := totalMidDayCharges r; totalMidDayCost := totalMidDayCost r;
     totalOvernightCost := totalOvernightCost r; totalV2GEarnings := v; totalV2GKwh :=
     totalV2GKwh r |}.
Definition set_totalV2GKwh (v : Q) (r : t) : t :=
  {| currentDay := currentDay r; schedule := schedule r; dayResults := dayResults r;
     totalMidDayCharges := totalMidDayCharges r; totalMidDayCost := totalMidDayCost r;
     totalOvernightCost := totalOvernightCost r; totalV2GEarnings := totalV2GEarnings r;
     totalV2GKwh := v |}.

End Week.

Module Score.

(** [state.score]. *)
Record t : Type := mk {
  total : Z;
  dayScores : list DayScore;
  bonuses : list ScoreRecord;
  penalties : list ScoreRecord
}.

Definition set_total (v : Z) (r : t) : t :=
  {| total := v; dayScores := dayScores r; bonuses := bonuses r; penalties := penalties r |}.
Definition set_dayScores (v : list DayScore) (r : t) : t :=
  {| total := total r; dayScores := v; bonuses := bonuses r; penalties := penalties r |}.
Definition set_bonuses (v : list ScoreRecord) (r : t) : t :=
  {| total := total r; dayScores := dayScores r; bonuses := v; penalties := penalties r |}.
Definition set_penalties (v : list ScoreRecord) (r : t) : t :=
  {| total := total r; dayScores := dayScores r; bonuses := bonuses r; penalties := v |}.

End Score.

Module Config.

(** [state.config]. *)
Record t : Type := mk {
  busType : string;
  batteryCapacity : Q;
  guessDistance : Q;
  adjustedRouteDistance : option Q;
  weatherPattern : WeatherPattern
}.

Definition set_busType (v : string) (r : t) : t :=
  {| busType := v; batteryCapacity := batteryCapacity r; guessDistance := guessDistance r;
     adjustedRouteDistance := adjustedRouteDistance r; weatherPattern := weatherPattern r |}.
Definition set_batteryCapacity (v : Q) (r : t) : t :=
  {| busType := busType r; batteryCapacity := v; guessDistance := guessDistance r;
     adjustedRouteDistance := adjustedRouteDistance r; weatherPattern := weatherPattern r |}.
Definition set_guessDistance (v : Q) (r : t) : t :=
  {| busType := busType r; batteryCapacity := batteryCapacity r; guessDistance := v;
     adjustedRouteDistance := adjustedRouteDistance r; weatherPattern := weatherPattern r |}.
Definition set_adjustedRouteDistance (v : option Q) (r : t) : t :=
  {| busType := busType r; batteryCapacity := batteryCapacity r; guessDistance :=
     guessDistance r; adjustedRouteDistance := v; weatherPattern := weatherPattern r |}.
Definition set_weatherPattern (v : WeatherPattern) (r : t) : t :=
  {| busType := busType r; batteryCapacity := batteryCapacity r; guessDistance :=
     guessDistance r; adjustedRouteDistance := adjustedRouteDistance r; weatherPattern := v |}.

End Config.

(** The bus object built by [initializeBuses]; [id], [name], [routeId], [routeIndex], [path] and [chargerLocationType] are only read by the display layer and are left out. *)
Record Bus : Type := mkBus {
  busType : string;
  position : option Coord;
  progress : Q;
  currentStopIndex : nat;
  batteryCapacity : Q;
  batteryLevel : Q;
  batteryKwh : Q;
  energyConsumed : Q;
  distanceTraveled : Q;
  status : BusStatus;
  dwellUntil : option Q;
  needsMidDayCharge : bool;
  midDayChargeChecked : bool;
  arrivedAtSchool : bool;
  isCharging : bool;
  usedMidDayCharge : bool;
  tripPhase : TripPhase;
  chargingTimeHours : Q;
  chargingStation : option string;
  chargingRate : option Q;
  chargingKwhPerHour : option Q;
  targetChargeKwh : option Q;
  chargerDestination : option Coord;
  needsReturnTrip : bool;
  returnDestination : option Coord;
  returnDistance : option Q;
  returnProgress : option Q;
  returnPath : option (list Coord);
  originalPosition : option Coord;
  deadheadProgress : option Q;
  deadheadDistance : option Q;
  deadheadPath : option (list Coord);
  deadheadStartPosition : option Coord;
  deadheadEnergyNeeded : option Q
}.

Definition set_busType (v : string) (r : Bus) : Bus :=
  {| busType := v; position := position r; progress := progress r; currentStopIndex :=
     currentStopIndex r; batteryCapacity := batteryCapacity r; batteryLevel := batteryLevel
     r; batteryKwh := batteryKwh r; energyConsumed := energyConsumed r; distanceTraveled :=
     distanceTraveled r; status := status r; dwellUntil := dwellUntil r; needsMidDayCharge
     := needsMidDayCharge r; midDayChargeChecked := midDayChargeChecked r; arrivedAtSchool
     := arrivedAtSchool r; isCharging := isCharging r; usedMidDayCharge := usedMidDayCharge
     r; tripPhase := tripPhase r; chargingTimeHours := chargingTimeHours r; chargingStation
     := chargingStation r; chargingRate := chargingRate r; chargingKwhPerHour :=
     chargingKwhPerHour r; targetChargeKwh := targetChargeKwh r; chargerDestination :=
     chargerDestination r; needsReturnTrip := needsReturnTrip r; returnDestination :=
     returnDestination r; returnDistance := returnDistance r; returnProgress :=
     returnProgress r; returnPath := returnPath r; originalPosition := originalPosition r;
     deadheadProgress := deadheadProgress r; deadheadDistance := deadheadDistance r;
     deadheadPath := deadheadPath r; deadheadStartPosition := deadheadStartPosition r;
     deadheadEnergyNeeded := deadheadEnergyNeeded r |}.
Definition set_position (v : option Coord) (r : Bus) : Bus :=
  {| busType := busType r; position := v; progress := progress r; currentStopIndex :=
     currentStopIndex r; batteryCapacity := batteryCapacity r; batteryLevel := batteryLevel
     r; batteryKwh := batteryKwh r; energyConsumed := energyConsumed r; distanceTraveled :=
     distanceTraveled r; status := status r; dwellUntil := dwellUntil r; needsMidDayCharge
     := needsMidDayCharge r; midDayChargeChecked := midDayChargeChecked r; arrivedAtSchool
     := arrivedAtSchool r; isCharging := isCharging r; usedMidDayCharge := usedMidDayCharge
     r; tripPhase := tripPhase r; chargingTimeHours := chargingTimeHours r; chargingStation
     := chargingStation r; chargingRate := chargingRate r; chargingKwhPerHour :=
     chargingKwhPerHour r; targetChargeKwh := targetChargeKwh r; chargerDestination :=
     chargerDestination r; needsReturnTrip := needsReturnTrip r; returnDestination :=
     returnDestination r; returnDistance := returnDistance r; returnProgress :=
     returnProgress r; returnPath := returnPath r; originalPosition := originalPosition r;
     deadheadProgress := deadheadProgress r; deadheadDistance := deadheadDistance r;
     deadheadPath := deadheadPath r; deadheadStartPosition := deadheadStartPosition r;
     deadheadEnergyNeeded := deadheadEnergyNeeded r |}.
Definition set_progress (v : Q) (r : Bus) : Bus :=
  {| busType := busType r; position := position r; progress := v; currentStopIndex :=
     currentStopIndex r; batteryCapacity := batteryCapacity r; batteryLevel := batteryLevel
     r; batteryKwh := batteryKwh r; energyConsumed := energyConsumed r; distanceTraveled :=
     distanceTraveled r; status := status r; dwellUntil := dwellUntil r; needsMidDayCharge
     := needsMidDayCharge r; midDayChargeChecked := midDayChargeChecked r; arrivedAtSchool
     := arrivedAtSchool r; isCharging := isCharging r; usedMidDayCharge := usedMidDayCharge
     r; tripPhase := tripPhase r; chargingTimeHours := chargingTimeHours r; chargingStation
     := chargingStation r; chargingRate := chargingRate r; chargingKwhPerHour :=
     chargingKwhPerHour r; targetChargeKwh := targetChargeKwh r; chargerDestination :=
     chargerDestination r; needsReturnTrip := needsReturnTrip r; returnDestination :=
     returnDestination r; returnDistance := returnDistance r; returnProgress :=
     returnProgress r; returnPath := returnPath r; originalPosition := originalPosition r;
     deadheadProgress := deadheadProgress r; deadheadDistance := deadheadDistance r;
     deadheadPath := deadheadPath r; deadheadStartPosition := deadheadStartPosition r;
     deadheadEnergyNeeded := deadheadEnergyNeeded r |}.
Definition set_currentStopIndex (v : nat) (r : Bus) : Bus :=
  {| busType := busType r; position := position r; progress := progress r; currentStopIndex
     := v; batteryCapacity := batteryCapacity r; batteryLevel := batteryLevel r; batteryKwh
     := batteryKwh r; energyConsumed := energyConsumed r; distanceTraveled :=
     distanceTraveled r; status := status r; dwellUntil := dwellUntil r; needsMidDayCharge
     := needsMidDayCharge r; midDayChargeChecked := midDayChargeChecked r; arrivedAtSchool
     := arrivedAtSchool r; isCharging := isCharging r; usedMidDayCharge := usedMidDayCharge
     r; tripPhase := tripPhase r; chargingTimeHours := chargingTimeHours r; chargingStation
     := chargingStation r; chargingRate := chargingRate r; chargingKwhPerHour :=
     chargingKwhPerHour r; targetChargeKwh := targetChargeKwh r; chargerDestination :=
     chargerDestination r; needsReturnTrip := needsReturnTrip r; returnDestination :=
     returnDestination r; returnDistance := returnDistance r; returnProgress :=
     returnProgress r; returnPath := returnPath r; originalPosition := originalPosition r;
     deadheadProgress := deadheadProgress r; deadheadDistance := deadheadDistance r;
     deadheadPath := deadheadPath r; deadheadStartPosition := deadheadStartPosition r;
     deadheadEnergyNeeded := deadheadEnergyNeeded r |}.
Definition set_batteryCapacity (v : Q) (r : Bus) : Bus :=
  {| busType := busType r; position := position r; progress := progress r; currentStopIndex
     := currentStopIndex r; batteryCapacity := v; batteryLevel := batteryLevel r; batteryKwh
     := batteryKwh r; energyConsumed := energyConsumed r; distanceTraveled :=
     distanceTraveled r; status := status r; dwellUntil := dwellUntil r; needsMidDayCharge
     := needsMidDayCharge r; midDayChargeChecked := midDayChargeChecked r; arrivedAtSchool
     := arrivedAtSchool r; isCharging := isCharging r; usedMidDayCharge := usedMidDayCharge
     r; tripPhase := tripPhase r; chargingTimeHours := chargingTimeHours r; chargingStation
     := chargingStation r; chargingRate := chargingRate r; chargingKwhPerHour :=
     chargingKwhPerHour r; targetChargeKwh := targetChargeKwh r; chargerDestination :=
     chargerDestination r; needsReturnTrip := needsReturnTrip r; returnDestination :=
     returnDestination r; returnDistance := returnDistance r; returnProgress :=
     returnProgress r; returnPath := returnPath r; originalPosition := originalPosition r;
     deadheadProgress := deadheadProgress r; deadheadDistance := deadheadDistance r;
     deadheadPath := deadheadPath r; deadheadStartPosition := deadheadStartPosition r;
     deadheadEnergyNeeded := deadheadEnergyNeeded r |}.
Definition set_batteryLevel (v : Q) (r : Bus) : Bus :=
  {| busType := busType r; position := position r; progress := progress r; currentStopIndex
     := currentStopIndex r; batteryCapacity := batteryCapacity r; batteryLevel := v;
     batteryKwh := batteryKwh r; energyConsumed := energyConsumed r; distanceTraveled :=
     distanceTraveled r; status := status r; dwellUntil := dwellUntil r; needsMidDayCharge
     := needsMidDayCharge r; midDayChargeChecked := midDayChargeChecked r; arrivedAtSchool
     := arrivedAtSchool r; isCharging := isCharging r; usedMidDayCharge := usedMidDayCharge
     r; tripPhase := tripPhase r; chargingTimeHours := chargingTimeHours r; chargingStation
     := chargingStation r; chargingRate := chargingRate r; chargingKwhPerHour :=
     chargingKwhPerHour r; targetChargeKwh := targetChargeKwh r; chargerDestination :=
     chargerDestination r; needsReturnTrip := needsReturnTrip r; returnDestination :=
     returnDestination r; returnDistance := returnDistance r; returnProgress :=
     returnProgress r; returnPath := returnPath r; originalPosition := originalPosition r;
     deadheadProgress := deadheadProgress r; deadheadDistance := deadheadDistance r;
     deadheadPath := deadheadPath r; deadheadStartPosition := deadheadStartPosition r;
     deadheadEnergyNeeded := deadheadEnergyNeeded r |}.
Definition set_batteryKwh (v : Q) (r : Bus) : Bus :=
  {| busType := busType r; position := position r; progress := progress r; currentStopIndex
     := currentStopIndex r; batteryCapacity := batteryCapacity r; batteryLevel :=
     batteryLevel r; batteryKwh := v; energyConsumed := energyConsumed r; distanceTraveled
     := distanceTraveled r; status := status r; dwellUntil := dwellUntil r;
     needsMidDayCharge := needsMidDayCharge r; midDayChargeChecked := midDayChargeChecked r;
     arrivedAtSchool := arrivedAtSchool r; isCharging := isCharging r; usedMidDayCharge :=
     usedMidDayCharge r; tripPhase := tripPhase r; chargingTimeHours := chargingTimeHours r;
     chargingStation := chargingStation r; chargingRate := chargingRate r;
     chargingKwhPerHour := chargingKwhPerHour r; targetChargeKwh := targetChargeKwh r;
     chargerDestination := chargerDestination r; needsReturnTrip := needsReturnTrip r;
     returnDestination := returnDestination r; returnDistance := returnDistance r;
     returnProgress := returnProgress r; returnPath := returnPath r; originalPosition :=
     originalPosition r; deadheadProgress := deadheadProgress r; deadheadDistance :=
     deadheadDistance r; deadheadPath := deadheadPath r; deadheadStartPosition :=
     deadheadStartPosition r; deadheadEnergyNeeded := deadheadEnergyNeeded r |}.
Definition set_energyConsumed (v : Q) (r : Bus) : Bus :=
  {| busType := busType r; position := position r; progress := progress r; currentStopIndex
     := currentStopIndex r; batteryCapacity := batteryCapacity r; batteryLevel :=
     batteryLevel r; batteryKwh := batteryKwh r; energyConsumed := v; distanceTraveled :=
     distanceTraveled r; status := status r; dwellUntil := dwellUntil r; needsMidDayCharge
     := needsMidDayCharge r; midDayChargeChecked := midDayChargeChecked r; arrivedAtSchool
     := arrivedAtSchool r; isCharging := isCharging r; usedMidDayCharge := usedMidDayCharge
     r; tripPhase := tripPhase r; chargingTimeHours := chargingTimeHours r; chargingStation
     := chargingStation r; chargingRate := chargingRate r; chargingKwhPerHour :=
     chargingKwhPerHour r; targetChargeKwh := targetChargeKwh r; chargerDestination :=
     chargerDestination r; needsReturnTrip := needsReturnTrip r; returnDestination :=
     returnDestination r; returnDistance := returnDistance r; returnProgress :=
     returnProgress r; returnPath := returnPath r; originalPosition := originalPosition r;
     deadheadProgress := deadheadProgress r; deadheadDistance := deadheadDistance r;
     deadheadPath := deadheadPath r; deadheadStartPosition := deadheadStartPosition r;
     deadheadEnergyNeeded := deadheadEnergyNeeded r |}.
Definition set_distanceTraveled (v : Q) (r : Bus) : Bus :=
  {| busType := busType r; position := position r; progress := progress r; currentStopIndex
     := currentStopIndex r; batteryCapacity := batteryCapacity r; batteryLevel :=
     batteryLevel r; batteryKwh := batteryKwh r; energyConsumed := energyConsumed r;
     distanceTraveled := v; status := status r; dwellUntil := dwellUntil r;
     needsMidDayCharge := needsMidDayCharge r; midDayChargeChecked := midDayChargeChecked r;
     arrivedAtSchool := arrivedAtSchool r; isCharging := isCharging r; usedMidDayCharge :=
     usedMidDayCharge r; tripPhase := tripPhase r; chargingTimeHours := chargingTimeHours r;
     chargingStation := chargingStation r; chargingRate := chargingRate r;
     chargingKwhPerHour := chargingKwhPerHour r; targetChargeKwh := targetChargeKwh r;
     chargerDestination := chargerDestination r; needsReturnTrip := needsReturnTrip r;
     returnDestination := returnDestination r; returnDistance := returnDistance r;
     returnProgress := returnProgress r; returnPath := returnPath r; originalPosition :=
     originalPosition r; deadheadProgress := deadheadProgress r; deadheadDistance :=
     deadheadDistance r; deadheadPath := deadheadPath r; deadheadStartPosition :=
     deadheadStartPosition r; deadheadEnergyNeeded := deadheadEnergyNeeded r |}.
Definition set_status (v : BusStatus) (r : Bus) : Bus :=
  {| busType := busType r; position := position r; progress := progress r; currentStopIndex
     := currentStopIndex r; batteryCapacity := batteryCapacity r; batteryLevel :=
     batteryLevel r; batteryKwh := batteryKwh r; energyConsumed := energyConsumed r;
     distanceTraveled := distanceTraveled r; status := v; dwellUntil := dwellUntil r;
     needsMidDayCharge := needsMidDayCharge r; midDayChargeChecked := midDayChargeChecked r;
     arrivedAtSchool := arrivedAtSchool r; isCharging := isCharging r; usedMidDayCharge :=
     usedMidDayCharge r; tripPhase := tripPhase r; chargingTimeHours := chargingTimeHours r;
     chargingStation := chargingStation r; chargingRate := chargingRate r;
     chargingKwhPerHour := chargingKwhPerHour r; targetChargeKwh := targetChargeKwh r;
     chargerDestination := chargerDestination r; needsReturnTrip := needsReturnTrip r;
     returnDestination := returnDestination r; returnDistance := returnDistance r;
     returnProgress := returnProgress r; returnPath := returnPath r; originalPosition :=
     originalPosition r; deadheadProgress := deadheadProgress r; deadheadDistance :=
     deadheadDistance r; deadheadPath := deadheadPath r; deadheadStartPosition :=
     deadheadStartPosition r; deadheadEnergyNeeded := deadheadEnergyNeeded r |}.
Definition set_dwellUntil (v : option Q) (r : Bus) : Bus :=
  {| busType := busType r; position := position r; progress := progress r; currentStopIndex
     := currentStopIndex r; batteryCapacity := batteryCapacity r; batteryLevel :=
     batteryLevel r; batteryKwh := batteryKwh r; energyConsumed := energyConsumed r;
     distanceTraveled := distanceTraveled r; status := status r; dwellUntil := v;
     needsMidDayCharge := needsMidDayCharge r; midDayChargeChecked := midDayChargeChecked r;
     arrivedAtSchool := arrivedAtSchool r; isCharging := isCharging r; usedMidDayCharge :=
     usedMidDayCharge r; tripPhase := tripPhase r; chargingTimeHours := chargingTimeHours r;
     chargingStation := chargingStation r; chargingRate := chargingRate r;
     chargingKwhPerHour := chargingKwhPerHour r; targetChargeKwh := targetChargeKwh r;
     chargerDestination := chargerDestination r; needsReturnTrip := needsReturnTrip r;
     returnDestination := returnDestination r; returnDistance := returnDistance r;
     returnProgress := returnProgress r; returnPath := returnPath r; originalPosition :=
     originalPosition r; deadheadProgress := deadheadProgress r; deadheadDistance :=
     deadheadDistance r; deadheadPath := deadheadPath r; deadheadStartPosition :=
     deadheadStartPosition r; deadheadEnergyNeeded := deadheadEnergyNeeded r |}.
Definition set_needsMidDayCharge (v : bool) (r : Bus) : Bus :=
  {| busType := busType r; position := position r; progress := progress r; currentStopIndex
     := currentStopIndex r; batteryCapacity := batteryCapacity r; batteryLevel :=
     batteryLevel r; batteryKwh := batteryKwh r; energyConsumed := energyConsumed r;
     distanceTraveled := distanceTraveled r; status := status r; dwellUntil := dwellUntil r;
     needsMidDayCharge := v; midDayChargeChecked := midDayChargeChecked r; arrivedAtSchool
     := arrivedAtSchool r; isCharging := isCharging r; usedMidDayCharge := usedMidDayCharge
     r; tripPhase := tripPhase r; chargingTimeHours := chargingTimeHours r; chargingStation
     := chargingStation r; chargingRate := chargingRate r; chargingKwhPerHour :=
     chargingKwhPerHour r; targetChargeKwh := targetChargeKwh r; chargerDestination :=
     chargerDestination r; needsReturnTrip := needsReturnTrip r; returnDestination :=
     returnDestination r; returnDistance := returnDistance r; returnProgress :=
     returnProgress r; returnPath := returnPath r; originalPosition := originalPosition r;
     deadheadProgress := deadheadProgress r; deadheadDistance := deadheadDistance r;
     deadheadPath := deadheadPath r; deadheadStartPosition := deadheadStartPosition r;
     deadheadEnergyNeeded := deadheadEnergyNeeded r |}.
Definition set_midDayChargeChecked (v : bool) (r : Bus) : Bus :=
  {| busType := busType r; position := position r; progress := progress r; currentStopIndex
     := currentStopIndex r; batteryCapacity := batteryCapacity r; batteryLevel :=
     batteryLevel r; batteryKwh := batteryKwh r; energyConsumed := energyConsumed r;
     distanceTraveled := distanceTraveled r; status := status r; dwellUntil := dwellUntil r;
     needsMidDayCharge := needsMidDayCharge r; midDayChargeChecked := v; arrivedAtSchool :=
     arrivedAtSchool r; isCharging := isCharging r; usedMidDayCharge := usedMidDayCharge r;
     tripPhase := tripPhase r; chargingTimeHours := chargingTimeHours r; chargingStation :=
     chargingStation r; chargingRate := chargingRate r; chargingKwhPerHour :=
     chargingKwhPerHour r; targetChargeKwh := targetChargeKwh r; chargerDestination :=
     chargerDestination r; needsReturnTrip := needsReturnTrip r; returnDestination :=
     returnDestination r; returnDistance := returnDistance r; returnProgress :=
     returnProgress r; returnPath := returnPath r; originalPosition := originalPosition r;
     deadheadProgress := deadheadProgress r; deadheadDistance := deadheadDistance r;
     deadheadPath := deadheadPath r; deadheadStartPosition := deadheadStartPosition r;
     deadheadEnergyNeeded := deadheadEnergyNeeded r |}.
Definition set_arrivedAtSchool (v : bool) (r : Bus) : Bus :=
  {| busType := busType r; position := position r; progress := progress r; currentStopIndex
     := currentStopIndex r; batteryCapacity := batteryCapacity r; batteryLevel :=
     batteryLevel r; batteryKwh := batteryKwh r; energyConsumed := energyConsumed r;
     distanceTraveled := distanceTraveled r; status := status r; dwellUntil := dwellUntil r;
     needsMidDayCharge := needsMidDayCharge r; midDayChargeChecked := midDayChargeChecked r;
     arrivedAtSchool := v; isCharging := isCharging r; usedMidDayCharge := usedMidDayCharge
     r; tripPhase := tripPhase r; chargingTimeHours := chargingTimeHours r; chargingStation
     := chargingStation r; chargingRate := chargingRate r; chargingKwhPerHour :=
     chargingKwhPerHour r; targetChargeKwh := targetChargeKwh r; chargerDestination :=
     chargerDestination r; needsReturnTrip := needsReturnTrip r; returnDestination :=
     returnDestination r; returnDistance := returnDistance r; returnProgress :=
     returnProgress r; returnPath := returnPath r; originalPosition := originalPosition r;
     deadheadProgress := deadheadProgress r; deadheadDistance := deadheadDistance r;
     deadheadPath := deadheadPath r; deadheadStartPosition := deadheadStartPosition r;
     deadheadEnergyNeeded := deadheadEnergyNeeded r |}.
Definition set_isCharging (v : bool) (r : Bus) : Bus :=
  {| busType := busType r; position := position r; progress := progress r; currentStopIndex
     := currentStopIndex r; batteryCapacity := batteryCapacity r; batteryLevel :=
     batteryLevel r; batteryKwh := batteryKwh r; energyConsumed := energyConsumed r;
     distanceTraveled := distanceTraveled r; status := status r; dwellUntil := dwellUntil r;
     needsMidDayCharge := needsMidDayCharge r; midDayChargeChecked := midDayChargeChecked r;
     arrivedAtSchool := arrivedAtSchool r; isCharging := v; usedMidDayCharge :=
     usedMidDayCharge r; tripPhase := tripPhase r; chargingTimeHours := chargingTimeHours r;
     chargingStation := chargingStation r; chargingRate := chargingRate r;
     chargingKwhPerHour := chargingKwhPerHour r; targetChargeKwh := targetChargeKwh r;
     chargerDestination := chargerDestination r; needsReturnTrip := needsReturnTrip r;
     returnDestination := returnDestination r; returnDistance := returnDistance r;
     returnProgress := returnProgress r; returnPath := returnPath r; originalPosition :=
     originalPosition r; deadheadProgress := deadheadProgress r; deadheadDistance :=
     deadheadDistance r; deadheadPath := deadheadPath r; deadheadStartPosition :=
     deadheadStartPosition r; deadheadEnergyNeeded := deadheadEnergyNeeded r |}.
Definition set_usedMidDayCharge (v : bool) (r : Bus) : Bus :=
  {| busType := busType r; position := position r; progress := progress r; currentStopIndex
     := currentStopIndex r; batteryCapacity := batteryCapacity r; batteryLevel :=
     batteryLevel r; batteryKwh := batteryKwh r; energyConsumed := energyConsumed r;
     distanceTraveled := distanceTraveled r; status := status r; dwellUntil := dwellUntil r;
     needsMidDayCharge := needsMidDayCharge r; midDayChargeChecked := midDayChargeChecked r;
     arrivedAtSchool := arrivedAtSchool r; isCharging := isCharging r; usedMidDayCharge :=
     v; tripPhase := tripPhase r; chargingTimeHours := chargingTimeHours r; chargingStation
     := chargingStation r; chargingRate := chargingRate r; chargingKwhPerHour :=
     chargingKwhPerHour r; targetChargeKwh := targetChargeKwh r; chargerDestination :=
     chargerDestination r; needsReturnTrip := needsReturnTrip r; returnDestination :=
     returnDestination r; returnDistance := returnDistance r; returnProgress :=
     returnProgress r; returnPath := returnPath r; originalPosition := originalPosition r;
     deadheadProgress := deadheadProgress r; deadheadDistance := deadheadDistance r;
     deadheadPath := deadheadPath r; deadheadStartPosition := deadheadStartPosition r;
     deadheadEnergyNeeded := deadheadEnergyNeeded r |}.
Definition set_tripPhase (v : TripPhase) (r : Bus) : Bus :=
  {| busType := busType r; position := position r; progress := progress r; currentStopIndex
     := currentStopIndex r; batteryCapacity := batteryCapacity r; batteryLevel :=
     batteryLevel r; batteryKwh := batteryKwh r; energyConsumed := energyConsumed r;
     distanceTraveled := distanceTraveled r; status := status r; dwellUntil := dwellUntil r;
     needsMidDayCharge := needsMidDayCharge r; midDayChargeChecked := midDayChargeChecked r;
     arrivedAtSchool := arrivedAtSchool r; isCharging := isCharging r; usedMidDayCharge :=
     usedMidDayCharge r; tripPhase := v; chargingTimeHours := chargingTimeHours r;
     chargingStation := chargingStation r; chargingRate := chargingRate r;
     chargingKwhPerHour := chargingKwhPerHour r; targetChargeKwh := targetChargeKwh r;
     chargerDestination := chargerDestination r; needsReturnTrip := needsReturnTrip r;
     returnDestination := returnDestination r; returnDistance := returnDistance r;
     returnProgress := returnProgress r; returnPath := returnPath r; originalPosition :=
     originalPosition r; deadheadProgress := deadheadProgress r; deadheadDistance :=
     deadheadDistance r; deadheadPath := deadheadPath r; deadheadStartPosition :=
     deadheadStartPosition r; deadheadEnergyNeeded := deadheadEnergyNeeded r |}.
Definition set_chargingTimeHours (v : Q) (r : Bus) : Bus :=
  {| busType := busType r; position := position r; progress := progress r; currentStopIndex
     := currentStopIndex r; batteryCapacity := batteryCapacity r; batteryLevel :=
     batteryLevel r; batteryKwh := batteryKwh r; energyConsumed := energyConsumed r;
     distanceTraveled := distanceTraveled r; status := status r; dwellUntil := dwellUntil r;
     needsMidDayCharge := needsMidDayCharge r; midDayChargeChecked := midDayChargeChecked r;
     arrivedAtSchool := arrivedAtSchool r; isCharging := isCharging r; usedMidDayCharge :=
     usedMidDayCharge r; tripPhase := tripPhase r; chargingTimeHours := v; chargingStation
     := chargingStation r; chargingRate := chargingRate r; chargingKwhPerHour :=
     chargingKwhPerHour r; targetChargeKwh := targetChargeKwh r; chargerDestination :=
     chargerDestination r; needsReturnTrip := needsReturnTrip r; returnDestination :=
     returnDestination r; returnDistance := returnDistance r; returnProgress :=
     returnProgress r; returnPath := returnPath r; originalPosition := originalPosition r;
     deadheadProgress := deadheadProgress r; deadheadDistance := deadheadDistance r;
     deadheadPath := deadheadPath r; deadheadStartPosition := deadheadStartPosition r;
     deadheadEnergyNeeded := deadheadEnergyNeeded r |}.
Definition set_chargingStation (v : option string) (r : Bus) : Bus :=
  {| busType := busType r; position := position r; progress := progress r; currentStopIndex
     := currentStopIndex r; batteryCapacity := batteryCapacity r; batteryLevel :=
     batteryLevel r; batteryKwh := batteryKwh r; energyConsumed := energyConsumed r;
     distanceTraveled := distanceTraveled r; status := status r; dwellUntil := dwellUntil r;
     needsMidDayCharge := needsMidDayCharge r; midDayChargeChecked := midDayChargeChecked r;
     arrivedAtSchool := arrivedAtSchool r; isCharging := isCharging r; usedMidDayCharge :=
     usedMidDayCharge r; tripPhase := tripPhase r; chargingTimeHours := chargingTimeHours r;
     chargingStation := v; chargingRate := chargingRate r; chargingKwhPerHour :=
     chargingKwhPerHour r; targetChargeKwh := targetChargeKwh r; chargerDestination :=
     chargerDestination r; needsReturnTrip := needsReturnTrip r; returnDestination :=
     returnDestination r; returnDistance := returnDistance r; returnProgress :=
     returnProgress r; returnPath := returnPath r; originalPosition := originalPosition r;
     deadheadProgress := deadheadProgress r; deadheadDistance := deadheadDistance r;
     deadheadPath := deadheadPath r; deadheadStartPosition := deadheadStartPosition r;
     deadheadEnergyNeeded := deadheadEnergyNeeded r |}.
Definition set_chargingRate (v : option Q) (r : Bus) : Bus :=
  {| busType := busType r; position := position r; progress := progress r; currentStopIndex
     := currentStopIndex r; batteryCapacity := batteryCapacity r; batteryLevel :=
     batteryLevel r; batteryKwh := batteryKwh r; energyConsumed := energyConsumed r;
     distanceTraveled := distanceTraveled r; status := status r; dwellUntil := dwellUntil r;
     needsMidDayCharge := needsMidDayCharge r; midDayChargeChecked := midDayChargeChecked r;
     arrivedAtSchool := arrivedAtSchool r; isCharging := isCharging r; usedMidDayCharge :=
     usedMidDayCharge r; tripPhase := tripPhase r; chargingTimeHours := chargingTimeHours r;
     chargingStation := chargingStation r; chargingRate := v; chargingKwhPerHour :=
     chargingKwhPerHour r; targetChargeKwh := targetChargeKwh r; chargerDestination :=
     chargerDestination r; needsReturnTrip := needsReturnTrip r; returnDestination :=
     returnDestination r; returnDistance := returnDistance r; returnProgress :=
     returnProgress r; returnPath := returnPath r; originalPosition := originalPosition r;
     deadheadProgress := deadheadProgress r; deadheadDistance := deadheadDistance r;
     deadheadPath := deadheadPath r; deadheadStartPosition := deadheadStartPosition r;
     deadheadEnergyNeeded := deadheadEnergyNeeded r |}.
Definition set_chargingKwhPerHour (v : option Q) (r : Bus) : Bus :=
  {| busType := busType r; position := position r; progress := progress r; currentStopIndex
     := currentStopIndex r; batteryCapacity := batteryCapacity r; batteryLevel :=
     batteryLevel r; batteryKwh := batteryKwh r; energyConsumed := energyConsumed r;
     distanceTraveled := distanceTraveled r; status := status r; dwellUntil := dwellUntil r;
     needsMidDayCharge := needsMidDayCharge r; midDayChargeChecked := midDayChargeChecked r;
     arrivedAtSchool := arrivedAtSchool r; isCharging := isCharging r; usedMidDayCharge :=
     usedMidDayCharge r; tripPhase := tripPhase r; chargingTimeHours := chargingTimeHours r;
     chargingStation := chargingStation r; chargingRate := chargingRate r;
     chargingKwhPerHour := v; targetChargeKwh := targetChargeKwh r; chargerDestination :=
     chargerDestination r; needsReturnTrip := needsReturnTrip r; returnDestination :=
     returnDestination r; returnDistance := returnDistance r; returnProgress :=
     returnProgress r; returnPath := returnPath r; originalPosition := originalPosition r;
     deadheadProgress := deadheadProgress r; deadheadDistance := deadheadDistance r;
     deadheadPath := deadheadPath r; deadheadStartPosition := deadheadStartPosition r;
     deadheadEnergyNeeded := deadheadEnergyNeeded r |}.
Definition set_targetChargeKwh (v : option Q) (r : Bus) : Bus :=
  {| busType := busType r; position := position r; progress := progress r; currentStopIndex
     := currentStopIndex r; batteryCapacity := batteryCapacity r; batteryLevel :=
     batteryLevel r; batteryKwh := batteryKwh r; energyConsumed := energyConsumed r;
     distanceTraveled := distanceTraveled r; status := status r; dwellUntil := dwellUntil r;
     needsMidDayCharge := needsMidDayCharge r; midDayChargeChecked := midDayChargeChecked r;
     arrivedAtSchool := arrivedAtSchool r; isCharging := isCharging r; usedMidDayCharge :=
     usedMidDayCharge r; tripPhase := tripPhase r; chargingTimeHours := chargingTimeHours r;
     chargingStation := chargingStation r; chargingRate := chargingRate r;
     chargingKwhPerHour := chargingKwhPerHour r; targetChargeKwh := v; chargerDestination :=
     chargerDestination r; needsReturnTrip := needsReturnTrip r; returnDestination :=
     returnDestination r; returnDistance := returnDistance r; returnProgress :=
     returnProgress r; returnPath := returnPath r; originalPosition := originalPosition r;
     deadheadProgress := deadheadProgress r; deadheadDistance := deadheadDistance r;
     deadheadPath := deadheadPath r; deadheadStartPosition := deadheadStartPosition r;
     deadheadEnergyNeeded := deadheadEnergyNeeded r |}.
Definition set_chargerDestination (v : option Coord) (r : Bus) : Bus :=
  {| busType := busType r; position := position r; progress := progress r; currentStopIndex
     := currentStopIndex r; batteryCapacity := batteryCapacity r; batteryLevel :=
     batteryLevel r; batteryKwh := batteryKwh r; energyConsumed := energyConsumed r;
     distanceTraveled := distanceTraveled r; status := status r; dwellUntil := dwellUntil r;
     needsMidDayCharge := needsMidDayCharge r; midDayChargeChecked := midDayChargeChecked r;
     arrivedAtSchool := arrivedAtSchool r; isCharging := isCharging r; usedMidDayCharge :=
     usedMidDayCharge r; tripPhase := tripPhase r; chargingTimeHours := chargingTimeHours r;
     chargingStation := chargingStation r; chargingRate := chargingRate r;
     chargingKwhPerHour := chargingKwhPerHour r; targetChargeKwh := targetChargeKwh r;
     chargerDestination := v; needsReturnTrip := needsReturnTrip r; returnDestination :=
     returnDestination r; returnDistance := returnDistance r; returnProgress :=
     returnProgress r; returnPath := returnPath r; originalPosition := originalPosition r;
     deadheadProgress := deadheadProgress r; deadheadDistance := deadheadDistance r;
     deadheadPath := deadheadPath r; deadheadStartPosition := deadheadStartPosition r;
     deadheadEnergyNeeded := deadheadEnergyNeeded r |}.
Definition set_needsReturnTrip (v : bool) (r : Bus) : Bus :=
  {| busType := busType r; position := position r; progress := progress r; currentStopIndex
     := currentStopIndex r; batteryCapacity := batteryCapacity r; batteryLevel :=
     batteryLevel r; batteryKwh := batteryKwh r; energyConsumed := energyConsumed r;
     distanceTraveled := distanceTraveled r; status := status r; dwellUntil := dwellUntil r;
     needsMidDayCharge := needsMidDayCharge r; midDayChargeChecked := midDayChargeChecked r;
     arrivedAtSchool := arrivedAtSchool r; isCharging := isCharging r; usedMidDayCharge :=
     usedMidDayCharge r; tripPhase := tripPhase r; chargingTimeHours := chargingTimeHours r;
     chargingStation := chargingStation r; chargingRate := chargingRate r;
     chargingKwhPerHour := chargingKwhPerHour r; targetChargeKwh := targetChargeKwh r;
     chargerDestination := chargerDestination r; needsReturnTrip := v; returnDestination :=
     returnDestination r; returnDistance := returnDistance r; returnProgress :=
     returnProgress r; returnPath := returnPath r; originalPosition := originalPosition r;
     deadheadProgress := deadheadProgress r; deadheadDistance := deadheadDistance r;
     deadheadPath := deadheadPath r; deadheadStartPosition := deadheadStartPosition r;
     deadheadEnergyNeeded := deadheadEnergyNeeded r |}.
Definition set_returnDestination (v : option Coord) (r : Bus) : Bus :=
  {| busType := busType r; position := position r; progress := progress r; currentStopIndex
     := currentStopIndex r; batteryCapacity := batteryCapacity r; batteryLevel :=
     batteryLevel r; batteryKwh := batteryKwh r; energyConsumed := energyConsumed r;
     distanceTraveled := distanceTraveled r; status := status r; dwellUntil := dwellUntil r;
     needsMidDayCharge := needsMidDayCharge r; midDayChargeChecked := midDayChargeChecked r;
     arrivedAtSchool := arrivedAtSchool r; isCharging := isCharging r; usedMidDayCharge :=
     usedMidDayCharge r; tripPhase := tripPhase r; chargingTimeHours := chargingTimeHours r;
     chargingStation := chargingStation r; chargingRate := chargingRate r;
     chargingKwhPerHour := chargingKwhPerHour r; targetChargeKwh := targetChargeKwh r;
     chargerDestination := chargerDestination r; needsReturnTrip := needsReturnTrip r;
     returnDestination := v; returnDistance := returnDistance r; returnProgress :=
     returnProgress r; returnPath := returnPath r; originalPosition := originalPosition r;
     deadheadProgress := deadheadProgress r; deadheadDistance := deadheadDistance r;
     deadheadPath := deadheadPath r; deadheadStartPosition := deadheadStartPosition r;
     deadheadEnergyNeeded := deadheadEnergyNeeded r |}.
Definition set_returnDistance (v : option Q) (r : Bus) : Bus :=
  {| busType := busType r; position := position r; progress := progress r; currentStopIndex
     := currentStopIndex r; batteryCapacity := batteryCapacity r; batteryLevel :=
     batteryLevel r; batteryKwh := batteryKwh r; energyConsumed := energyConsumed r;
     distanceTraveled := distanceTraveled r; status := status r; dwellUntil := dwellUntil r;
     needsMidDayCharge := needsMidDayCharge r; midDayChargeChecked := midDayChargeChecked r;
     arrivedAtSchool := arrivedAtSchool r; isCharging := isCharging r; usedMidDayCharge :=
     usedMidDayCharge r; tripPhase := tripPhase r; chargingTimeHours := chargingTimeHours r;
     chargingStation := chargingStation r; chargingRate := chargingRate r;
     chargingKwhPerHour := chargingKwhPerHour r; targetChargeKwh := targetChargeKwh r;
     chargerDestination := chargerDestination r; needsReturnTrip := needsReturnTrip r;
     returnDestination := returnDestination r; returnDistance := v; returnProgress :=
     returnProgress r; returnPath := returnPath r; originalPosition := originalPosition r;
     deadheadProgress := deadheadProgress r; deadheadDistance := deadheadDistance r;
     deadheadPath := deadheadPath r; deadheadStartPosition := deadheadStartPosition r;
     deadheadEnergyNeeded := deadheadEnergyNeeded r |}.
Definition set_returnProgress (v : option Q) (r : Bus) : Bus :=
  {| busType := busType r; position := position r; progress := progress r; currentStopIndex
     := currentStopIndex r; batteryCapacity := batteryCapacity r; batteryLevel :=
     batteryLevel r; batteryKwh := batteryKwh r; energyConsumed := energyConsumed r;
     distanceTraveled := distanceTraveled r; status := status r; dwellUntil := dwellUntil r;
     needsMidDayCharge := needsMidDayCharge r; midDayChargeChecked := midDayChargeChecked r;
     arrivedAtSchool := arrivedAtSchool r; isCharging := isCharging r; usedMidDayCharge :=
     usedMidDayCharge r; tripPhase := tripPhase r; chargingTimeHours := chargingTimeHours r;
     chargingStation := chargingStation r; chargingRate := chargingRate r;
     chargingKwhPerHour := chargingKwhPerHour r; targetChargeKwh := targetChargeKwh r;
     chargerDestination := chargerDestination r; needsReturnTrip := needsReturnTrip r;
     returnDestination := returnDestination r; returnDistance := returnDistance r;
     returnProgress := v; returnPath := returnPath r; originalPosition := originalPosition
     r; deadheadProgress := deadheadProgress r; deadheadDistance := deadheadDistance r;
     deadheadPath := deadheadPath r; deadheadStartPosition := deadheadStartPosition r;
     deadheadEnergyNeeded := deadheadEnergyNeeded r |}.
Definition set_returnPath (v : option (list Coord)) (r : Bus) : Bus :=
  {| busType := busType r; position := position r; progress := progress r; currentStopIndex
     := currentStopIndex r; batteryCapacity := batteryCapacity r; batteryLevel :=
     batteryLevel r; batteryKwh := batteryKwh r; energyConsumed := energyConsumed r;
     distanceTraveled := distanceTraveled r; status := status r; dwellUntil := dwellUntil r;
     needsMidDayCharge := needsMidDayCharge r; midDayChargeChecked := midDayChargeChecked r;
     arrivedAtSchool := arrivedAtSchool r; isCharging := isCharging r; usedMidDayCharge :=
     usedMidDayCharge r; tripPhase := tripPhase r; chargingTimeHours := chargingTimeHours r;
     chargingStation := chargingStation r; chargingRate := chargingRate r;
     chargingKwhPerHour := chargingKwhPerHour r; targetChargeKwh := targetChargeKwh r;
     chargerDestination := chargerDestination r; needsReturnTrip := needsReturnTrip r;
     returnDestination := returnDestination r; returnDistance := returnDistance r;
     returnProgress := returnProgress r; returnPath := v; originalPosition :=
     originalPosition r; deadheadProgress := deadheadProgress r; deadheadDistance :=
     deadheadDistance r; deadheadPath := deadheadPath r; deadheadStartPosition :=
     deadheadStartPosition r; deadheadEnergyNeeded := deadheadEnergyNeeded r |}.
Definition set_originalPosition (v : option Coord) (r : Bus) : Bus :=
  {| busType := busType r; position := position r; progress := progress r; currentStopIndex
     := currentStopIndex r; batteryCapacity := batteryCapacity r; batteryLevel :=
     batteryLevel r; batteryKwh := batteryKwh r; energyConsumed := energyConsumed r;
     distanceTraveled := distanceTraveled r; status := status r; dwellUntil := dwellUntil r;
     needsMidDayCharge := needsMidDayCharge r; midDayChargeChecked := midDayChargeChecked r;
     arrivedAtSchool := arrivedAtSchool r; isCharging := isCharging r; usedMidDayCharge :=
     usedMidDayCharge r; tripPhase := tripPhase r; chargingTimeHours := chargingTimeHours r;
     chargingStation := chargingStation r; chargingRate := chargingRate r;
     chargingKwhPerHour := chargingKwhPerHour r; targetChargeKwh := targetChargeKwh r;
     chargerDestination := chargerDestination r; needsReturnTrip := needsReturnTrip r;
     returnDestination := returnDestination r; returnDistance := returnDistance r;
     returnProgress := returnProgress r; returnPath := returnPath r; originalPosition := v;
     deadheadProgress := deadheadProgress r; deadheadDistance := deadheadDistance r;
     deadheadPath := deadheadPath r; deadheadStartPosition := deadheadStartPosition r;
     deadheadEnergyNeeded := deadheadEnergyNeeded r |}.
Definition set_deadheadProgress (v : option Q) (r : Bus) : Bus :=
  {| busType := busType r; position := position r; progress := progress r; currentStopIndex
     := currentStopIndex r; batteryCapacity := batteryCapacity r; batteryLevel :=
     batteryLevel r; batteryKwh := batteryKwh r; energyConsumed := energyConsumed r;
     distanceTraveled := distanceTraveled r; status := status r; dwellUntil := dwellUntil r;
     needsMidDayCharge := needsMidDayCharge r; midDayChargeChecked := midDayChargeChecked r;
     arrivedAtSchool := arrivedAtSchool r; isCharging := isCharging r; usedMidDayCharge :=
     usedMidDayCharge r; tripPhase := tripPhase r; chargingTimeHours := chargingTimeHours r;
     chargingStation := chargingStation r; chargingRate := chargingRate r;
     chargingKwhPerHour := chargingKwhPerHour r; targetChargeKwh := targetChargeKwh r;
     chargerDestination := chargerDestination r; needsReturnTrip := needsReturnTrip r;
     returnDestination := returnDestination r; returnDistance := returnDistance r;
     returnProgress := returnProgress r; returnPath := returnPath r; originalPosition :=
     originalPosition r; deadheadProgress := v; deadheadDistance := deadheadDistance r;
     deadheadPath := deadheadPath r; deadheadStartPosition := deadheadStartPosition r;
     deadheadEnergyNeeded := deadheadEnergyNeeded r |}.
Definition set_deadheadDistance (v : option Q) (r : Bus) : Bus :=
  {| busType := busType r; position := position r; progress := progress r; currentStopIndex
     := currentStopIndex r; batteryCapacity := batteryCapacity r; batteryLevel :=
     batteryLevel r; batteryKwh := batteryKwh r; energyConsumed := energyConsumed r;
     distanceTraveled := distanceTraveled r; status := status r; dwellUntil := dwellUntil r;
     needsMidDayCharge := needsMidDayCharge r; midDayChargeChecked := midDayChargeChecked r;
     arrivedAtSchool := arrivedAtSchool r; isCharging := isCharging r; usedMidDayCharge :=
     usedMidDayCharge r; tripPhase := tripPhase r; chargingTimeHours := chargingTimeHours r;
     chargingStation := chargingStation r; chargingRate := chargingRate r;
     chargingKwhPerHour := chargingKwhPerHour r; targetChargeKwh := targetChargeKwh r;
     chargerDestination := chargerDestination r; needsReturnTrip := needsReturnTrip r;
     returnDestination := returnDestination r; returnDistance := returnDistance r;
     returnProgress := returnProgress r; returnPath := returnPath r; originalPosition :=
     originalPosition r; deadheadProgress := deadheadProgress r; deadheadDistance := v;
     deadheadPath := deadheadPath r; deadheadStartPosition := deadheadStartPosition r;
     deadheadEnergyNeeded := deadheadEnergyNeeded r |}.
Definition set_deadheadPath (v : option (list Coord)) (r : Bus) : Bus :=
  {| busType := busType r; position := position r; progress := progress r; currentStopIndex
     := currentStopIndex r; batteryCapacity := batteryCapacity r; batteryLevel :=
     batteryLevel r; batteryKwh := batteryKwh r; energyConsumed := energyConsumed r;
     distanceTraveled := distanceTraveled r; status := status r; dwellUntil := dwellUntil r;
     needsMidDayCharge := needsMidDayCharge r; midDayChargeChecked := midDayChargeChecked r;
     arrivedAtSchool := arrivedAtSchool r; isCharging := isCharging r; usedMidDayCharge :=
     usedMidDayCharge r; tripPhase := tripPhase r; chargingTimeHours := chargingTimeHours r;
     chargingStation := chargingStation r; chargingRate := chargingRate r;
     chargingKwhPerHour := chargingKwhPerHour r; targetChargeKwh := targetChargeKwh r;
     chargerDestination := chargerDestination r; needsReturnTrip := needsReturnTrip r;
     returnDestination := returnDestination r; returnDistance := returnDistance r;
     returnProgress := returnProgress r; returnPath := returnPath r; originalPosition :=
     originalPosition r; deadheadProgress := deadheadProgress r; deadheadDistance :=
     deadheadDistance r; deadheadPath := v; deadheadStartPosition := deadheadStartPosition
     r; deadheadEnergyNeeded := deadheadEnergyNeeded r |}.
Definition set_deadheadStartPosition (v : option Coord) (r : Bus) : Bus :=
  {| busType := busType r; position := position r; progress := progress r; currentStopIndex
     := currentStopIndex r; batteryCapacity := batteryCapacity r; batteryLevel :=
     batteryLevel r; batteryKwh := batteryKwh r; energyConsumed := energyConsumed r;
     distanceTraveled := distanceTraveled r; status := status r; dwellUntil := dwellUntil r;
     needsMidDayCharge := needsMidDayCharge r; midDayChargeChecked := midDayChargeChecked r;
     arrivedAtSchool := arrivedAtSchool r; isCharging := isCharging r; usedMidDayCharge :=
     usedMidDayCharge r; tripPhase := tripPhase r; chargingTimeHours := chargingTimeHours r;
     chargingStation := chargingStation r; chargingRate := chargingRate r;
     chargingKwhPerHour := chargingKwhPerHour r; targetChargeKwh := targetChargeKwh r;
     chargerDestination := chargerDestination r; needsReturnTrip := needsReturnTrip r;
     returnDestination := returnDestination r; returnDistance := returnDistance r;
     returnProgress := returnProgress r; returnPath := returnPath r; originalPosition :=
     originalPosition r; deadheadProgress := deadheadProgress r; deadheadDistance :=
     deadheadDistance r; deadheadPath := deadheadPath r; deadheadStartPosition := v;
     deadheadEnergyNeeded := deadheadEnergyNeeded r |}.
Definition set_deadheadEnergyNeeded (v : option Q) (r : Bus) : Bus :=
  {| busType := busType r; position := position r; progress := progress r; currentStopIndex
     := currentStopIndex r; batteryCapacity := batteryCapacity r; batteryLevel :=
     batteryLevel r; batteryKwh := batteryKwh r; energyConsumed := energyConsumed r;
     distanceTraveled := distanceTraveled r; status := status r; dwellUntil := dwellUntil r;
     needsMidDayCharge := needsMidDayCharge r; midDayChargeChecked := midDayChargeChecked r;
     arrivedAtSchool := arrivedAtSchool r; isCharging := isCharging r; usedMidDayCharge :=
     usedMidDayCharge r; tripPhase := tripPhase r; chargingTimeHours := chargingTimeHours r;
     chargingStation := chargingStation r; chargingRate := chargingRate r;
     chargingKwhPerHour := chargingKwhPerHour r; targetChargeKwh := targetChargeKwh r;
     chargerDestination := chargerDestination r; needsReturnTrip := needsReturnTrip r;
     returnDestination := returnDestination r; returnDistance := returnDistance r;
     returnProgress := returnProgress r; returnPath := returnPath r; originalPosition :=
     originalPosition r; deadheadProgress := deadheadProgress r; deadheadDistance :=
     deadheadDistance r; deadheadPath := deadheadPath r; deadheadStartPosition :=
     deadheadStartPosition r; deadheadEnergyNeeded := v |}.

(** The global application state of [state.js], with the single bus and the single route of a scenario. *)
Record State : Type := mkState {
  config : Config.t;
  week : Week.t;
  weather : Weather;
  decisions : list NightlyDecision;
  bus : Bus;
  route : Route.t;
  stats : Stats.t;
  score : Score.t;
  pendingCharge : option PendingCharge;
  running : bool;
  paused : bool;
  simTripPhase : TripPhase;
  currentTime : Q;
  showNightlyChargingModal : bool
}.

Definition set_config (v : Config.t) (r : State) : State :=
  {| config := v; week := week r; weather := weather r; decisions := decisions r; bus := bus
     r; route := route r; stats := stats r; score := score r; pendingCharge := pendingCharge
     r; running := running r; paused := paused r; simTripPhase := simTripPhase r;
     currentTime := currentTime r; showNightlyChargingModal := showNightlyChargingModal r |}.
Definition set_week (v : Week.t) (r : State) : State :=
  {| config := config r; week := v; weather := weather r; decisions := decisions r; bus :=
     bus r; route := route r; stats := stats r; score := score r; pendingCharge :=
     pendingCharge r; running := running r; paused := paused r; simTripPhase := simTripPhase
     r; currentTime := currentTime r; showNightlyChargingModal := showNightlyChargingModal r |}.
Definition set_weather (v : Weather) (r : State) : State :=
  {| config := config r; week := week r; weather := v; decisions := decisions r; bus := bus
     r; route := route r; stats := stats r; score := score r; pendingCharge := pendingCharge
     r; running := running r; paused := paused r; simTripPhase := simTripPhase r;
     currentTime := currentTime r; showNightlyChargingModal := showNightlyChargingModal r |}.
Definition set_decisions (v : list NightlyDecision) (r : State) : State :=
  {| config := config r; week := week r; weather := weather r; decisions := v; bus := bus r;
     route := route r; stats := stats r; score := score r; pendingCharge := pendingCharge r;
     running := running r; paused := paused r; simTripPhase := simTripPhase r; currentTime
     := currentTime r; showNightlyChargingModal := showNightlyChargingModal r |}.
Definition set_bus (v : Bus) (r : State) : State :=
  {| config := config r; week := week r; weather := weather r; decisions := decisions r; bus
     := v; route := route r; stats := stats r; score := score r; pendingCharge :=
     pendingCharge r; running := running r; paused := paused r; simTripPhase := simTripPhase
     r; currentTime := currentTime r; showNightlyChargingModal := showNightlyChargingModal r |}.
Definition set_route (v : Route.t) (r : State) : State :=
  {| config := config r; week := week r; weather := weather r; decisions := decisions r; bus
     := bus r; route := v; stats := stats r; score := score r; pendingCharge :=
     pendingCharge r; running := running r; paused := paused r; simTripPhase := simTripPhase
     r; currentTime := currentTime r; showNightlyChargingModal := showNightlyChargingModal r |}.
Definition set_stats (v : Stats.t) (r : State) : State :=
  {| config := config r; week := week r; weather := weather r; decisions := decisions r; bus
     := bus r; route := route r; stats := v; score := score r; pendingCharge :=
     pendingCharge r; running := running r; paused := paused r; simTripPhase := simTripPhase
     r; currentTime := currentTime r; showNightlyChargingModal := showNightlyChargingModal r |}.
Definition set_score (v : Score.t) (r : State) : State :=
  {| config := config r; week := week r; weather := weather r; decisions := decisions r; bus
     := bus r; route := route r; stats := stats r; score := v; pendingCharge :=
     pendingCharge r; running := running r; paused := paused r; simTripPhase := simTripPhase
     r; currentTime := currentTime r; showNightlyChargingModal := showNightlyChargingModal r |}.
Definition set_pendingCharge (v : option PendingCharge) (r : State) : State :=
  {| config := config r; week := week r; weather := weather r; decisions := decisions r; bus
     := bus r; route := route r; stats := stats r; score := score r; pendingCharge := v;
     running := running r; paused := paused r; simTripPhase := simTripPhase r; currentTime
     := currentTime r; showNightlyChargingModal := showNightlyChargingModal r |}.
Definition set_running (v : bool) (r : State) : State :=
  {| config := config r; week := week r; weather := weather r; decisions := decisions r; bus
     := bus r; route := route r; stats := stats r; score := score r; pendingCharge :=
     pendingCharge r; running := v; paused := paused r; simTripPhase := simTripPhase r;
     currentTime := currentTime r; showNightlyChargingModal := showNightlyChargingModal r |}.
Definition set_paused (v : bool) (r : State) : State :=
  {| config := config r; week := week r; weather := weather r; decisions := decisions r; bus
     := bus r; route := route r; stats := stats r; score := score r; pendingCharge :=
     pendingCharge r; running := running r; paused := v; simTripPhase := simTripPhase r;
     currentTime := currentTime r; showNightlyChargingModal := showNightlyChargingModal r |}.
Definition set_simTripPhase (v : TripPhase) (r : State) : State :=
  {| config := config r; week := week r; weather := weather r; decisions := decisions r; bus
     := bus r; route := route r; stats := stats r; score := score r; pendingCharge :=
     pendingCharge r; running := running r; paused := paused r; simTripPhase := v;
     currentTime := currentTime r; showNightlyChargingModal := showNightlyChargingModal r |}.
Definition set_currentTime (v : Q) (r : State) : State :=
  {| config := config r; week := week r; weather := weather r; decisions := decisions r; bus
     := bus r; route := route r; stats := stats r; score := score r; pendingCharge :=
     pendingCharge r; running := running r; paused := paused r; simTripPhase := simTripPhase
     r; currentTime := v; showNightlyChargingModal := showNightlyChargingModal r |}.
Definition set_showNightlyChargingModal (v : bool) (r : State) : State :=
  {| config := config r; week := week r; weather := weather r; decisions := decisions r; bus
     := bus r; route := route r; stats := stats r; score := score r; pendingCharge :=
     pendingCharge r; running := running r; paused := paused r; simTripPhase := simTripPhase
     r; currentTime := currentTime r; showNightlyChargingModal := v |}.

(** ** simulation.js: the engine *)

Definition with_bus (f : Bus -> Bus) (s : State) : State := set_bus (f (bus s)) s.
Definition with_route (f : Route.t -> Route.t) (s : State) : State := set_route (f (route s)) s.
Definition with_stats (f : Stats.t -> Stats.t) (s : State) : State := set_stats (f (stats s)) s.
Definition with_week (f : Week.t -> Week.t) (s : State) : State := set_week (f (week s)) s.
Definition with_score (f : Score.t -> Score.t) (s : State) : State := set_score (f (score s)) s.
Definition with_config (f : Config.t -> Config.t) (s : State) : State :=
  set_config (f (config s)) s.

(** *** state.js accessors *)

Definition addDayScore (dayScore : DayScore) (s : State) : State :=
  with_score (fun sc =>
    sc |> Score.set_dayScores (Score.dayScores sc ++ [dayScore])
       |> Score.set_total (Score.total sc + ds_points dayScore)%Z) s.

Definition addBonus (bonus : ScoreRecord) (s : State) : State :=
  with_score (fun sc =>
    sc |> Score.set_bonuses (Score.bonuses sc ++ [bonus])
       |> Score.set_total (Score.total sc + sr_points bonus)%Z) s.

Definition addPenalty (penalty : ScoreRecord) (s : State) : State :=
  with_score (fun sc =>
    sc |> Score.set_penalties (Score.penalties sc ++ [penalty])
       |> Score.set_total (Score.total sc + sr_points penalty)%Z) s.

Definition recordNightlyCharging (decision : NightlyDecision) (s : State) : State :=
  s |> set_decisions (decisions s ++ [decision])
    |> with_week (fun w => Week.set_totalOvernightCost (Week.totalOvernightCost w + nd_cost decision) w).

Definition findSchedule (day : nat) (schedule : list ScheduleDay) : option ScheduleDay :=
  find (fun d => Nat.eqb (sd_day d) day) schedule.

(** [advanceDay]: the new state and whether more days remain. *)
Definition advanceDay (s : State) : bool * State :=
  let currentDay := Week.currentDay (week s) in
  let result :=
    {| dr_day := currentDay;
       dr_weather := weather s;
       dr_midDayCharged := (0 <? Stats.midDayCharges (stats s))%nat;
       dr_cost := Stats.electricCost (stats s);
       dr_distance := Stats.totalDistance (stats s);
       dr_energyConsumed := Stats.totalEnergyConsumed (stats s) |} in
  let s1 :=
    with_week (fun w =>
      w |> Week.set_dayResults (Week.dayResults w ++ [result])
        |> Week.set_totalMidDayCharges
             (Week.totalMidDayCharges w + Stats.midDayCharges (stats s))%nat
        |> Week.set_totalMidDayCost
             (Week.totalMidDayCost w + Stats.midDayChargingCost (stats s))
        |> Week.set_currentDay (S currentDay)) s in
  let s2 :=
    match findSchedule (Week.currentDay (week s1)) (Week.schedule (week s1)) with
    | Some nextDaySchedule => set_weather (sd_weather nextDaySchedule) s1
    | None => s1
    end in
  ((Week.currentDay (week s2) <=? 3)%nat, s2).

Definition resetStats (s : State) : State :=
  set_stats
    {| Stats.totalDistance := 0; Stats.totalEnergyConsumed := 0; Stats.electricCost := 0;
       Stats.midDayCharges := 0; Stats.midDayChargingCost := 0; Stats.midDayChargingKwh := 0;
       Stats.nightlyChargingKwh := 0; Stats.nightlyChargingCost := 0;
       Stats.deadheadMiles := 0; Stats.completedRoutes := 0; Stats.co2Avoided := 0;
       Stats.pickupsCompleted := 0; Stats.v2gEarnings := 0; Stats.v2gKwhDischarged := 0 |} s.

Definition resetSimulationState (s : State) : State :=
  s |> set_running false |> set_paused false |> set_simTripPhase phase_am
    |> set_currentTime 5.

Definition resetWeek (s : State) : State :=
  let pattern := Config.weatherPattern (config s) in
  s |> set_week
         {| Week.currentDay := 1; Week.schedule := WEATHER_PATTERNS.schedule pattern;
            Week.dayResults := []; Week.totalMidDayCharges := 0; Week.totalMidDayCost := 0;
            Week.totalOvernightCost := 0; Week.totalV2GEarnings := 0; Week.totalV2GKwh := 0 |}
    |> set_weather
         match WEATHER_PATTERNS.schedule pattern with
         | d :: _ => sd_weather d
         | [] => weather s
         end
    |> set_score
         {| Score.total := 0; Score.dayScores := []; Score.bonuses := [];
            Score.penalties := [] |}
    |> set_decisions []
    |> set_pendingCharge None.

(** *** Time and energy *)

Definition calculateTimeFromProgress (progress chargingTimeHours : Q) (atSchool : bool) : Q :=
  if (progress <? 0.5) && negb atSchool then
    let amProgress := progress / 0.5 in
    let amHours := TIME_WINDOWS.amTripEnd - TIME_WINDOWS.amTripStart in
    TIME_WINDOWS.amTripStart + amProgress * amHours
  else if atSchool || (chargingTimeHours >? 0) then
    let chargingStartTime := TIME_WINDOWS.midDayStart in
    let currentChargingTime :=
      Qmin chargingTimeHours (TIME_WINDOWS.midDayEnd - TIME_WINDOWS.midDayStart) in
    chargingStartTime + currentChargingTime
  else
    let pmProgress := (progress - 0.5) / 0.5 in
    let pmHours := TIME_WINDOWS.pmTripEnd - TIME_WINDOWS.pmTripStart in
    TIME_WINDOWS.pmTripStart + pmProgress * pmHours.

Definition getTripPhase (progress : Q) (isCharging : bool) : TripPhase :=
  if progress <? 0.45 then phase_am
  else if (progress <? 0.55) || isCharging then phase_midday
  else phase_pm.

Definition getEfficiency (busType : string) (weather : Weather) : Q :=
  if (busType =? "A")%string then ESB_EFFICIENCY.typeA weather
  else ESB_EFFICIENCY.typeC weather.

Definition calculateCO2Avoided (distanceMiles : Q) (busType : string) : Q :=
  let mpg := if (busType =? "typeC")%string then DIESEL_MPG.typeC else DIESEL_MPG.typeA in
  let gallonsAvoided := distanceMiles / mpg in
  let co2Avoided := gallonsAvoided * CO2_CONFIG.poundsPerGallon in
  if (busType =? "typeC")%string then co2Avoided * CO2_CONFIG.typeCMultiplier
  else co2Avoided.

(** *** Day start *)

(** The start position: [route.path?.[0] || route.stops?.[0]?.coords]. *)
Definition routeStart (r : Route.t) : option Coord :=
  match Route.path r with
  | Some (p :: _) => Some p
  | _ =>
      match Route.stops r with
      | st :: _ => Some (Stop.coords st)
      | [] => None
      end
  end.

(** The bus that [initializeBuses] builds for the route. *)
Definition initializeBus (r : Route.t) (cfg : Config.t) : Bus :=
  {| busType := Route.busType r;
     position := Some match routeStart r with Some p => p | None => (-78.8, 42.8) end;
     progress := 0; currentStopIndex := 0;
     batteryCapacity := Config.batteryCapacity cfg; batteryLevel := 100;
     batteryKwh := Config.batteryCapacity cfg; energyConsumed := 0; distanceTraveled := 0;
     status := waiting; dwellUntil := None; needsMidDayCharge := false;
     midDayChargeChecked := false; arrivedAtSchool := false; isCharging := false;
     usedMidDayCharge := false; tripPhase := phase_am; chargingTimeHours := 0;
     chargingStation := None; chargingRate := None; chargingKwhPerHour := None;
     targetChargeKwh := None; chargerDestination := None; needsReturnTrip := false;
     returnDestination := None; returnDistance := None; returnProgress := None;
     returnPath := None; originalPosition := None; deadheadProgress := None;
     deadheadDistance := None; deadheadPath := None; deadheadStartPosition := None;
     deadheadEnergyNeeded := None |}.

(** The energy that the overnight charge adds to reach the target, and its cost. *)
Definition overnightTargetKwh (chargePercent : Q) (b : Bus) : Q :=
  (chargePercent / 100) * batteryCapacity b.

Definition overnightEnergyToAdd (chargePercent : Q) (b : Bus) : Q :=
  Qmax 0 (overnightTargetKwh chargePercent b - batteryKwh b).

Definition overnightChargingCost (chargePercent : Q) (b : Bus) : Q :=
  overnightEnergyToAdd chargePercent b * FUEL_COSTS.overnight.

Definition resetBusForNewDay (chargePercent : Q) (s : State) : State :=
  let b := bus s in
  let targetKwh := overnightTargetKwh chargePercent b in
  let energyToAdd := overnightEnergyToAdd chargePercent b in
  let chargingCost := overnightChargingCost chargePercent b in
  let s1 :=
    if energyToAdd >? 0 then
      s |> with_week (fun w =>
             Week.set_totalOvernightCost (Week.totalOvernightCost w + chargingCost) w)
        |> with_stats (fun st =>
             st |> Stats.set_nightlyChargingKwh (Stats.nightlyChargingKwh st + energyToAdd)
                |> Stats.set_nightlyChargingCost (Stats.nightlyChargingCost st + chargingCost))
    else s in
  s1 |> with_bus (fun b =>
          b |> set_position (routeStart (route s))
            |> set_progress 0 |> set_currentStopIndex 0
            |> set_batteryLevel chargePercent |> set_batteryKwh targetKwh
            |> set_energyConsumed 0 |> set_distanceTraveled 0
            |> set_status waiting |> set_dwellUntil None
            |> set_needsMidDayCharge false |> set_midDayChargeChecked false
            |> set_arrivedAtSchool false |> set_isCharging false
            |> set_usedMidDayCharge false |> set_tripPhase phase_am
            |> set_chargingTimeHours 0 |> set_chargingStation None
            |> set_chargingRate None |> set_chargingKwhPerHour None
            |> set_targetChargeKwh None |> set_chargerDestination None
            |> set_needsReturnTrip false |> set_returnDestination None
            |> set_returnDistance None |> set_returnProgress None
            |> set_returnPath None |> set_originalPosition None
            |> set_deadheadProgress None |> set_deadheadDistance None
            |> set_deadheadPath None |> set_deadheadStartPosition None
            |> set_deadheadEnergyNeeded None)
     |> with_route (fun r =>
          r |> Route.set_stops (map (Stop.set_completed false) (Route.stops r))
            |> Route.set_status route_waiting |> Route.set_progress 0).

Definition stopSimulation (s : State) : State :=
  s |> set_running false |> set_paused false.

(** [triggerGameOver]: the simulation stops; the rest is presentation. *)
Definition triggerGameOver (s : State) : State := stopSimulation s.

(** *** The mid-day charging decision *)

(** The locals of [checkChargingNeeds]. *)
Definition remainingDistance (s : State) : Q := Route.distance (route s) / 2.

Definition pmEnergyNeeded (s : State) : Q :=
  remainingDistance s * getEfficiency (busType (bus s)) (weather s).

Definition batteryAtDepot (s : State) : Q := batteryKwh (bus s) - pmEnergyNeeded s.

Definition batteryPercentAtDepot (s : State) : Q :=
  (batteryAtDepot s / batteryCapacity (bus s)) * 100.

Definition needsCharging (s : State) : bool :=
  batteryPercentAtDepot s <? BATTERY_CONFIG.minReturnCharge * 100.

Definition midDayEnergyToAdd (s : State) : Q :=
  let targetBatteryAtDepot := batteryCapacity (bus s) * BATTERY_CONFIG.minReturnCharge in
  Qmax 0 ((targetBatteryAtDepot + pmEnergyNeeded s) - batteryKwh (bus s)).

Definition hasSchoolStop (r : Route.t) : bool :=
  existsb (fun st => StopType_eqb (Stop.type st) school) (Route.stops r).

(** The guards that make [checkChargingNeeds] return before it looks at the
    battery. *)
Definition checkSkipped (s : State) : bool :=
  isCharging (bus s) || midDayChargeChecked (bus s)
  || BusStatus_eqb (status (bus s)) traveling_to_charger
  || negb (hasSchoolStop (route s)).

Definition checkChargingNeeds (s : State) : bool * State :=
  if isCharging (bus s) || midDayChargeChecked (bus s)
     || BusStatus_eqb (status (bus s)) traveling_to_charger then (false, s)
  else if negb (hasSchoolStop (route s)) then (false, s)
  else
    let s1 := with_bus (set_midDayChargeChecked true) s in
    if needsCharging s then
      (true,
       s1 |> with_bus (set_needsMidDayCharge true)
          |> stopSimulation
          |> set_pendingCharge
               (Some {| pc_energyNeeded := midDayEnergyToAdd s;
                        pc_currentBattery := batteryLevel (bus s);
                        pc_timeRemaining := TIME_WINDOWS.midDayEnd - currentTime s |}))
    else (false, s1).

Definition locationName (l : LocationType) : string :=
  match l with
  | at_the_school => "school"
  | at_the_depot => "depot"
  | at_public_charger => "public"
  end.

(** [confirmCharging]: the player's station choice; [osrmRoute] is what the
    routing service answers for the leg from the bus to the station.  The
    reason text of the deadhead penalty is kept without the miles it quotes. *)
Definition confirmCharging (station : Station) (osrmRoute : OsrmRoute) (s : State) : State :=
  match pendingCharge s with
  | None => s
  | Some pending =>
      let energyNeeded := pc_energyNeeded pending in
      let s1 :=
        s |> with_bus (fun b =>
               b |> set_usedMidDayCharge true
                 |> set_chargingStation (Some (st_name station))
                 |> set_chargingRate (Some (orElse (Some (st_rate station)) FUEL_COSTS.daytime))
                 |> set_chargingKwhPerHour
                      (Some (orElse (Some (st_kwhPerHour station))
                                    BATTERY_CONFIG.chargingRateKwhPerHour))
                 |> set_targetChargeKwh (Some (batteryKwh b + energyNeeded)))
          |> with_stats (fun st => Stats.set_midDayCharges (S (Stats.midDayCharges st)) st)
          |> with_week (fun w =>
               Week.set_totalMidDayCharges (S (Week.totalMidDayCharges w)) w) in
      let deadheadMiles := st_deadheadMiles station in
      let isAtSchool :=
        match st_locationType station with at_the_school => true | _ => false end in
      let s2 :=
        if (deadheadMiles >? 0) && negb isAtSchool then
          let deadheadPenalty :=
            Math_round (deadheadMiles * MIDDAY_CHARGING.deadheadPenaltyPerMile) in
          s1 |> addPenalty {| sr_reason := "Deadhead to " ++ locationName (st_locationType station); sr_points := (- deadheadPenalty)%Z;
                              sr_day := Some (Week.currentDay (week s1)) |}
             |> with_stats (fun st =>
                  Stats.set_deadheadMiles (Stats.deadheadMiles st + deadheadMiles) st)
        else s1 in
      let s3 :=
        with_bus (fun b =>
          b |> set_originalPosition (position b)
            |> set_chargerDestination (Some (st_coords station))) s2 in
      let s4 :=
        if isAtSchool then
          s3 |> with_bus (fun b => b |> set_isCharging true |> set_status charging)
             |> with_route (Route.set_status route_charging)
        else
          s3 |> with_bus (fun b =>
                  b |> set_status traveling_to_charger
                    |> set_deadheadPath (Some (osrm_path osrmRoute))
                    |> set_deadheadDistance (Some (osrm_distance osrmRoute))
                    |> set_deadheadProgress (Some 0)
                    |> set_deadheadStartPosition (position b)
                    |> set_deadheadEnergyNeeded
                         (Some (osrm_distance osrmRoute
                                * getEfficiency (busType b) (weather s))))
             |> with_route (Route.set_status route_deadhead) in
      set_pendingCharge None s4
  end.

(** *** Charging *)

(** The first half of [handleCharging]: the elapsed time and the energy of
    this tick are added, and the energy is billed. *)
Definition chargingAccrue (deltaTime : Q) (s : State) : State :=
  let b := bus s in
  let chargingRateKwhPerHour :=
    orElse (chargingKwhPerHour b) BATTERY_CONFIG.chargingRateKwhPerHour in
  let hoursElapsed := deltaTime / (3600 * 1000) in
  let energyAdded := chargingRateKwhPerHour * hoursElapsed in
  let previousKwh := batteryKwh b in
  let kwh := Qmin (batteryCapacity b) (batteryKwh b + energyAdded) in
  let actualEnergyAdded := kwh - previousKwh in
  let rate := orElse (chargingRate b) FUEL_COSTS.daytime in
  let chargingCost := actualEnergyAdded * rate in
  s |> with_bus (fun b =>
         b |> set_chargingTimeHours (chargingTimeHours b + hoursElapsed)
           |> set_batteryKwh kwh
           |> set_batteryLevel ((kwh / batteryCapacity b) * 100))
    |> with_stats (fun st =>
         st |> Stats.set_electricCost (Stats.electricCost st + chargingCost)
            |> Stats.set_midDayChargingCost (Stats.midDayChargingCost st + chargingCost)
            |> Stats.set_midDayChargingKwh (Stats.midDayChargingKwh st + actualEnergyAdded)).

(** [bus.targetChargeKwh || (bus.batteryCapacity * 0.80)]. *)
Definition chargingTargetKwh (b : Bus) : Q :=
  orElse (targetChargeKwh b) (batteryCapacity b * 0.80).

Definition chargingWindowExpired (b : Bus) : bool :=
  chargingTimeHours b >=? MIDDAY_CHARGING.maxChargingDuration.

(** The test that ends the charging. *)
Definition chargingDone (b : Bus) : bool :=
  (batteryKwh b >=? chargingTargetKwh b) || (batteryLevel b >=? 95)
  || chargingWindowExpired b.

Definition returnTripPending (b : Bus) : bool :=
  needsReturnTrip b && isSome (returnDestination b).

(** The second half of [handleCharging], taken when the test succeeds. *)
Definition chargingExit (s : State) : State :=
  let s1 := with_bus (fun b => b |> set_isCharging false |> set_chargingTimeHours 0) s in
  if returnTripPending (bus s1) then
    s1 |> with_bus (fun b => b |> set_status returning_from_charger
                              |> set_returnProgress (Some 0))
       |> with_route (Route.set_status route_deadhead)
  else
    s1 |> with_bus (fun b =>
            b |> set_status moving |> set_targetChargeKwh None
              |> set_chargingRate None |> set_chargingKwhPerHour None)
       |> with_route (Route.set_status route_active).

Definition handleCharging (deltaTime : Q) (s : State) : State :=
  let s1 := chargingAccrue deltaTime s in
  if chargingDone (bus s1) then chargingExit s1 else s1.

(** [completeRoute]. *)
Definition completeRoute (s : State) : State :=
  s |> with_bus (fun b => b |> set_status completed |> set_progress 1)
    |> with_route (fun r =>
         r |> Route.set_status route_completed
           |> Route.set_stops (map (Stop.set_completed true) (Route.stops r)))
    |> with_stats (fun st => Stats.set_completedRoutes (S (Stats.completedRoutes st)) st).

(** The body of the [setTimeout] callbacks that end a dwell. *)
Definition dwellTimeout (s : State) : State :=
  if BusStatus_eqb (status (bus s)) dwelling then with_bus (set_status moving) s else s.

(** *** Scoring and the day/week orchestration *)

Definition lastNightDecision (s : State) : option NightlyDecision :=
  find (fun d => Nat.eqb (nd_day d) (Week.currentDay (week s))) (decisions s).

(** [endPercent] of [calculateDayScore]: the target of last night minus
    [actualUsed], the share of the capacity that the day consumed. *)
Definition endPercent (targetPercent : Q) (s : State) : Q :=
  let actualUsed :=
    (Stats.totalEnergyConsumed (stats s) / Config.batteryCapacity (config s)) * 100 in
  targetPercent - actualUsed.

(** [penalty] of the overcharged branch of [calculateDayScore]. *)
Definition overchargePenalty (targetPercent : Q) (s : State) : Z :=
  let overchargeKwh :=
    (endPercent targetPercent s - 25) / 100 * Config.batteryCapacity (config s) in
  Math_round (overchargeKwh * inject_Z SCORING.overchargePerKwhPenalty).

(** [calculateDayScore]; a line of the textual breakdown is kept as its
    points and its label. *)
Definition calculateDayScore (s : State) : State :=
  let dayPoints := SCORING.dayCompleted in
  let breakdown := [(SCORING.dayCompleted, "Day completed"%string)] in
  let '(dayPoints, breakdown, s) :=
    if (0 <? Stats.midDayCharges (stats s))%nat then
      ((dayPoints + SCORING.midDayChargePenalty)%Z,
       breakdown ++ [(SCORING.midDayChargePenalty, "Mid-day charging"%string)],
       addPenalty {| sr_reason := "Mid-day charging";
                     sr_points := SCORING.midDayChargePenalty;
                     sr_day := Some (Week.currentDay (week s)) |} s)
    else
      ((dayPoints + SCORING.noMidDayChargeBonus)%Z,
       breakdown ++ [(SCORING.noMidDayChargeBonus, "No mid-day charge"%string)],
       s) in
  let '(dayPoints, breakdown, s) :=
    match lastNightDecision s with
    | Some d =>
        let targetPercent := nd_targetPercent d in
        let e := endPercent targetPercent s in
        if (e >=? 10) && (e <=? 25) then
          ((dayPoints + SCORING.efficientChargeBonus)%Z,
           breakdown ++ [(SCORING.efficientChargeBonus, "Efficient charging"%string)],
           addBonus {| sr_reason := "Efficient overnight charging";
                       sr_points := SCORING.efficientChargeBonus;
                       sr_day := Some (Week.currentDay (week s)) |} s)
        else if e >? 25 then
          let penalty := overchargePenalty targetPercent s in
          ((dayPoints + penalty)%Z, breakdown ++ [(penalty, "Overcharged"%string)], s)
        else (dayPoints, breakdown, s)
    | None => (dayPoints, breakdown, s)
    end in
  addDayScore {| ds_day := Week.currentDay (week s); ds_points := dayPoints;
                 ds_breakdown := breakdown |} s.

Definition difficultyName (d : Difficulty) : string :=
  match d with
  | Easy => "Easy"
  | Medium => "Medium"
  | Hard => "Hard"
  | Expert => "Expert"
  end.

Definition perfectWeekReason : string := "Perfect week - no mid-day charges".

Definition optimalOneWay (s : State) : Z :=
  let efficiency := getEfficiency (Config.busType (config s)) extreme in
  let usableCapacity :=
    Config.batteryCapacity (config s) * (1 - BATTERY_CONFIG.safetyBuffer) in
  Math_floor ((usableCapacity / efficiency) / 2).

Definition calculateFinalScore (s : State) : State :=
  let pattern := Config.weatherPattern (config s) in
  let s1 :=
    if Qabs (Config.guessDistance (config s) - inject_Z (optimalOneWay s)) <=? 3 then
      addBonus {| sr_reason := "Perfect route prediction";
                  sr_points := SCORING.perfectRoutePrediction; sr_day := None |} s
    else s in
  let s2 :=
    if Nat.eqb (Week.totalMidDayCharges (week s1)) 0 then
      addBonus {| sr_reason := perfectWeekReason;
                  sr_points := SCORING.perfectWeekBonus; sr_day := None |} s1
    else s1 in
  let multiplier := SCORING.difficultyMultiplier (WEATHER_PATTERNS.difficulty pattern) in
  if negb (multiplier =? 1) then
    let bonusFromDifficulty :=
      Math_round (inject_Z (Score.total (score s2)) * (multiplier - 1)) in
    if (0 <? bonusFromDifficulty)%Z then
      addBonus {| sr_reason := difficultyName (WEATHER_PATTERNS.difficulty pattern)
                                 ++ " difficulty bonus";
                  sr_points := bonusFromDifficulty; sr_day := None |} s2
    else s2
  else s2.

(** [continueToNextDay]; [regenerated] is the route that [regenerateRoute]
    answers, [None] when the request fails. *)
Definition continueToNextDay (chargePercent : Q) (newRouteDistance : option Q)
    (regenerated : option Route.t) (s : State) : State :=
  let s1 := s |> resetStats |> resetSimulationState in
  if truthy newRouteDistance then
    match regenerated with
    | Some newRoute => s1 |> set_route newRoute |> resetBusForNewDay chargePercent
    | None => resetBusForNewDay chargePercent s1
    end
  else resetBusForNewDay chargePercent s1.

Definition showNightlyChargingDecision (s : State) : State :=
  match findSchedule (Week.currentDay (week s)) (Week.schedule (week s)) with
  | None => continueToNextDay 100 None None s
  | Some _ => set_showNightlyChargingModal true s
  end.

(** [handleDayComplete], run by the loop once the bus has completed. *)
Definition handleDayComplete (s : State) : State :=
  let s1 := stopSimulation s in
  let baseEnergy :=
    Stats.totalEnergyConsumed (stats s1) - Stats.midDayChargingKwh (stats s1) in
  let baseCost := baseEnergy * FUEL_COSTS.overnight in
  let s2 :=
    with_stats
      (Stats.set_electricCost (baseCost + Stats.midDayChargingCost (stats s1))) s1 in
  let s3 := calculateDayScore s2 in
  let (hasMoreDays, s4) := advanceDay s3 in
  if hasMoreDays then showNightlyChargingDecision s4 else calculateFinalScore s4.

Definition optQ_eqb (a b : option Q) : bool :=
  match a, b with
  | Some x, Some y => x =? y
  | None, None => true
  | _, _ => false
  end.

(** [confirmNightlyCharging]: the player's overnight decision. *)
Definition confirmNightlyCharging (targetPercent : Q) (newRouteDistance : option Q)
    (v2gAmount v2gEarned : Q) (regenerated : option Route.t) (s : State) : State :=
  let b := bus s in
  let currentBatteryPercent := batteryLevel b in
  let currentKwh := batteryKwh b in
  let afterV2GKwh := currentKwh - v2gAmount in
  let targetKwh := (targetPercent / 100) * batteryCapacity b in
  let energyToAdd := Qmax 0 (targetKwh - afterV2GKwh) in
  let cost := energyToAdd * FUEL_COSTS.overnight in
  let s1 :=
    if v2gAmount >? 0 then
      s |> with_stats (fun st =>
             st |> Stats.set_v2gEarnings (Stats.v2gEarnings st + v2gEarned)
                |> Stats.set_v2gKwhDischarged (Stats.v2gKwhDischarged st + v2gAmount))
        |> with_week (fun w =>
             w |> Week.set_totalV2GEarnings (Week.totalV2GEarnings w + v2gEarned)
               |> Week.set_totalV2GKwh (Week.totalV2GKwh w + v2gAmount))
    else s in
  let previousRouteDistance :=
    orElse (Config.adjustedRouteDistance (config s1)) (Config.guessDistance (config s1)) in
  let needsRouteRegeneration :=
    match newRouteDistance with
    | Some d => negb (d =? previousRouteDistance)
    | None => false
    end in
  let s2 :=
    match newRouteDistance with
    | Some d => with_config (Config.set_adjustedRouteDistance (Some d)) s1
    | None => s1
    end in
  let s3 :=
    recordNightlyCharging
      {| nd_day := Week.currentDay (week s2); nd_targetPercent := targetPercent;
         nd_startPercent := currentBatteryPercent; nd_energyCharged := energyToAdd;
         nd_cost := cost; nd_routeAdjusted := needsRouteRegeneration;
         nd_newRouteDistance := newRouteDistance; nd_v2gAmount := v2gAmount;
         nd_v2gEarned := v2gEarned |} s2 in
  s3 |> set_showNightlyChargingModal false
     |> continueToNextDay targetPercent
          (if needsRouteRegeneration then newRouteDistance else None) regenerated.

(** *** Movement *)

(** The distance covered in [deltaTime] simulated milliseconds. *)
Definition distanceToTravel (deltaTime : Q) : Q :=
  let speedMph := SIMULATION_CONFIG.baseSpeedMph in
  let hoursElapsed := deltaTime / (3600 * 1000) in
  speedMph * hoursElapsed.

(** [updateStats] as the movement handlers call it. *)
Definition addDistanceAndEnergy (distance energyUsed : Q) (s : State) : State :=
  with_stats (fun st =>
    st |> Stats.set_totalDistance (Stats.totalDistance (stats s) + distance)
       |> Stats.set_totalEnergyConsumed (Stats.totalEnergyConsumed (stats s) + energyUsed)) s.

(** The straight line between the end points of a leg, used when the leg
    has no routed path. *)
Definition linearPosition (startPos endPos : option Coord) (progress : Q) (b : Bus) : Bus :=
  match startPos, endPos with
  | Some a, Some e =>
      set_position (Some (fst a + (fst e - fst a) * progress,
                          snd a + (snd e - snd a) * progress)) b
  | _, _ => b
  end.

Definition hasRoutedPath (p : option (list Coord)) : bool :=
  match p with
  | Some l => (1 <? List.length l)%nat
  | None => false
  end.

(** [!route.path || route.path.length < 2]. *)
Definition pathMissing (p : option (list Coord)) : bool :=
  match p with
  | Some l => (List.length l <? 2)%nat
  | None => true
  end.

Definition pathPoints (p : option (list Coord)) : list Coord :=
  match p with
  | Some l => l
  | None => []
  end.

(** The game-over block of [moveBus]. *)
Definition strandOnRoute (s : State) : State :=
  s |> with_bus (fun b => b |> set_batteryKwh 0 |> set_batteryLevel 0 |> set_status stranded)
    |> with_route (Route.set_status route_failed)
    |> triggerGameOver.

(** The game-over block of the two deadhead handlers. *)
Definition strandOnDeadhead (s : State) : State :=
  s |> with_bus (set_status stranded)
    |> with_route (Route.set_status route_failed)
    |> triggerGameOver.

(** [processStopArrival]; [now] is [Date.now()]. *)
Definition processStopArrival (now : Q) (currentStop : Stop.t) (s : State) : State :=
  if StopType_eqb (Stop.type currentStop) school && negb (midDayChargeChecked (bus s)) then
    let s1 := with_bus (fun b => b |> set_arrivedAtSchool true |> set_status at_school) s in
    let (needs, s2) := checkChargingNeeds s1 in
    if negb needs then
      with_bus (fun b => b |> set_dwellUntil (Some (now + 2000)) |> set_status dwelling) s2
    else s2
  else if StopType_eqb (Stop.type currentStop) pickup
          || StopType_eqb (Stop.type currentStop) dropoff then
    let avgStopDistance := 2 in
    let co2 := calculateCO2Avoided avgStopDistance (busType (bus s)) in
    let dwellTime := 500 in
    s |> with_stats (fun st =>
           st |> Stats.set_co2Avoided (Stats.co2Avoided st + co2)
              |> Stats.set_pickupsCompleted (S (Stats.pickupsCompleted st)))
      |> with_bus (fun b => b |> set_dwellUntil (Some (now + dwellTime)) |> set_status dwelling)
  else s.

(** [currentStop.completed = true] on the stop at [index] of the route. *)
Fixpoint markCompleted (index : nat) (stops : list Stop.t) : list Stop.t :=
  match stops, index with
  | [], _ => []
  | st :: rest, O => Stop.set_completed true st :: rest
  | st :: rest, S i => st :: markCompleted i rest
  end.

(** The dwell of the bus is not over: [bus.dwellUntil] is set and
    [Date.now()] has not reached it. *)
Definition dwellPending (now : Q) (b : Bus) : bool :=
  match dwellUntil b with
  | Some t => negb (t =? 0) && (now <? t)
  | None => false
  end.

Section Engine.
Context {geodesy : Geodesy}.

(** The [while] loop of [checkStopArrivals].  Every iteration that does not
    leave the loop advances [currentStopIndex], so [fuel] counts the stops
    that are left. *)
Fixpoint checkStopArrivalsLoop (fuel : nat) (now : Q) (stopsProcessed : nat) (s : State)
    : State :=
  match fuel with
  | O => s
  | S fuel' =>
      let maxStopsPerUpdate := 3%nat in
      let index := currentStopIndex (bus s) in
      if (stopsProcessed <? maxStopsPerUpdate)%nat
         && (index <? List.length (Route.stops (route s)))%nat then
        match nth_error (Route.stops (route s)) index with
        | None => s
        | Some currentStop =>
            if Stop.completed currentStop then
              checkStopArrivalsLoop fuel' now stopsProcessed
                (with_bus (set_currentStopIndex (S index)) s)
            else
              match position (bus s) with
              | None => s
              | Some pos =>
                  let distance := haversineDistance pos (Stop.coords currentStop) in
                  let threshold := Qmax SIMULATION_CONFIG.arrivalThreshold 0.15 in
                  if distance <? threshold then
                    let s1 :=
                      with_route (fun r =>
                        Route.set_stops (markCompleted index (Route.stops r)) r) s in
                    let s2 :=
                      processStopArrival now (Stop.set_completed true currentStop) s1 in
                    checkStopArrivalsLoop fuel' now (S stopsProcessed)
                      (with_bus (fun b => set_currentStopIndex (S (currentStopIndex b)) b) s2)
                  else s
              end
        end
      else s
  end.

Definition checkStopArrivals (now : Q) (s : State) : State :=
  let count := List.length (Route.stops (route s)) in
  if (count <=? currentStopIndex (bus s))%nat then s
  else checkStopArrivalsLoop (count - currentStopIndex (bus s)) now 0 s.

(** The progress-based fallback of [moveBus] applies. *)
Definition fallbackDue (b : Bus) : bool :=
  (progress b >=? 0.48) && (progress b <=? 0.52)
  && negb (midDayChargeChecked b) && negb (arrivedAtSchool b).

(** The first half of [moveBus]: progress, position and energy of the tick. *)
Definition advanceOnRoute (deltaTime pathLength : Q) (s : State) : State :=
  let b := bus s in
  let distance := distanceToTravel deltaTime in
  let progressIncrement := distance / pathLength in
  let newProgress := Qmin 1 (progress b + progressIncrement) in
  let newPosition := interpolatePosition (pathPoints (Route.path (route s))) newProgress in
  let efficiency := getEfficiency (busType b) (weather s) in
  let energyUsed := distance * efficiency in
  let kwh := Qmax 0 (batteryKwh b - energyUsed) in
  s |> with_bus (fun b =>
         b |> set_progress newProgress
           |> set_position (Some newPosition)
           |> set_energyConsumed (energyConsumed b + energyUsed)
           |> set_batteryKwh kwh
           |> set_batteryLevel ((kwh / batteryCapacity b) * 100)
           |> set_distanceTraveled (distanceTraveled b + distance))
    |> addDistanceAndEnergy distance energyUsed.

(** The trip phase of [moveBus]. *)
Definition updateTripPhase (s : State) : State :=
  let p := progress (bus s) in
  if (p >=? 0.45) && (p <=? 0.55) then
    s |> with_bus (set_tripPhase phase_school) |> set_simTripPhase phase_school
  else if p >? 0.55 then
    s |> with_bus (set_tripPhase phase_pm) |> set_simTripPhase phase_pm
  else s.

(** The fallback block of [moveBus]. *)
Definition fallbackSchoolArrival (now : Q) (s : State) : State :=
  let s1 := with_bus (fun b => b |> set_arrivedAtSchool true |> set_status at_school) s in
  let (needs, s2) := checkChargingNeeds s1 in
  if negb needs then
    with_bus (fun b => b |> set_dwellUntil (Some (now + 1000)) |> set_status dwelling) s2
  else s2.

Definition moveBus (now deltaTime : Q) (s : State) : State :=
  if pathMissing (Route.path (route s)) then s
  else if (batteryKwh (bus s) <=? 0) && negb (isCharging (bus s)) then strandOnRoute s
  else
    let pathLength := calculatePathLength (Route.path (route s)) in
    if pathLength =? 0 then s
    else
      let s1 := advanceOnRoute deltaTime pathLength s in
      if (batteryKwh (bus s1) <=? 0) && negb (isCharging (bus s1)) then strandOnRoute s1
      else
        let s2 := updateTripPhase s1 in
        let s3 := checkStopArrivals now s2 in
        if fallbackDue (bus s3) then fallbackSchoolArrival now s3
        else if progress (bus s3) >=? 0.99 then completeRoute s3
        else s3.

(** *** The deadhead legs *)

Definition handleDeadheadTravel (deltaTime : Q) (s : State) : State :=
  let b := bus s in
  if negb (isSome (chargerDestination b)) || negb (truthy (deadheadDistance b)) then
    s |> with_bus (fun b => b |> set_isCharging true |> set_status charging)
      |> with_route (Route.set_status route_charging)
  else
    let legDistance := toNumber (deadheadDistance b) in
    let distance := distanceToTravel deltaTime in
    let legProgress := orElse (deadheadProgress b) 0 + distance in
    let efficiency := getEfficiency (busType b) (weather s) in
    let energyUsed := distance * efficiency * MIDDAY_CHARGING.energyCostDeadhead in
    let kwh := Qmax 0 (batteryKwh b - energyUsed) in
    let s1 :=
      s |> with_bus (fun b =>
             b |> set_deadheadProgress (Some legProgress)
               |> set_distanceTraveled (distanceTraveled b + distance)
               |> set_batteryKwh kwh
               |> set_batteryLevel ((kwh / batteryCapacity b) * 100)
               |> set_energyConsumed (energyConsumed b + energyUsed))
        |> addDistanceAndEnergy distance energyUsed in
    if kwh <=? 0 then strandOnDeadhead s1
    else
      let progress := Qmin 1 (legProgress / legDistance) in
      let s2 :=
        if hasRoutedPath (deadheadPath b) then
          with_bus (set_position
                      (Some (interpolatePosition (pathPoints (deadheadPath b)) progress))) s1
        else
          let startPos :=
            match deadheadStartPosition b with
            | Some p => Some p
            | None => position b
            end in
          with_bus (linearPosition startPos (chargerDestination b) progress) s1 in
      if legProgress >=? legDistance then
        let returnEnergy := legDistance * efficiency * MIDDAY_CHARGING.energyCostDeadhead in
        s2 |> with_bus (fun b =>
                b |> set_position (chargerDestination b)
                  |> set_isCharging true
                  |> set_status charging
                  |> set_targetChargeKwh
                       (Some (Qmin (batteryCapacity b * 0.9)
                                   (toNumber (targetChargeKwh b) + returnEnergy)))
                  |> set_needsReturnTrip true
                  |> set_returnDestination (originalPosition b)
                  |> set_returnDistance (deadheadDistance b)
                  |> set_returnPath
                       match deadheadPath b with
                       | Some p => Some (rev p)
                       | None => None
                       end)
           |> with_route (Route.set_status route_charging)
      else s2.

Definition handleReturnFromCharger (deltaTime : Q) (s : State) : State :=
  let b := bus s in
  if negb (isSome (returnDestination b)) || negb (truthy (returnDistance b)) then
    s |> with_bus (set_status moving) |> with_route (Route.set_status route_active)
  else
    let legDistance := toNumber (returnDistance b) in
    let distance := distanceToTravel deltaTime in
    let legProgress := orElse (returnProgress b) 0 + distance in
    let efficiency := getEfficiency (busType b) (weather s) in
    let energyUsed := distance * efficiency * MIDDAY_CHARGING.energyCostDeadhead in
    let kwh := Qmax 0 (batteryKwh b - energyUsed) in
    let s1 :=
      s |> with_bus (fun b =>
             b |> set_returnProgress (Some legProgress)
               |> set_distanceTraveled (distanceTraveled b + distance)
               |> set_batteryKwh kwh
               |> set_batteryLevel ((kwh / batteryCapacity b) * 100)
               |> set_energyConsumed (energyConsumed b + energyUsed))
        |> addDistanceAndEnergy distance energyUsed in
    if kwh <=? 0 then strandOnDeadhead s1
    else
      let progress := Qmin 1 (legProgress / legDistance) in
      let s2 :=
        if hasRoutedPath (returnPath b) then
          with_bus (set_position
                      (Some (interpolatePosition (pathPoints (returnPath b)) progress))) s1
        else
          let startPos :=
            match chargerDestination b with
            | Some p => Some p
            | None => position b
            end in
          with_bus (linearPosition startPos (returnDestination b) progress) s1 in
      if legProgress >=? legDistance then
        s2 |> with_bus (fun b =>
                b |> set_position (returnDestination b)
                  |> set_status moving
                  |> set_chargerDestination None
                  |> set_deadheadProgress None
                  |> set_deadheadDistance None
                  |> set_deadheadStartPosition None
                  |> set_deadheadPath None
                  |> set_originalPosition None
                  |> set_returnDestination None
                  |> set_returnDistance None
                  |> set_returnProgress None
                  |> set_returnPath None
                  |> set_needsReturnTrip false
                  |> set_targetChargeKwh None
                  |> set_chargingRate None
                  |> set_chargingKwhPerHour None)
           |> with_route (Route.set_status route_active)
      else s2.

(** *** The tick of a bus *)

(** [updateBus]: [now] is [Date.now()], [deltaTime] the simulated
    milliseconds since the last tick. *)
Definition updateBus (now deltaTime : Q) (s : State) : State :=
  if dwellPending now (bus s) then s
  else
    let s :=
      if truthy (dwellUntil (bus s)) then with_bus (set_dwellUntil None) s else s in
    match status (bus s) with
    | traveling_to_charger => handleDeadheadTravel deltaTime s
    | returning_from_charger => handleReturnFromCharger deltaTime s
    | _ =>
        if isCharging (bus s) then handleCharging deltaTime s
        else
          let s :=
            match status (bus s) with
            | waiting =>
                s |> with_bus (set_status moving)
                  |> with_route (Route.set_status route_active)
            | _ => s
            end in
          match status (bus s) with
          | moving => moveBus now deltaTime s
          | _ => s
          end
    end.

End Engine.

(** ** Scenarios *)

(** The state after the start button of [app.js]: [resetWeek], the generated
    route, [initializeBuses], [resetStats] and [resetSimulation]. *)
Definition startScenario (cfg : Config.t) (r : Route.t) : State :=
  let s0 :=
    {| config := cfg;
       week := {| Week.currentDay := 1; Week.schedule := WEATHER_PATTERNS.schedule fall;
                  Week.dayResults := []; Week.totalMidDayCharges := 0;
                  Week.totalMidDayCost := 0; Week.totalOvernightCost := 0;
                  Week.totalV2GEarnings := 0; Week.totalV2GKwh := 0 |};
       weather := fair;
       decisions := [];
       bus := initializeBus r cfg;
       route := r;
       stats := {| Stats.totalDistance := 0; Stats.totalEnergyConsumed := 0;
                   Stats.electricCost := 0; Stats.midDayCharges := 0;
                   Stats.midDayChargingCost := 0; Stats.midDayChargingKwh := 0;
                   Stats.nightlyChargingKwh := 0; Stats.nightlyChargingCost := 0;
                   Stats.deadheadMiles := 0; Stats.completedRoutes := 0;
                   Stats.co2Avoided := 0; Stats.pickupsCompleted := 0;
                   Stats.v2gEarnings := 0; Stats.v2gKwhDischarged := 0 |};
       score := {| Score.total := 0; Score.dayScores := []; Score.bonuses := [];
                   Score.penalties := [] |};
       pendingCharge := None;
       running := false; paused := false; simTripPhase := phase_am; currentTime := 5;
       showNightlyChargingModal := false |} in
  s0 |> resetWeek |> resetStats |> resetSimulationState.

(** What can happen to the state: a tick of the bus, the end of a dwell
    timer, the player's station choice, the completion of the day and the
    player's overnight decision. *)
Inductive Event : Type :=
  | Tick (now deltaTime : Q)
  | DwellTimer
  | StationChosen (station : Station) (osrmRoute : OsrmRoute)
  | DayComplete
  | NightlyChosen (targetPercent : Q) (newRouteDistance : option Q)
      (v2gAmount v2gEarned : Q) (regenerated : option Route.t).

(** The events that leave the day running. *)
Definition withinDay (e : Event) : bool :=
  match e with
  | Tick _ _ | DwellTimer | StationChosen _ _ => true
  | DayComplete | NightlyChosen _ _ _ _ _ => false
  end.

Definition tickOrTimer (e : Event) : bool :=
  match e with
  | Tick _ _ | DwellTimer => true
  | _ => false
  end.

(** The number of changes from [false] to [true] along a list of flag
    values that follows the value [prev]. *)
Fixpoint risingEdges (prev : bool) (l : list bool) : nat :=
  match l with
  | [] => 0
  | x :: rest => ((if negb prev && x then 1 else 0) + risingEdges x rest)%nat
  end.

Section Runs.
Context {geodesy : Geodesy}.

Definition step (e : Event) (s : State) : State :=
  match e with
  | Tick now deltaTime => updateBus now deltaTime s
  | DwellTimer => dwellTimeout s
  | StationChosen station osrmRoute => confirmCharging station osrmRoute s
  | DayComplete => handleDayComplete s
  | NightlyChosen targetPercent newRouteDistance v2gAmount v2gEarned regenerated =>
      confirmNightlyCharging targetPercent newRouteDistance v2gAmount v2gEarned
        regenerated s
  end.

Definition run (events : list Event) (s : State) : State :=
  fold_left (fun s e => step e s) events s.

(** The values of [midDayChargeChecked] after each event of a run. *)
Fixpoint checkedTrace (events : list Event) (s : State) : list bool :=
  match events with
  | [] => []
  | e :: rest =>
      let s' := step e s in
      midDayChargeChecked (bus s') :: checkedTrace rest s'
  end.

End Runs.

(** ** The properties, in the words of the specification *)

(** The battery is within its capacity and the percentage agrees with it. *)
Definition batteryConsistent (b : Bus) : Prop :=
  0 <= batteryKwh b /\ batteryKwh b <= batteryCapacity b
  /\ batteryLevel b == 100 * batteryKwh b / batteryCapacity b.

(** The charger in use, if any, does not drain the battery. *)
Definition chargerSane (b : Bus) : Prop :=
  forall r, chargingKwhPerHour b = Some r -> 0 <= r.

(** The inputs of an event are physically meaningful: time does not run
    backwards, a charger delivers energy, a charge target is a percentage. *)
Definition plausible (e : Event) : Prop :=
  match e with
  | Tick _ deltaTime => 0 <= deltaTime
  | DwellTimer => True
  | StationChosen station _ => 0 <= st_kwhPerHour station
  | DayComplete => True
  | NightlyChosen targetPercent _ _ _ _ => 0 <= targetPercent /\ targetPercent <= 100
  end.

(** The time mapper as section 4.2 of the specification words it. *)
Definition specTimeOfDay (progress chargingElapsedHours : Q) (atSchool : bool) : Q :=
  if (progress <? 0.5) && negb atSchool then 5 + (progress / 0.5) * 4
  else if atSchool || (chargingElapsedHours >? 0) then 9 + Qmin chargingElapsedHours 3
  else 12 + ((progress - 0.5) / 0.5) * 4.

(** The day score as section 4.7 of the specification words it. *)
Definition specMidDayPoints (s : State) : Z :=
  if (0 <? Stats.midDayCharges (stats s))%nat then SCORING.midDayChargePenalty
  else SCORING.noMidDayChargeBonus.

Definition specOvernightPoints (s : State) : Z :=
  match lastNightDecision s with
  | Some d =>
      let e := endPercent (nd_targetPercent d) s in
      if (e >=? 10) && (e <=? 25) then SCORING.efficientChargeBonus
      else if e >? 25 then overchargePenalty (nd_targetPercent d) s
      else 0%Z
  | None => 0%Z
  end.

Definition specDayScore (s : State) : Z :=
  (SCORING.dayCompleted + specMidDayPoints s + specOvernightPoints s)%Z.

(** The points that [calculateDayScore] books a second time, through
    [addPenalty] and [addBonus]. *)
Definition bookedTwice (s : State) : Z :=
  let midDay :=
    if (0 <? Stats.midDayCharges (stats s))%nat then SCORING.midDayChargePenalty
    else 0%Z in
  let overnight :=
    match lastNightDecision s with
    | Some d =>
        let e := endPercent (nd_targetPercent d) s in
        if (e >=? 10) && (e <=? 25) then SCORING.efficientChargeBonus else 0%Z
    | None => 0%Z
    end in
  (midDay + overnight)%Z.

(** How often the perfect-week bonus occurs in a list of bonuses. *)
Definition perfectWeekCount (l : list ScoreRecord) : nat :=
  List.length (filter (fun r => (sr_reason r =? perfectWeekReason)%string) l).

(** The player's overnight decisions among the events. *)
Definition overnightChoice (e : Event) : bool :=
  match e with
  | NightlyChosen _ _ _ _ _ => true
  | _ => false
  end.

(** The events of a three-day scenario: each day's ticks, timers and station
    choices end with the completion of the day, and an overnight decision
    separates two days. *)
Definition threeDays (day1 day2 day3 : list Event) (night1 night2 : Event) : list Event :=
  day1 ++ [DayComplete; night1] ++ day2 ++ [DayComplete; night2] ++ day3 ++ [DayComplete].

(** ** Example data *)

(** A stand-in for the great-circle distance on a small flat map: fifty miles
    per degree, measured along the axes. *)
Definition flatMap : Geodesy :=
  {| haversineDistance := fun a b =>
       50 * (Qabs (fst b - fst a) + Qabs (snd b - snd a)) |}.

(** A forty-mile round trip: twenty miles east to the school and back. *)
Definition exampleStops : list Stop.t :=
  [ {| Stop.type := depot; Stop.coords := (0, 0); Stop.completed := false |};
    {| Stop.type := pickup; Stop.coords := (0.2, 0); Stop.completed := false |};
    {| Stop.type := school; Stop.coords := (0.4, 0); Stop.completed := false |};
    {| Stop.type := dropoff; Stop.coords := (0.2, 0); Stop.completed := false |};
    {| Stop.type := depot; Stop.coords := (0, 0); Stop.completed := false |} ].

Definition exampleRoute : Route.t :=
  {| Route.busType := "A"; Route.stops := exampleStops;
     Route.path := Some [(0, 0); (0.4, 0); (0, 0)];
     Route.distance := 40; Route.status := route_waiting; Route.progress := 0 |}.

Definition exampleConfig : Config.t :=
  {| Config.busType := "A"; Config.batteryCapacity := 100; Config.guessDistance := 20;
     Config.adjustedRouteDistance := None; Config.weatherPattern := fall |}.

Definition exampleStart : State := startScenario exampleConfig exampleRoute.

(** The bus at the school in extreme cold with 25 kWh left for the
    twenty miles back. *)
Definition exampleAtSchool : State :=
  exampleStart
  |> set_weather extreme
  |> with_bus (fun b =>
       b |> set_batteryKwh 25 |> set_batteryLevel 25 |> set_progress 0.5
         |> set_status at_school |> set_arrivedAtSchool true
         |> set_position (Some (0.4, 0)) |> set_currentStopIndex 2).

(** The bus back at the depot in the evening with 20 kWh left. *)
Definition exampleEvening : State :=
  exampleStart
  |> with_bus (fun b =>
       b |> set_batteryKwh 20 |> set_batteryLevel 20 |> set_progress 1
         |> set_status completed)
  |> with_week (Week.set_currentDay 2).

(** The fast charger at the school. *)
Definition schoolFastCharger : Station :=
  {| st_name := "School"; st_locationType := at_the_school; st_coords := (0.4, 0);
     st_rate := FUEL_COSTS.daytime * 1.2; st_kwhPerHour := 50; st_deadheadMiles := 0 |}.

(** A public fast charger five miles north of the school. *)
Definition publicFastCharger : Station :=
  {| st_name := "Public Charger"; st_locationType := at_public_charger;
     st_coords := (0.4, 0.1); st_rate := FUEL_COSTS.daytime * 1.6; st_kwhPerHour := 50;
     st_deadheadMiles := 10 |}.

Definition legToPublicCharger : OsrmRoute :=
  {| osrm_path := [(0.4, 0); (0.4, 0.1)]; osrm_distance := 5 |}.

(** The bus of [exampleAtSchool] after the check has asked for a charge and
    the player has chosen the charger at the school. *)
Definition exampleCharging : State :=
  confirmCharging schoolFastCharger legToPublicCharger
    (snd (checkChargingNeeds exampleAtSchool)).

(** The end of a first day on which the bus was charged at mid-day once. *)
Definition exampleChargedDay : State :=
  exampleStart
  |> with_bus (fun b => b |> set_status completed |> set_progress 1)
  |> with_stats (fun st =>
       st |> Stats.set_midDayCharges 1 |> Stats.set_totalEnergyConsumed 60
          |> Stats.set_midDayChargingKwh 28)
  |> with_week (Week.set_totalMidDayCharges 1).

(** A quiet first day: one long tick to the school, the end of the dwell,
    one long tick home, the completion of the day and the overnight choice of
    an 80% charge. *)
Definition exampleDay : list Event :=
  [Tick 0 2880000; DwellTimer; Tick 2000 2880000; DayComplete;
   NightlyChosen 80 None 0 0 None].

(** A bus that is moving with an empty battery on a route whose path has a
    single point. *)
Definition exampleNoPath : State :=
  exampleStart
  |> with_route (Route.set_path (Some [(0, 0)]))
  |> with_bus (fun b => b |> set_status moving |> set_batteryKwh 0 |> set_batteryLevel 0).

(** The bus moving at 20% of the route with an empty battery. *)
Definition exampleEmpty : State :=
  exampleStart
  |> with_bus (fun b =>
       b |> set_status moving |> set_batteryKwh 0 |> set_batteryLevel 0
         |> set_progress 0.2 |> set_position (Some (0.16, 0))).

(** The start of a day with the battery at 10%. *)
Definition exampleLowStart : State := resetBusForNewDay 10 exampleEvening.

(** A week of three quiet days. *)
Definition exampleQuietDay : list Event :=
  [Tick 0 2880000; DwellTimer; Tick 2000 2880000].

(** A full-size bus in a polar week on the example route. *)
Definition exampleHardStart : State :=
  startScenario
    {| Config.busType := "C"; Config.batteryCapacity := 100; Config.guessDistance := 20;
       Config.adjustedRouteDistance := None; Config.weatherPattern := polar |}
    (Route.set_busType "C" exampleRoute).

(** ** Auxiliary notions of the proofs *)

(** The books of the week: configuration, week totals, overnight decisions,
    score and the day's count of mid-day charges. *)
Definition ledgerOf (s : State) : Config.t * Week.t * list NightlyDecision * Score.t * nat :=
  (config s, week s, decisions s, score s, Stats.midDayCharges (stats s)).

(** The energy fields of the bus. *)
Definition energyOf (s : State) : Q * Q * Q * option Q :=
  (batteryCapacity (bus s), batteryKwh (bus s), batteryLevel (bus s),
   chargingKwhPerHour (bus s)).

(** Where the bus is, how far along the route, and whether it charges. *)
Definition placeOf (s : State) : option Coord * Q * bool :=
  (position (bus s), progress (bus s), isCharging (bus s)).

(** The places of the stops, without their completion marks. *)
Definition placesOf (s : State) : list (StopType * Coord) :=
  map (fun st => (Stop.type st, Stop.coords st)) (Route.stops (route s)).

(** The part of a tick that looks at stops and at the school leaves the
    books, the energy and the place alone and never clears the mid-day flag. *)
Definition quiet (s s' : State) : Prop :=
  ledgerOf s' = ledgerOf s /\ energyOf s' = energyOf s /\ placeOf s' = placeOf s
  /\ placesOf s' = placesOf s
  /\ (midDayChargeChecked (bus s) = true -> midDayChargeChecked (bus s') = true).

(** The invariant on the energy fields: a positive capacity, a battery within
    it, a percentage that agrees, and a charger that does not drain. *)
Definition energySafe (e : Q * Q * Q * option Q) : Prop :=
  let '(capacity, kwh, level, rate) := e in
  0 < capacity /\ 0 <= kwh /\ kwh <= capacity /\ level == 100 * kwh / capacity
  /\ forall r, rate = Some r -> 0 <= r.

(** A stranded or completed bus that is not charging is left alone by ticks
    and dwell timers, apart from the clearing of an elapsed dwell. *)
Definition halted (s : State) : Prop :=
  (status (bus s) = stranded \/ status (bus s) = completed) /\ isCharging (bus s) = false.

(** The handlers that do not look at stops keep the books and the flag. *)
Definition booksKept (s s' : State) : Prop :=
  ledgerOf s' = ledgerOf s
  /\ midDayChargeChecked (bus s') = midDayChargeChecked (bus s).

Section NearSchool.
Context {geodesy : Geodesy}.

(** The bus is within the arrival threshold of a school stop. *)
Definition nearSchool (s : State) : Prop :=
  exists pos place,
    position (bus s) = Some pos /\ In (school, place) (placesOf s)
    /\ haversineDistance pos place < Qmax SIMULATION_CONFIG.arrivalThreshold 0.15.

End NearSchool.

(** No recorded day had a mid-day charge. *)
Definition allClean (results : list DayResult) : bool :=
  forallb (fun r => negb (dr_midDayCharged r)) results.

(** The invariant of a running day [n]: the perfect-week bonus has not been
    given, and the week's count of mid-day charges is zero exactly when neither
    the running day nor a recorded day had one. *)
Definition dayInv (n : nat) (s : State) : Prop :=
  Week.currentDay (week s) = n
  /\ perfectWeekCount (Score.bonuses (score s)) = 0%nat
  /\ (Week.totalMidDayCharges (week s) = 0%nat <->
      Stats.midDayCharges (stats s) = 0%nat /\ allClean (Week.dayResults (week s)) = true)
  /\ S (List.length (Week.dayResults (week s))) = n.

(** The invariant of the night before day [n]. *)
Definition nightInv (n : nat) (s : State) : Prop :=
  Week.currentDay (week s) = n
  /\ perfectWeekCount (Score.bonuses (score s)) = 0%nat
  /\ (Week.totalMidDayCharges (week s) = 0%nat <->
      allClean (Week.dayResults (week s)) = true)
  /\ S (List.length (Week.dayResults (week s))) = n.

(** ** Further notions: sums, reachable states *)

Definition sumDayScores (l : list DayScore) : Z :=
  fold_right (fun d acc => (ds_points d + acc)%Z) 0%Z l.

Definition sumRecords (l : list ScoreRecord) : Z :=
  fold_right (fun r acc => (sr_points r + acc)%Z) 0%Z l.

(** The total of the score is the sum of the items that the score display
    lists: day scores, bonuses and penalties. *)
Definition balanced (sc : Score.t) : Prop :=
  Score.total sc
  = (sumDayScores (Score.dayScores sc) + sumRecords (Score.bonuses sc)
     + sumRecords (Score.penalties sc))%Z.

(** The charging flag, the status and the pending station choice agree: a
    bus flagged as charging has the status [charging]; while a station choice
    is pending the bus neither charges nor travels to a charger; a stranded bus
    has an empty battery. *)
Definition coherent (s : State) : Prop :=
  (isCharging (bus s) = true -> status (bus s) = charging)
  /\ (pendingCharge s <> None ->
      isCharging (bus s) = false /\ status (bus s) <> traveling_to_charger)
  /\ (status (bus s) = stranded -> batteryKwh (bus s) == 0 /\ batteryLevel (bus s) == 0).

(** The odometer of the bus and the statistics of the day. *)
Definition odometerAgrees (s : State) : Prop :=
  Stats.totalDistance (stats s) == distanceTraveled (bus s)
  /\ Stats.totalEnergyConsumed (stats s) == energyConsumed (bus s).


(** What the stop processing of a tick may do besides what [quiet] excludes:
    it leaves the odometer and the statistics of distance and energy alone,
    sets no status other than [at_school] and [dwelling], and moves the stop
    index forward only. *)
Definition stopsOnly (s s' : State) : Prop :=
  distanceTraveled (bus s') = distanceTraveled (bus s)
  /\ energyConsumed (bus s') = energyConsumed (bus s)
  /\ Stats.totalDistance (stats s') = Stats.totalDistance (stats s)
  /\ Stats.totalEnergyConsumed (stats s') = Stats.totalEnergyConsumed (stats s)
  /\ (status (bus s') = status (bus s) \/ status (bus s') = at_school
      \/ status (bus s') = dwelling)
  /\ (currentStopIndex (bus s) <= currentStopIndex (bus s'))%nat.

(** The energy that a deadhead leg uses in a tick. *)
Definition deadheadEnergy (deltaTime : Q) (s : State) : Q :=
  distanceToTravel deltaTime * getEfficiency (busType (bus s)) (weather s)
  * MIDDAY_CHARGING.energyCostDeadhead.

Section AfterMovement.
Context {geodesy : Geodesy}.

(** The part of [moveBus] after the movement of the tick: the trip phase,
    the stops, and the fallback or the completion of the route. *)
Definition afterMovement (now : Q) (s1 : State) : State :=
  let s3 := checkStopArrivals now (updateTripPhase s1) in
  if fallbackDue (bus s3) then fallbackSchoolArrival now s3
  else if progress (bus s3) >=? 0.99 then completeRoute s3
  else s3.

End AfterMovement.

(** The first lines of [updateBus]: an elapsed dwell is cleared. *)
Definition clearDwell (s : State) : State :=
  if truthy (dwellUntil (bus s)) then with_bus (set_dwellUntil None) s else s.

(** The start of the bus in [updateBus]. *)
Definition startMoving (s : State) : State :=
  s |> with_bus (set_status moving) |> with_route (Route.set_status route_active).

(** Distances are not negative. *)
Definition nonnegative (g : Geodesy) : Prop :=
  forall a b : Coord, 0 <= @haversineDistance g a b.

(** The progress of the bus is a fraction of the route. *)
Definition progressInRange (s : State) : Prop :=
  0 <= progress (bus s) /\ progress (bus s) <= 1.

(** *** The frame loop of simulation.js *)

(** [calculateSpeedMultiplier], for the single route of the game:
    [Math.max(...state.routes.map(r => r.distance || 20))] is the distance of
    that route, or 20. *)
Definition calculateSpeedMultiplier (s : State) : Q :=
  let maxDistance := orElse (Some (Route.distance (route s))) 20 in
  let realTimeHours := maxDistance / SIMULATION_CONFIG.baseSpeedMph in
  let realTimeMs := realTimeHours * 3600 * 1000 in
  realTimeMs / SIMULATION_CONFIG.targetDuration.

Record Loop : Type := mkLoop {
  lastFrameTime : option Q;
  elapsedTime : Q;
  speedMultiplier : Q;
  world : State
}.

(** The clock and the trip phase that [simulationLoop] derives from the bus
    after its update. *)
Definition frameClock (s : State) : State :=
  let b := bus s in
  let isCharging_ := isCharging b || BusStatus_eqb (status b) charging in
  let atSchool := arrivedAtSchool b && (progress b <? 0.55) in
  let isTravelingToCharger :=
    BusStatus_eqb (status b) traveling_to_charger
    || BusStatus_eqb (status b) returning_from_charger in
  let chargingTime := if isCharging_ then orElse (Some (chargingTimeHours b)) 0 else 0 in
  s |> set_currentTime
         (calculateTimeFromProgress (progress b) chargingTime
            (atSchool || isTravelingToCharger))
    |> set_simTripPhase (getTripPhase (progress b) (isCharging_ || atSchool)).

(** A frame is gated: the simulation is not running, or is paused, or waits
    for the player's station choice or overnight decision. *)
Definition gated (s : State) : bool :=
  negb (running s) || paused s || isSome (pendingCharge s) || showNightlyChargingModal s.

Section Frames.
Context {geodesy : Geodesy}.

(** [simulationLoop], called by the interval timer at the time [now].  The
    bus is updated at the same [now]. *)
Definition simulationLoop (now : Q) (l : Loop) : Loop :=
  let deltaTime := now - orElse (lastFrameTime l) now in
  let l := mkLoop (Some now) (elapsedTime l) (speedMultiplier l) (world l) in
  let s := world l in
  if negb (running s) || paused s then l
  else if isSome (pendingCharge s) then l
  else if showNightlyChargingModal s then l
  else
    let simulatedDelta := deltaTime * speedMultiplier l in
    let allCompleted := BusStatus_eqb (status (bus s)) completed in
    let s1 := if allCompleted then s else updateBus now simulatedDelta s in
    let s2 := frameClock s1 in
    mkLoop (Some now) (elapsedTime l + simulatedDelta) (speedMultiplier l)
      (if allCompleted then handleDayComplete s2 else s2).

End Frames.

(** [startSimulation] at the time [now]. *)
Definition startSimulation (now : Q) (l : Loop) : Loop :=
  let s := world l in
  if running s && negb (paused s) then l
  else
    let s1 := if paused s then set_paused false s else set_running true s in
    mkLoop (Some now) (elapsedTime l) (calculateSpeedMultiplier s1) s1.

(** [pauseSimulation]. *)
Definition pauseSimulation (l : Loop) : Loop :=
  if negb (running (world l)) then l
  else mkLoop (lastFrameTime l) (elapsedTime l) (speedMultiplier l)
         (set_paused true (world l)).

(** *** Points of a path *)

(** The point [p] lies on the segment from [a] to [b]. *)
Definition between (a b p : Coord) : Prop :=
  exists t, 0 <= t /\ t <= 1 /\ p = (lerp (fst a) (fst b) t, lerp (snd a) (snd b) t).

(** The point [p] is a point of the path or lies on one of its segments. *)
Definition onPath (path : list Coord) (p : Coord) : Prop :=
  In p path \/ exists l1 a b l2, path = l1 ++ a :: b :: l2 /\ between a b p.

(** *** The leg to a charger and back *)

(** The invariant of the leg that starts with the choice of a station away
    from the school: on the way out the bus remembers [origin], where it left
    the route, and [along], its progress; at the charger and on the way back
    [origin] is its destination; before and after the leg the bus neither
    charges nor travels. *)
Definition legInv (origin : option Coord) (along : Q) (s : State) : Prop :=
  let b := bus s in
  (status b = traveling_to_charger /\ isCharging b = false
   /\ originalPosition b = origin /\ progress b = along
   /\ isSome (chargerDestination b) = true /\ truthy (deadheadDistance b) = true)
  \/ (status b = charging /\ isCharging b = true /\ needsReturnTrip b = true
      /\ returnDestination b = origin /\ progress b = along
      /\ truthy (returnDistance b) = true)
  \/ (status b = returning_from_charger /\ isCharging b = false
      /\ returnDestination b = origin /\ progress b = along
      /\ isSome origin = true /\ truthy (returnDistance b) = true)
  \/ (isCharging b = false /\ status b <> traveling_to_charger
      /\ status b <> returning_from_charger).

(** ** state.js: the leaderboard *)

Module LEADERBOARD_CONFIG.
Definition maxEntries : nat := 10.
End LEADERBOARD_CONFIG.

Record LeaderboardEntry : Type := mkLeaderboardEntry {
  lb_name : string;
  lb_score : Z;
  lb_weatherPattern : WeatherPattern;
  lb_routeDistance : Q;
  lb_midDayCharges : nat;
  lb_perfectDays : nat;
  lb_date : string
}.

(** [getLeaderboard]; [stored] is what [localStorage] holds under the key of
    the leaderboard, [None] when there is nothing or it does not parse. *)
Definition getLeaderboard (stored : option (list LeaderboardEntry)) : list LeaderboardEntry :=
  match stored with
  | Some data => data
  | None => []
  end.

(** [leaderboard.sort((a, b) => b.score - a.score)]: the stable sort by
    descending score. *)
Fixpoint insertByScore (x : LeaderboardEntry) (l : list LeaderboardEntry)
    : list LeaderboardEntry :=
  match l with
  | [] => [x]
  | y :: rest =>
      if (lb_score y <=? lb_score x)%Z then x :: y :: rest
      else y :: insertByScore x rest
  end.

Definition sortByScore (l : list LeaderboardEntry) : list LeaderboardEntry :=
  fold_right insertByScore [] l.

(** [saveToLeaderboard]: the entries that it returns and what it stores;
    [entry] carries the date of the call. *)
Definition saveToLeaderboard (entry : LeaderboardEntry)
    (stored : option (list LeaderboardEntry))
    : list LeaderboardEntry * option (list LeaderboardEntry) :=
  let leaderboard := getLeaderboard stored ++ [entry] in
  let topEntries := firstn LEADERBOARD_CONFIG.maxEntries (sortByScore leaderboard) in
  (topEntries, Some topEntries).

(** [Array.prototype.findIndex]: [-1] when no element satisfies [f]. *)
Fixpoint findIndex {A : Type} (f : A -> bool) (l : list A) : Z :=
  match l with
  | [] => (-1)%Z
  | x :: rest =>
      if f x then 0%Z
      else let i := findIndex f rest in if (i <? 0)%Z then (-1)%Z else (i + 1)%Z
  end.

(** The position that [showWeekResult] looks up in the saved leaderboard, and
    whether it shows it. *)
Definition leaderboardPosition (name : string) (total : Z) (leaderboard : list LeaderboardEntry)
    : Z :=
  (findIndex (fun e => (lb_score e =? total)%Z && (lb_name e =? name)%string) leaderboard
   + 1)%Z.

Definition positionShown (position : Z) : bool := (position <=? 10)%Z.

(** Scores in descending order. *)
Definition descending (l : list LeaderboardEntry) : Prop :=
  StronglySorted (fun a b => (lb_score b <= lb_score a)%Z) l.

(** The entries of [stored] that beat the score [total]. *)
Definition betterThan (total : Z) (l : list LeaderboardEntry) : list LeaderboardEntry :=
  filter (fun e => (total <? lb_score e)%Z) l.

(** A full leaderboard of ten entries with 5000 points each, and a newcomer
    with 100 points. *)
Definition exampleChampion : LeaderboardEntry :=
  mkLeaderboardEntry "Champion" 5000 fall 25 0 3 "2025-01-01T00:00:00.000Z".

Definition exampleLeaderboard : list LeaderboardEntry := repeat exampleChampion 10.

Definition exampleNewcomer : LeaderboardEntry :=
  mkLeaderboardEntry "Player" 100 polar 20 3 0 "2025-01-02T00:00:00.000Z".

(** *** The weather of the day *)

(** The weather is what the schedule of the week says for the current day,
    as long as the schedule has that day. *)
Definition forecast (s : State) : Prop :=
  match findSchedule (Week.currentDay (week s)) (Week.schedule (week s)) with
  | Some d => weather s = sd_weather d
  | None => True
  end.

(** The weather, the schedule and the day are the same in both states. *)
Definition sameForecast (s s' : State) : Prop :=
  weather s' = weather s /\ Week.schedule (week s') = Week.schedule (week s)
  /\ Week.currentDay (week s') = Week.currentDay (week s).

Section FrameRuns.
Context {geodesy : Geodesy}.

(** The frames of the interval timer at the times [frames], one after the
    other. *)
Definition runFrames (frames : list Q) (l : Loop) : Loop :=
  fold_left (fun l now => simulationLoop now l) frames l.

End FrameRuns.

(** A loop that has just been started on the example scenario. *)
Definition exampleLoop : Loop := startSimulation 0 (mkLoop None 0 1 exampleStart).

(** *** The perfect-week bonus in the final score *)

(** The perfect-week bonuses among the bonuses. *)
Definition perfectWeekBonuses (l : list ScoreRecord) : list ScoreRecord :=
  filter (fun r => (sr_reason r =? perfectWeekReason)%string) l.

(** The points of the items of the score other than the perfect-week bonus:
    the day scores, the penalties and the other bonuses. *)
Definition otherPoints (sc : Score.t) : Z :=
  (sumDayScores (Score.dayScores sc) + sumRecords (Score.penalties sc)
   + sumRecords (filter (fun r => negb (sr_reason r =? perfectWeekReason)%string)
                   (Score.bonuses sc)))%Z.

(** The record that [calculateFinalScore] adds for a perfect week. *)
Definition perfectWeekRecord : ScoreRecord :=
  {| sr_reason := perfectWeekReason; sr_points := SCORING.perfectWeekBonus; sr_day := None |}.

(** * Proofs *)

(** ** Comparisons of rationals *)

Lemma Qltb_spec (x y : Q) : reflect (x < y) (x <? y).
Proof.
  unfold Qltb. destruct (Qle_bool y x) eqn:E; simpl; constructor.
  - apply Qle_bool_iff in E. lra.
  - apply Qnot_le_lt. intro K. apply Qle_bool_iff in K. congruence.
Qed.

Lemma Qleb_spec (x y : Q) : reflect (x <= y) (x <=? y).
Proof.
  destruct (Qle_bool x y) eqn:E; constructor.
  - now apply Qle_bool_iff.
  - intro K. apply Qle_bool_iff in K. congruence.
Qed.

Lemma Qeqb_spec (x y : Q) : reflect (x == y) (x =? y).
Proof.
  destruct (Qeq_bool x y) eqn:E; constructor.
  - now apply Qeq_bool_iff.
  - intro K. apply Qeq_bool_iff in K. congruence.
Qed.

Lemma Qltb_true (x y : Q) : x < y -> (x <? y) = true.
Proof. intro H. destruct (Qltb_spec x y); [reflexivity | contradiction]. Qed.

Lemma Qltb_false (x y : Q) : y <= x -> (x <? y) = false.
Proof. intro H. destruct (Qltb_spec x y); [lra | reflexivity]. Qed.

Lemma Qleb_true (x y : Q) : x <= y -> (x <=? y) = true.
Proof. intro H. now apply Qle_bool_iff. Qed.

Lemma Qleb_false (x y : Q) : y < x -> (x <=? y) = false.
Proof. intro H. destruct (Qleb_spec x y); [lra | reflexivity]. Qed.

(** Case analysis on every comparison that occurs in the goal. *)
Ltac qcases :=
  repeat match goal with
         | |- context [Qltb ?x ?y] => destruct (Qltb_spec x y)
         | |- context [Qle_bool ?x ?y] => destruct (Qleb_spec x y)
         | |- context [Qeq_bool ?x ?y] => destruct (Qeqb_spec x y)
         end.

(** The defining facts of every [Qmax] and [Qmin] of the goal, as hypotheses. *)
Ltac qminmax :=
  repeat match goal with
         | |- context [Qmax ?a ?b] =>
             let m := fresh "m" in
             destruct (Q.max_spec a b) as [[? ?] | [? ?]];
             set (m := Qmax a b) in *; clearbody m
         | |- context [Qmin ?a ?b] =>
             let m := fresh "m" in
             destruct (Q.min_spec a b) as [[? ?] | [? ?]];
             set (m := Qmin a b) in *; clearbody m
         end.

Lemma percent_of_ratio (kwh capacity : Q) :
  (kwh / capacity) * 100 == 100 * kwh / capacity.
Proof. unfold Qdiv. ring. Qed.

Lemma efficiency_positive (busType : string) (w : Weather) : 0 < getEfficiency busType w.
Proof.
  unfold getEfficiency. destruct (busType =? "A")%string; destruct w; reflexivity.
Qed.

Lemma distanceToTravel_nonneg (deltaTime : Q) : 0 <= deltaTime -> 0 <= distanceToTravel deltaTime.
Proof.
  intro H. unfold distanceToTravel, SIMULATION_CONFIG.baseSpeedMph.
  assert (0 <= deltaTime / (3600 * 1000)).
  { apply Qle_shift_div_l; [reflexivity | lra]. }
  lra.
Qed.

(** ** The time mapper *)

(** C8: below half of the route and away from the school the clock
    interpolates the AM window from 5:00 to 9:00; when the bus is at the
    school, or charging time has accumulated past the first case, the clock is
    9:00 plus the charging time, capped at three hours; otherwise it
    interpolates the PM window from 12:00 to 16:00. *)
Theorem time_mapper_windows (progress chargingElapsedHours : Q) (atSchool : bool) :
  (progress < 0.5 -> atSchool = false ->
   calculateTimeFromProgress progress chargingElapsedHours atSchool
   == 5 + (progress / 0.5) * 4)
  /\ (atSchool = true \/ (0.5 <= progress /\ 0 < chargingElapsedHours) ->
      calculateTimeFromProgress progress chargingElapsedHours atSchool
      == 9 + Qmin chargingElapsedHours 3)
  /\ (0.5 <= progress -> atSchool = false -> chargingElapsedHours <= 0 ->
      calculateTimeFromProgress progress chargingElapsedHours atSchool
      == 12 + ((progress - 0.5) / 0.5) * 4).
Proof.
  unfold calculateTimeFromProgress, TIME_WINDOWS.amTripStart, TIME_WINDOWS.amTripEnd,
    TIME_WINDOWS.midDayStart, TIME_WINDOWS.midDayEnd, TIME_WINDOWS.pmTripStart,
    TIME_WINDOWS.pmTripEnd.
  split; [| split].
  - intros Hp Ha. subst atSchool. rewrite (Qltb_true _ _ Hp). simpl.
    unfold Qdiv. ring.
  - intros [Ha | [Hp Hc]].
    + subst atSchool. rewrite andb_false_r. simpl.
      assert (E : 12 - 9 == 3) by reflexivity.
      qminmax; lra.
    + rewrite (Qltb_false _ _ Hp). simpl. rewrite (Qltb_true _ _ Hc).
      rewrite orb_true_r.
      qminmax; lra.
  - intros Hp Ha Hc. subst atSchool. rewrite (Qltb_false _ _ Hp). simpl.
    rewrite (Qltb_false _ _ Hc). unfold Qdiv. ring.
Qed.

Lemma time_mapper_windows_witness :
  calculateTimeFromProgress 0.25 0 false == 7
  /\ calculateTimeFromProgress 0.5 1.5 true == 10.5
  /\ calculateTimeFromProgress 0.75 0 false == 14.
Proof.
  destruct (time_mapper_windows 0.25 0 false) as [Ham _].
  destruct (time_mapper_windows 0.5 1.5 true) as [_ [Hmid _]].
  destruct (time_mapper_windows 0.75 0 false) as [_ [_ Hpm]].
  split; [| split].
  - apply (Qeq_trans _ _ _ (Ham eq_refl eq_refl)). reflexivity.
  - apply (Qeq_trans _ _ _ (Hmid (or_introl eq_refl))). reflexivity.
  - assert (H1 : 0.5 <= 0.75) by (unfold Qle; simpl; lia).
    apply (Qeq_trans _ _ _ (Hpm H1 eq_refl (Qle_refl _))). reflexivity.
Defined.

(** ** The mid-day charging decision *)

Lemma checkSkipped_false (s : State) :
  checkSkipped s = false ->
  (isCharging (bus s) || midDayChargeChecked (bus s)
   || BusStatus_eqb (status (bus s)) traveling_to_charger) = false
  /\ hasSchoolStop (route s) = true.
Proof.
  unfold checkSkipped. intro H. apply orb_false_iff in H. destruct H as [H1 H2].
  split; [exact H1 | now apply negb_false_iff in H2].
Qed.

(** C3: the mid-day check, when none of its guards skips it, takes half of the
    route distance as the remaining distance, multiplies it by the efficiency
    of the bus type in the day's weather, predicts the depot percentage from
    the battery left after that energy, asks for charging exactly when that
    percentage is below 15, and then asks for
    [max(0, 0.15 * capacity + energy needed - battery)]. *)
Theorem midday_check_decision (s : State) :
  checkSkipped s = false ->
  let distance := Route.distance (route s) / 2 in
  let energyNeeded := distance * getEfficiency (busType (bus s)) (weather s) in
  let percentAtDepot :=
    (batteryKwh (bus s) - energyNeeded) / batteryCapacity (bus s) * 100 in
  let energyToAdd :=
    Qmax 0 (0.15 * batteryCapacity (bus s) + energyNeeded - batteryKwh (bus s)) in
  (fst (checkChargingNeeds s) = true <-> percentAtDepot < 15)
  /\ (percentAtDepot < 15 ->
      exists pending,
        pendingCharge (snd (checkChargingNeeds s)) = Some pending
        /\ pc_energyNeeded pending == energyToAdd)
  /\ (15 <= percentAtDepot -> pendingCharge (snd (checkChargingNeeds s)) = pendingCharge s).
Proof.
  intros Hskip distance energyNeeded percentAtDepot energyToAdd.
  destruct (checkSkipped_false s Hskip) as [Hguard Hschool].
  unfold checkChargingNeeds. rewrite Hguard, Hschool. simpl negb. cbv iota.
  assert (Hpct : batteryPercentAtDepot s == percentAtDepot) by reflexivity.
  assert (Hmin : BATTERY_CONFIG.minReturnCharge * 100 == 15) by reflexivity.
  unfold needsCharging.
  destruct (Qltb_spec (batteryPercentAtDepot s) (BATTERY_CONFIG.minReturnCharge * 100))
    as [Hlt | Hge]; simpl.
  - split; [| split].
    + split; [intros _; lra | reflexivity].
    + intros _. eexists. split; [reflexivity |]. simpl.
      unfold midDayEnergyToAdd, energyToAdd, pmEnergyNeeded, remainingDistance,
        energyNeeded, distance, BATTERY_CONFIG.minReturnCharge.
      set (e := Route.distance (route s) / 2 * getEfficiency (busType (bus s)) (weather s)).
      qminmax; lra.
    + intro H. lra.
  - split; [| split].
    + split; [discriminate | intro H; lra].
    + intro H. lra.
    + intros _. reflexivity.
Qed.

Lemma midday_check_decision_witness :
  fst (checkChargingNeeds exampleAtSchool) = true
  /\ pmEnergyNeeded exampleAtSchool == 38
  /\ batteryAtDepot exampleAtSchool == -13
  /\ batteryPercentAtDepot exampleAtSchool == -13
  /\ exists pending,
       pendingCharge (snd (checkChargingNeeds exampleAtSchool)) = Some pending
       /\ pc_energyNeeded pending == 28.
Proof.
  assert (Hskip : checkSkipped exampleAtSchool = false) by reflexivity.
  assert (Hlow : (batteryKwh (bus exampleAtSchool)
                  - Route.distance (route exampleAtSchool) / 2
                    * getEfficiency (busType (bus exampleAtSchool)) (weather exampleAtSchool))
                 / batteryCapacity (bus exampleAtSchool) * 100 < 15) by reflexivity.
  destruct (midday_check_decision exampleAtSchool Hskip) as [Hiff [Hadd _]].
  split; [apply Hiff; exact Hlow |].
  split; [reflexivity |]. split; [reflexivity |]. split; [reflexivity |].
  destruct (Hadd Hlow) as [pending [Hp He]].
  exists pending. split; [exact Hp |].
  apply (Qeq_trans _ _ _ He). reflexivity.
Defined.

(** ** Charging *)

Lemma orElse_set (t d : Q) : ~ t == 0 -> orElse (Some t) d = t.
Proof. intro H. simpl. destruct (Qeqb_spec t 0); [contradiction | reflexivity]. Qed.

(** C4: a tick of a charging bus whose target is set ends the charging
    exactly when, after the energy of the tick, the battery has reached the
    target, or the level has reached 95, or three hours of charging have
    accumulated; the bus then leaves for the return leg if one is pending and
    resumes the route otherwise, and the simulation is not stopped. *)
Theorem charging_stops_exactly_when (deltaTime target : Q) (s : State) :
  isCharging (bus s) = true ->
  targetChargeKwh (bus s) = Some target -> ~ target == 0 ->
  let charged := bus (chargingAccrue deltaTime s) in
  let s' := handleCharging deltaTime s in
  (isCharging (bus s') = false <->
   target <= batteryKwh charged \/ 95 <= batteryLevel charged
   \/ 3 <= chargingTimeHours charged)
  /\ (isCharging (bus s') = false ->
      status (bus s') = (if needsReturnTrip (bus s) && isSome (returnDestination (bus s))
                         then returning_from_charger else moving)
      /\ running s' = running s)
  /\ (isCharging (bus s') = true -> status (bus s') = status (bus s)).
Proof.
  intros Hc Ht Hnz charged s'.
  assert (Htarget : chargingTargetKwh charged = target).
  { unfold chargingTargetKwh, charged, chargingAccrue. simpl. rewrite Ht.
    now apply orElse_set. }
  assert (Hdone : chargingDone charged = true <->
                  target <= batteryKwh charged \/ 95 <= batteryLevel charged
                  \/ 3 <= chargingTimeHours charged).
  { unfold chargingDone, chargingWindowExpired, MIDDAY_CHARGING.maxChargingDuration.
    rewrite Htarget. rewrite !orb_true_iff, !Qle_bool_iff. tauto. }
  assert (Hstill : isCharging charged = true).
  { unfold charged, chargingAccrue. simpl. exact Hc. }
  unfold s', handleCharging. fold charged.
  destruct (chargingDone charged) eqn:E.
  - assert (Hexit : isCharging (bus (chargingExit (chargingAccrue deltaTime s))) = false).
    { unfold chargingExit. simpl. destruct (returnTripPending _); reflexivity. }
    split; [| split].
    + split; [intros _; now apply Hdone | intros _; exact Hexit].
    + intros _. unfold chargingExit, returnTripPending, chargingAccrue. simpl.
      destruct (needsReturnTrip (bus s) && isSome (returnDestination (bus s)));
        split; reflexivity.
    + rewrite Hexit. discriminate.
  - split; [| split].
    + split; [fold charged; rewrite Hstill; discriminate |].
      intro H. apply Hdone in H. discriminate.
    + fold charged. rewrite Hstill. discriminate.
    + intros _. reflexivity.
Qed.

Lemma charging_stops_exactly_when_witness :
  isCharging (bus (handleCharging 2160000 exampleCharging)) = false
  /\ status (bus (handleCharging 2160000 exampleCharging)) = moving.
Proof.
  assert (Hnz : ~ 25 + midDayEnergyToAdd exampleAtSchool == 0) by (intro H; discriminate H).
  destruct (charging_stops_exactly_when 2160000 _ exampleCharging eq_refl eq_refl Hnz)
    as [Hiff [Hexit _]].
  assert (Hoff : isCharging (bus (handleCharging 2160000 exampleCharging)) = false).
  { apply Hiff. left. unfold Qle. simpl. lia. }
  split; [exact Hoff | exact (proj1 (Hexit Hoff))].
Defined.

(** ** The overnight reset *)

(** C6: resetting the bus for a new day with the target [T] leaves the level
    at [T] and the battery at [T/100] of the capacity; the energy recorded as
    added overnight is [max(0, T/100 * capacity - previous battery)] and the
    cost recorded is that energy at the overnight rate. *)
Theorem overnight_reset_reaches_target (T : Q) (s : State) :
  0 <= T -> T <= 100 ->
  let s' := resetBusForNewDay T s in
  let added := Qmax 0 (T / 100 * batteryCapacity (bus s) - batteryKwh (bus s)) in
  batteryLevel (bus s') == T
  /\ batteryKwh (bus s') == T / 100 * batteryCapacity (bus s)
  /\ Stats.nightlyChargingKwh (stats s') == Stats.nightlyChargingKwh (stats s) + added
  /\ Stats.nightlyChargingCost (stats s')
     == Stats.nightlyChargingCost (stats s) + added * FUEL_COSTS.overnight
  /\ Week.totalOvernightCost (week s')
     == Week.totalOvernightCost (week s) + added * FUEL_COSTS.overnight.
Proof.
  intros _ _ s' added. unfold s', resetBusForNewDay.
  assert (Hadd : overnightEnergyToAdd T (bus s) = added) by reflexivity.
  unfold overnightChargingCost. rewrite Hadd.
  destruct (Qltb_spec 0 added) as [Hpos | Hzero]; simpl.
  - repeat split; reflexivity.
  - assert (H0 : added == 0).
    { unfold added in *. pose proof (Q.le_max_l 0 (T / 100 * batteryCapacity (bus s)
                                                    - batteryKwh (bus s))). lra. }
    repeat split; try reflexivity; rewrite H0; ring.
Qed.

Lemma overnight_reset_reaches_target_witness :
  batteryLevel (bus (resetBusForNewDay 40 exampleEvening)) == 40
  /\ batteryKwh (bus (resetBusForNewDay 40 exampleEvening)) == 40
  /\ Stats.nightlyChargingKwh (stats (resetBusForNewDay 40 exampleEvening)) == 20
  /\ Stats.nightlyChargingCost (stats (resetBusForNewDay 40 exampleEvening))
     == 20 * FUEL_COSTS.overnight.
Proof.
  assert (H0 : 0 <= 40) by (unfold Qle; simpl; lia).
  assert (H1 : 40 <= 100) by (unfold Qle; simpl; lia).
  destruct (overnight_reset_reaches_target 40 exampleEvening H0 H1)
    as [Hl [Hk [He [Hc _]]]].
  split; [exact Hl |].
  split; [apply (Qeq_trans _ _ _ Hk); reflexivity |].
  split; [apply (Qeq_trans _ _ _ He); reflexivity |].
  apply (Qeq_trans _ _ _ Hc). reflexivity.
Defined.

Lemma surplus_reset_keeps_week (T : Q) (s : State) :
  T / 100 * batteryCapacity (bus s) < batteryKwh (bus s) ->
  week (resetBusForNewDay T s) = week s.
Proof.
  intro Hsurplus. unfold resetBusForNewDay.
  assert (H0 : overnightEnergyToAdd T (bus s) == 0).
  { unfold overnightEnergyToAdd, overnightTargetKwh. qminmax; lra. }
  rewrite (Qltb_false 0 (overnightEnergyToAdd T (bus s))) by lra.
  reflexivity.
Qed.

(** The overnight decision of a player who asks for no V2G discharge, made
    with a surplus in the battery: the decision is recorded with no energy and
    no cost, and the week's overnight cost and V2G totals do not move. *)
Lemma surplus_overnight_decision (T : Q) (newRouteDistance : option Q)
    (regenerated : option Route.t) (s : State) :
  T / 100 * batteryCapacity (bus s) < batteryKwh (bus s) ->
  let s' := confirmNightlyCharging T newRouteDistance 0 0 regenerated s in
  (exists d, decisions s' = decisions s ++ [d]
             /\ nd_energyCharged d == 0 /\ nd_cost d == 0)
  /\ Week.totalOvernightCost (week s') == Week.totalOvernightCost (week s)
  /\ Week.totalV2GEarnings (week s') = Week.totalV2GEarnings (week s)
  /\ Week.totalV2GKwh (week s') = Week.totalV2GKwh (week s)
  /\ batteryKwh (bus s') == T / 100 * batteryCapacity (bus s).
Proof.
  intros Hsurplus s'.
  assert (H0 : Qmax 0 (T / 100 * batteryCapacity (bus s) - (batteryKwh (bus s) - 0)) == 0).
  { qminmax; lra. }
  unfold s', confirmNightlyCharging.
  change (0 >? 0) with false. cbv iota.
  set (needsRegen := match newRouteDistance with
                     | Some d => negb (d =? _)
                     | None => false
                     end).
  set (recorded := recordNightlyCharging _ _).
  assert (Hbus : bus recorded = bus s).
  { unfold recorded, recordNightlyCharging. destruct newRouteDistance; reflexivity. }
  assert (Hdec : exists d, decisions recorded = decisions s ++ [d]
                           /\ nd_energyCharged d == 0 /\ nd_cost d == 0).
  { unfold recorded, recordNightlyCharging. eexists. split.
    - destruct newRouteDistance; reflexivity.
    - simpl. split; [exact H0 | rewrite H0; ring]. }
  assert (Hweek : Week.totalOvernightCost (week recorded)
                  == Week.totalOvernightCost (week s)
                  /\ Week.totalV2GEarnings (week recorded) = Week.totalV2GEarnings (week s)
                  /\ Week.totalV2GKwh (week recorded) = Week.totalV2GKwh (week s)).
  { unfold recorded, recordNightlyCharging.
    destruct newRouteDistance; simpl; (split; [rewrite H0; ring | split; reflexivity]). }
  clearbody recorded.
  assert (Hreset : forall x, bus x = bus recorded -> week x = week recorded ->
                             decisions x = decisions recorded ->
                             let y := resetBusForNewDay T x in
                             decisions y = decisions recorded
                             /\ week y = week recorded
                             /\ batteryKwh (bus y) == T / 100 * batteryCapacity (bus s)).
  { intros x Hb Hw Hd y.
    assert (Hs : T / 100 * batteryCapacity (bus x) < batteryKwh (bus x))
      by (rewrite Hb, Hbus; exact Hsurplus).
    split; [| split].
    - unfold y, resetBusForNewDay.
      destruct (0 <? overnightEnergyToAdd T (bus x)); simpl; exact Hd.
    - unfold y. rewrite (surplus_reset_keeps_week T x Hs). exact Hw.
    - unfold y, resetBusForNewDay.
      destruct (0 <? overnightEnergyToAdd T (bus x)); simpl;
        unfold overnightTargetKwh; rewrite Hb, Hbus; reflexivity. }
  assert (Hall : decisions (continueToNextDay T (if needsRegen then newRouteDistance else None)
                              regenerated (set_showNightlyChargingModal false recorded))
                 = decisions recorded
                 /\ week (continueToNextDay T (if needsRegen then newRouteDistance else None)
                            regenerated (set_showNightlyChargingModal false recorded))
                    = week recorded
                 /\ batteryKwh (bus (continueToNextDay T
                                      (if needsRegen then newRouteDistance else None)
                                      regenerated
                                      (set_showNightlyChargingModal false recorded)))
                    == T / 100 * batteryCapacity (bus s)).
  { unfold continueToNextDay.
    destruct (truthy (if needsRegen then newRouteDistance else None));
      [destruct regenerated |]; apply Hreset; reflexivity. }
  destruct Hall as [Hd [Hw Hk]]. destruct Hdec as [d [Hd1 Hd2]].
  destruct Hweek as [Hw1 [Hw2 Hw3]].
  split; [exists d; split; [rewrite Hd; exact Hd1 | exact Hd2] |].
  rewrite Hw. split; [exact Hw1 |]. split; [exact Hw2 |]. split; [exact Hw3 | exact Hk].
Qed.

(** C10: when the battery holds more than the chosen target, the reset still
    puts the battery at the target, below what it held; the energy to add and
    its cost are zero, and nothing is recorded: the day's statistics, the
    week's totals (the V2G earnings among them) and the score are left as they
    were.  The overnight decision that leads to the reset, made without a V2G
    request, records no energy and no cost either and credits no V2G. *)
Theorem overnight_reset_discards_surplus (T : Q) (s : State) :
  T / 100 * batteryCapacity (bus s) < batteryKwh (bus s) ->
  let s' := resetBusForNewDay T s in
  (batteryKwh (bus s') == T / 100 * batteryCapacity (bus s)
   /\ batteryKwh (bus s') < batteryKwh (bus s)
   /\ overnightEnergyToAdd T (bus s) == 0
   /\ overnightChargingCost T (bus s) == 0
   /\ stats s' = stats s
   /\ week s' = week s
   /\ score s' = score s)
  /\ forall newRouteDistance regenerated,
       let n := confirmNightlyCharging T newRouteDistance 0 0 regenerated s in
       (exists d, decisions n = decisions s ++ [d]
                  /\ nd_energyCharged d == 0 /\ nd_cost d == 0)
       /\ Week.totalOvernightCost (week n) == Week.totalOvernightCost (week s)
       /\ Week.totalV2GEarnings (week n) = Week.totalV2GEarnings (week s)
       /\ Week.totalV2GKwh (week n) = Week.totalV2GKwh (week s)
       /\ batteryKwh (bus n) == T / 100 * batteryCapacity (bus s).
Proof.
  intros Hsurplus s'.
  split; [| intros; now apply surplus_overnight_decision].
  assert (H0 : overnightEnergyToAdd T (bus s) == 0).
  { unfold overnightEnergyToAdd, overnightTargetKwh. qminmax; lra. }
  assert (Hkwh : batteryKwh (bus s') == T / 100 * batteryCapacity (bus s)).
  { unfold s', resetBusForNewDay.
    destruct (0 <? overnightEnergyToAdd T (bus s)); reflexivity. }
  split; [exact Hkwh |]. split; [rewrite Hkwh; exact Hsurplus |].
  split; [exact H0 |].
  split; [unfold overnightChargingCost; rewrite H0; ring |].
  unfold s', resetBusForNewDay.
  rewrite (Qltb_false 0 (overnightEnergyToAdd T (bus s))) by lra.
  repeat split.
Qed.

Lemma overnight_reset_discards_surplus_witness :
  batteryKwh (bus (resetBusForNewDay 10 exampleEvening)) == 10
  /\ stats (resetBusForNewDay 10 exampleEvening) = stats exampleEvening
  /\ week (resetBusForNewDay 10 exampleEvening) = week exampleEvening.
Proof.
  assert (H : 10 / 100 * batteryCapacity (bus exampleEvening)
              < batteryKwh (bus exampleEvening)) by reflexivity.
  destruct (overnight_reset_discards_surplus 10 exampleEvening H)
    as [[Hk [_ [_ [_ [Hs [Hw _]]]]]] _].
  split; [apply (Qeq_trans _ _ _ Hk); reflexivity |].
  split; [exact Hs | exact Hw].
Defined.

(** ** The day score *)

Ltac scoring_constants :=
  unfold SCORING.dayCompleted, SCORING.noMidDayChargeBonus, SCORING.midDayChargePenalty,
    SCORING.efficientChargeBonus, SCORING.perfectWeekBonus,
    SCORING.perfectRoutePrediction in *.

Lemma day_score_points (s : State) :
  exists breakdown,
    Score.dayScores (score (calculateDayScore s))
    = Score.dayScores (score s)
      ++ [ {| ds_day := Week.currentDay (week s); ds_points := specDayScore s;
              ds_breakdown := breakdown |} ].
Proof.
  unfold calculateDayScore, specDayScore, specMidDayPoints, specOvernightPoints.
  cbv zeta.
  destruct (0 <? Stats.midDayCharges (stats s))%nat.
  - change (lastNightDecision (addPenalty _ s)) with (lastNightDecision s).
    destruct (lastNightDecision s) as [d |]; [| eexists; reflexivity].
    change (endPercent (nd_targetPercent d) (addPenalty _ s))
      with (endPercent (nd_targetPercent d) s).
    change (overchargePenalty (nd_targetPercent d) (addPenalty _ s))
      with (overchargePenalty (nd_targetPercent d) s).
    destruct ((endPercent (nd_targetPercent d) s >=? 10)
              && (endPercent (nd_targetPercent d) s <=? 25));
      [eexists; reflexivity |].
    destruct (endPercent (nd_targetPercent d) s >? 25); eexists; simpl;
      rewrite ?Z.add_0_r; reflexivity.
  - destruct (lastNightDecision s) as [d |]; [| eexists; reflexivity].
    destruct ((endPercent (nd_targetPercent d) s >=? 10)
              && (endPercent (nd_targetPercent d) s <=? 25));
      [eexists; reflexivity |].
    destruct (endPercent (nd_targetPercent d) s >? 25); eexists; simpl;
      rewrite ?Z.add_0_r; reflexivity.
Qed.

Lemma day_score_total (s : State) :
  Score.total (score (calculateDayScore s))
  = (Score.total (score s) + specDayScore s + bookedTwice s)%Z.
Proof.
  unfold calculateDayScore, specDayScore, specMidDayPoints, specOvernightPoints,
    bookedTwice.
  cbv zeta.
  destruct (0 <? Stats.midDayCharges (stats s))%nat.
  - change (lastNightDecision (addPenalty _ s)) with (lastNightDecision s).
    destruct (lastNightDecision s) as [d |]; [| simpl; scoring_constants; lia].
    change (endPercent (nd_targetPercent d) (addPenalty _ s))
      with (endPercent (nd_targetPercent d) s).
    change (overchargePenalty (nd_targetPercent d) (addPenalty _ s))
      with (overchargePenalty (nd_targetPercent d) s).
    destruct ((endPercent (nd_targetPercent d) s >=? 10)
              && (endPercent (nd_targetPercent d) s <=? 25));
      [simpl; scoring_constants; lia |].
    destruct (endPercent (nd_targetPercent d) s >? 25); simpl; scoring_constants; lia.
  - destruct (lastNightDecision s) as [d |]; [| simpl; scoring_constants; lia].
    destruct ((endPercent (nd_targetPercent d) s >=? 10)
              && (endPercent (nd_targetPercent d) s <=? 25));
      [simpl; scoring_constants; lia |].
    destruct (endPercent (nd_targetPercent d) s >? 25); simpl; scoring_constants; lia.
Qed.

(** C5: the day score that [calculateDayScore] records is the base points
    plus the mid-day bonus or penalty plus the overnight-efficiency
    adjustment, but the running total grows by that score plus, once more,
    the mid-day penalty and the efficiency bonus, which [addPenalty] and
    [addBonus] have already added.  After a first day with one mid-day charge
    the day score is 50 and the total has not moved. *)
Theorem day_score_books_penalty_twice :
  (forall s : State,
     (exists breakdown,
        Score.dayScores (score (calculateDayScore s))
        = Score.dayScores (score s)
          ++ [ {| ds_day := Week.currentDay (week s); ds_points := specDayScore s;
                  ds_breakdown := breakdown |} ])
     /\ Score.total (score (calculateDayScore s))
        = (Score.total (score s) + specDayScore s + bookedTwice s)%Z)
  /\ specDayScore exampleChargedDay = 50%Z
  /\ Score.total (score (calculateDayScore exampleChargedDay))
     = Score.total (score exampleChargedDay)
  /\ Score.total (score (calculateDayScore exampleChargedDay))
     <> (Score.total (score exampleChargedDay) + specDayScore exampleChargedDay)%Z.
Proof.
  split; [intro s; split; [apply day_score_points | apply day_score_total] |].
  split; [vm_compute; reflexivity |]. split; [vm_compute; reflexivity |].
  vm_compute. discriminate.
Qed.

(** ** What the parts of a tick leave alone *)

Lemma quiet_refl (s : State) : quiet s s.
Proof. repeat split; auto. Qed.

Lemma quiet_trans (s1 s2 s3 : State) : quiet s1 s2 -> quiet s2 s3 -> quiet s1 s3.
Proof.
  intros [A1 [B1 [C1 [D1 E1]]]] [A2 [B2 [C2 [D2 E2]]]].
  repeat split; try congruence. auto.
Qed.

Lemma checkChargingNeeds_quiet (s : State) : quiet s (snd (checkChargingNeeds s)).
Proof.
  unfold checkChargingNeeds.
  destruct (isCharging (bus s) || midDayChargeChecked (bus s)
            || BusStatus_eqb (status (bus s)) traveling_to_charger);
    [apply quiet_refl |].
  destruct (negb (hasSchoolStop (route s))); [apply quiet_refl |].
  destruct (needsCharging s); repeat split; reflexivity.
Qed.

Lemma markCompleted_places (index : nat) (stops : list Stop.t) :
  map (fun st => (Stop.type st, Stop.coords st)) (markCompleted index stops)
  = map (fun st => (Stop.type st, Stop.coords st)) stops.
Proof.
  revert index. induction stops as [| st rest IH]; intros [| i]; simpl; try reflexivity.
  now rewrite IH.
Qed.

Lemma processStopArrival_quiet (now : Q) (currentStop : Stop.t) (s : State) :
  quiet s (processStopArrival now currentStop s).
Proof.
  unfold processStopArrival.
  destruct (StopType_eqb (Stop.type currentStop) school && negb (midDayChargeChecked (bus s))).
  - set (s1 := with_bus _ s).
    assert (H1 : quiet s s1) by (repeat split; auto).
    pose proof (checkChargingNeeds_quiet s1) as H2.
    destruct (checkChargingNeeds s1) as [needs s2]. simpl in H2.
    apply (quiet_trans _ _ _ H1). apply (quiet_trans _ _ _ H2).
    destruct needs; simpl; repeat split; auto.
  - destruct (StopType_eqb (Stop.type currentStop) pickup
              || StopType_eqb (Stop.type currentStop) dropoff);
      repeat split; auto.
Qed.

Section EngineFrames.
Context {geodesy : Geodesy}.

Lemma checkStopArrivalsLoop_quiet (fuel : nat) (now : Q) (k : nat) (s : State) :
  quiet s (checkStopArrivalsLoop fuel now k s).
Proof.
  revert k s. induction fuel as [| fuel IH]; intros k s; simpl; [apply quiet_refl |].
  destruct ((k <? 3)%nat
            && (currentStopIndex (bus s) <? List.length (Route.stops (route s)))%nat);
    [| apply quiet_refl].
  destruct (nth_error (Route.stops (route s)) (currentStopIndex (bus s))) as [st |];
    [| apply quiet_refl].
  destruct (Stop.completed st).
  - eapply quiet_trans; [| apply IH]. repeat split; auto.
  - destruct (position (bus s)) as [pos |] eqn:Hpos; [| apply quiet_refl].
    destruct (haversineDistance pos (Stop.coords st)
              <? Qmax SIMULATION_CONFIG.arrivalThreshold 0.15); [| apply quiet_refl].
    eapply quiet_trans; [| apply IH].
    set (s1 := with_route _ s).
    assert (H1 : quiet s s1).
    { repeat split; auto. unfold placesOf, s1. simpl. apply markCompleted_places. }
    apply (quiet_trans _ _ _ H1).
    eapply quiet_trans; [apply processStopArrival_quiet |].
    repeat split; auto.
Qed.

Lemma checkStopArrivals_quiet (now : Q) (s : State) : quiet s (checkStopArrivals now s).
Proof.
  unfold checkStopArrivals.
  destruct (List.length (Route.stops (route s)) <=? currentStopIndex (bus s))%nat;
    [apply quiet_refl | apply checkStopArrivalsLoop_quiet].
Qed.

Lemma fallbackSchoolArrival_quiet (now : Q) (s : State) :
  quiet s (fallbackSchoolArrival now s).
Proof.
  unfold fallbackSchoolArrival. set (s1 := with_bus _ s).
  assert (H1 : quiet s s1) by (repeat split; auto).
  pose proof (checkChargingNeeds_quiet s1) as H2.
  destruct (checkChargingNeeds s1) as [needs s2]. simpl in H2.
  apply (quiet_trans _ _ _ H1). apply (quiet_trans _ _ _ H2).
  destruct needs; simpl; repeat split; auto.
Qed.

Lemma updateTripPhase_quiet (s : State) : quiet s (updateTripPhase s).
Proof.
  unfold updateTripPhase.
  destruct ((progress (bus s) >=? 0.45) && (progress (bus s) <=? 0.55));
    [repeat split; auto |].
  destruct (progress (bus s) >? 0.55); repeat split; auto.
Qed.

(** [completeRoute] moves the progress to the end and leaves the rest alone. *)
Lemma completeRoute_calm (s : State) :
  ledgerOf (completeRoute s) = ledgerOf s /\ energyOf (completeRoute s) = energyOf s
  /\ position (bus (completeRoute s)) = position (bus s)
  /\ placesOf (completeRoute s) = placesOf s
  /\ midDayChargeChecked (bus (completeRoute s)) = midDayChargeChecked (bus s).
Proof.
  repeat split; auto. unfold placesOf, completeRoute. simpl.
  rewrite map_map. reflexivity.
Qed.

End EngineFrames.

(** ** The battery invariant *)

Lemma energySafe_consistent (s : State) :
  energySafe (energyOf s) -> batteryConsistent (bus s).
Proof. unfold energySafe, energyOf, batteryConsistent. tauto. Qed.

Lemma energySafe_of (s : State) :
  0 < batteryCapacity (bus s) -> batteryConsistent (bus s) -> chargerSane (bus s) ->
  energySafe (energyOf s).
Proof. unfold energySafe, energyOf, batteryConsistent, chargerSane. tauto. Qed.

Lemma drained_safe (capacity kwh level used : Q) (rate : option Q) :
  energySafe (capacity, kwh, level, rate) -> 0 <= used ->
  energySafe (capacity, Qmax 0 (kwh - used), Qmax 0 (kwh - used) / capacity * 100, rate).
Proof.
  intros [Hc [H0 [H1 [_ Hr]]]] Hu. unfold energySafe.
  split; [exact Hc |]. split; [apply Q.le_max_l |].
  split; [| split; [apply percent_of_ratio | exact Hr]].
  apply Q.max_lub; lra.
Qed.

Lemma charged_safe (capacity kwh level added : Q) (rate : option Q) :
  energySafe (capacity, kwh, level, rate) -> 0 <= added ->
  energySafe (capacity, Qmin capacity (kwh + added),
              Qmin capacity (kwh + added) / capacity * 100, rate).
Proof.
  intros [Hc [H0 [H1 [_ Hr]]]] Ha. unfold energySafe.
  split; [exact Hc |]. split; [apply Q.min_glb; lra |].
  split; [apply Q.le_min_l |]. split; [apply percent_of_ratio | exact Hr].
Qed.

Lemma emptied_safe (capacity kwh level : Q) (rate : option Q) :
  energySafe (capacity, kwh, level, rate) -> energySafe (capacity, 0, 0, rate).
Proof.
  intros [Hc [H0 [H1 [_ Hr]]]]. unfold energySafe.
  split; [exact Hc |]. split; [lra |]. split; [lra |].
  split; [unfold Qdiv; ring | exact Hr].
Qed.

Lemma recharged_safe (capacity kwh level T : Q) (rate : option Q) :
  energySafe (capacity, kwh, level, rate) -> 0 <= T -> T <= 100 ->
  energySafe (capacity, T / 100 * capacity, T, None).
Proof.
  intros [Hc _] H0 H1. unfold energySafe.
  split; [exact Hc |]. split; [| split; [| split]].
  - assert (0 <= T / 100) by (apply Qle_shift_div_l; [reflexivity | lra]). nra.
  - assert (T / 100 <= 1) by (apply Qle_shift_div_r; [reflexivity | lra]). nra.
  - field. lra.
  - intros r H. discriminate.
Qed.

Lemma rewired_safe (capacity kwh level : Q) (rate rate' : option Q) :
  energySafe (capacity, kwh, level, rate) -> (forall r, rate' = Some r -> 0 <= r) ->
  energySafe (capacity, kwh, level, rate').
Proof. unfold energySafe. tauto. Qed.

Lemma energyUsed_nonneg (deltaTime factor : Q) (busType : string) (w : Weather) :
  0 <= deltaTime -> 0 <= factor ->
  0 <= distanceToTravel deltaTime * getEfficiency busType w * factor.
Proof.
  intros Hd Hf. pose proof (distanceToTravel_nonneg deltaTime Hd).
  pose proof (efficiency_positive busType w).
  apply Qmult_le_0_compat; [| exact Hf].
  apply Qmult_le_0_compat; [assumption | now apply Qlt_le_weak].
Qed.

Lemma quiet_safe (s s' : State) : quiet s s' -> energySafe (energyOf s) -> energySafe (energyOf s').
Proof. intros [_ [H _]] Hs. now rewrite H. Qed.

Lemma strandOnRoute_safe (s : State) :
  energySafe (energyOf s) -> energySafe (energyOf (strandOnRoute s)).
Proof. intro H. exact (emptied_safe _ _ _ _ H). Qed.

Section EngineBattery.
Context {geodesy : Geodesy}.

Lemma advanceOnRoute_safe (deltaTime pathLength : Q) (s : State) :
  0 <= deltaTime -> energySafe (energyOf s) ->
  energySafe (energyOf (advanceOnRoute deltaTime pathLength s)).
Proof.
  intros Hd H.
  pose proof (energyUsed_nonneg deltaTime 1 (busType (bus s)) (weather s) Hd) as Hu.
  refine (drained_safe _ _ _ _ _ H _).
  assert (0 <= 1) by lra. specialize (Hu H0). lra.
Qed.

Lemma moveBus_safe (now deltaTime : Q) (s : State) :
  0 <= deltaTime -> energySafe (energyOf s) -> energySafe (energyOf (moveBus now deltaTime s)).
Proof.
  intros Hd H. unfold moveBus.
  destruct (pathMissing (Route.path (route s))); [exact H |].
  destruct ((batteryKwh (bus s) <=? 0) && negb (isCharging (bus s)));
    [now apply strandOnRoute_safe |].
  destruct (calculatePathLength (Route.path (route s)) =? 0); [exact H |].
  set (s1 := advanceOnRoute deltaTime _ s).
  assert (H1 : energySafe (energyOf s1)) by now apply advanceOnRoute_safe.
  destruct ((batteryKwh (bus s1) <=? 0) && negb (isCharging (bus s1)));
    [now apply strandOnRoute_safe |].
  set (s3 := checkStopArrivals now (updateTripPhase s1)).
  assert (H3 : energySafe (energyOf s3)).
  { eapply quiet_safe; [apply checkStopArrivals_quiet |].
    eapply quiet_safe; [apply updateTripPhase_quiet | exact H1]. }
  destruct (fallbackDue (bus s3)).
  - eapply quiet_safe; [apply fallbackSchoolArrival_quiet | exact H3].
  - destruct (progress (bus s3) >=? 0.99); [| exact H3].
    destruct (completeRoute_calm s3) as [_ [He _]]. now rewrite He.
Qed.

Lemma handleDeadheadTravel_safe (deltaTime : Q) (s : State) :
  0 <= deltaTime -> energySafe (energyOf s) ->
  energySafe (energyOf (handleDeadheadTravel deltaTime s)).
Proof.
  intros Hd H. unfold handleDeadheadTravel.
  destruct (negb (isSome (chargerDestination (bus s)))
            || negb (truthy (deadheadDistance (bus s)))); [exact H |].
  assert (Hu : 0 <= distanceToTravel deltaTime
                    * getEfficiency (busType (bus s)) (weather s)
                    * MIDDAY_CHARGING.energyCostDeadhead).
  { apply energyUsed_nonneg; [exact Hd | unfold Qle; simpl; lia]. }
  pose proof (drained_safe _ _ _ _ _ H Hu) as H1.
  cbv zeta.
  destruct (Qmax 0 _ <=? 0); [exact H1 |].
  destruct (hasRoutedPath (deadheadPath (bus s))).
  - destruct (_ >=? _); exact H1.
  - unfold linearPosition.
    destruct (match deadheadStartPosition (bus s) with
              | Some p => Some p
              | None => position (bus s)
              end); destruct (chargerDestination (bus s));
      destruct (_ >=? _); exact H1.
Qed.

Lemma handleReturnFromCharger_safe (deltaTime : Q) (s : State) :
  0 <= deltaTime -> energySafe (energyOf s) ->
  energySafe (energyOf (handleReturnFromCharger deltaTime s)).
Proof.
  intros Hd H. unfold handleReturnFromCharger.
  destruct (negb (isSome (returnDestination (bus s)))
            || negb (truthy (returnDistance (bus s)))); [exact H |].
  assert (Hu : 0 <= distanceToTravel deltaTime
                    * getEfficiency (busType (bus s)) (weather s)
                    * MIDDAY_CHARGING.energyCostDeadhead).
  { apply energyUsed_nonneg; [exact Hd | unfold Qle; simpl; lia]. }
  pose proof (drained_safe _ _ _ _ _ H Hu) as H1.
  assert (H2 : energySafe (batteryCapacity (bus s),
                           Qmax 0 (batteryKwh (bus s)
                                   - distanceToTravel deltaTime
                                     * getEfficiency (busType (bus s)) (weather s)
                                     * MIDDAY_CHARGING.energyCostDeadhead),
                           Qmax 0 (batteryKwh (bus s)
                                   - distanceToTravel deltaTime
                                     * getEfficiency (busType (bus s)) (weather s)
                                     * MIDDAY_CHARGING.energyCostDeadhead)
                           / batteryCapacity (bus s) * 100,
                           None)).
  { apply (rewired_safe _ _ _ _ _ H1). intros r Hr. discriminate. }
  cbv zeta.
  destruct (Qmax 0 _ <=? 0); [exact H1 |].
  destruct (hasRoutedPath (returnPath (bus s))).
  - destruct (_ >=? _); [exact H2 | exact H1].
  - unfold linearPosition.
    destruct (match chargerDestination (bus s) with
              | Some p => Some p
              | None => position (bus s)
              end); destruct (returnDestination (bus s));
      destruct (_ >=? _); first [exact H2 | exact H1].
Qed.

End EngineBattery.

Lemma orElse_nonneg (o : option Q) (d : Q) :
  (forall r, o = Some r -> 0 <= r) -> 0 <= d -> 0 <= orElse o d.
Proof.
  intros Ho Hd. destruct o as [q |]; simpl; [| exact Hd].
  destruct (q =? 0); [exact Hd | now apply Ho].
Qed.

Lemma handleCharging_safe (deltaTime : Q) (s : State) :
  0 <= deltaTime -> energySafe (energyOf s) ->
  energySafe (energyOf (handleCharging deltaTime s)).
Proof.
  intros Hd H.
  assert (Hrate : 0 <= orElse (chargingKwhPerHour (bus s))
                              BATTERY_CONFIG.chargingRateKwhPerHour).
  { apply orElse_nonneg; [| unfold Qle; simpl; lia].
    destruct H as [_ [_ [_ [_ Hr]]]]. exact Hr. }
  assert (Hadd : 0 <= orElse (chargingKwhPerHour (bus s))
                             BATTERY_CONFIG.chargingRateKwhPerHour
                      * (deltaTime / (3600 * 1000))).
  { apply Qmult_le_0_compat; [exact Hrate |].
    apply Qle_shift_div_l; [reflexivity | lra]. }
  pose proof (charged_safe _ _ _ _ _ H Hadd) as H1.
  unfold handleCharging.
  destruct (chargingDone (bus (chargingAccrue deltaTime s))); [| exact H1].
  unfold chargingExit.
  destruct (returnTripPending _); [exact H1 |].
  apply (rewired_safe _ _ _ _ _ H1). intros r Hr. discriminate.
Qed.

Lemma dwellTimeout_safe (s : State) :
  energySafe (energyOf s) -> energySafe (energyOf (dwellTimeout s)).
Proof.
  intro H. unfold dwellTimeout.
  destruct (BusStatus_eqb (status (bus s)) dwelling); exact H.
Qed.

Lemma confirmCharging_safe (station : Station) (osrmRoute : OsrmRoute) (s : State) :
  0 <= st_kwhPerHour station -> energySafe (energyOf s) ->
  energySafe (energyOf (confirmCharging station osrmRoute s)).
Proof.
  intros Hk H. unfold confirmCharging.
  destruct (pendingCharge s) as [pending |]; [| exact H].
  assert (H1 : energySafe (batteryCapacity (bus s), batteryKwh (bus s), batteryLevel (bus s),
                           Some (orElse (Some (st_kwhPerHour station))
                                        BATTERY_CONFIG.chargingRateKwhPerHour))).
  { assert (Hk' : 0 <= orElse (Some (st_kwhPerHour station))
                                BATTERY_CONFIG.chargingRateKwhPerHour).
    { apply orElse_nonneg; [| unfold Qle; simpl; lia].
      intros r' Hr'. now injection Hr' as <-. }
    apply (rewired_safe _ _ _ _ _ H). intros r Hr. injection Hr as <-. exact Hk'. }
  cbv zeta.
  destruct ((st_deadheadMiles station >? 0)
            && negb match st_locationType station with
                    | at_the_school => true
                    | _ => false
                    end);
    destruct (st_locationType station); exact H1.
Qed.

Lemma resetBusForNewDay_safe (T : Q) (s : State) :
  0 <= T -> T <= 100 -> energySafe (energyOf s) ->
  energySafe (energyOf (resetBusForNewDay T s)).
Proof.
  intros H0 H1 H. pose proof (recharged_safe _ _ _ T _ H H0 H1) as Hr.
  unfold resetBusForNewDay.
  destruct (overnightEnergyToAdd T (bus s) >? 0); exact Hr.
Qed.

Lemma continueToNextDay_safe (T : Q) (newRouteDistance : option Q)
    (regenerated : option Route.t) (s : State) :
  0 <= T -> T <= 100 -> energySafe (energyOf s) ->
  energySafe (energyOf (continueToNextDay T newRouteDistance regenerated s)).
Proof.
  intros H0 H1 H. unfold continueToNextDay.
  destruct (truthy newRouteDistance); [destruct regenerated |];
    apply resetBusForNewDay_safe; assumption.
Qed.

Lemma calculateDayScore_bus (s : State) : bus (calculateDayScore s) = bus s.
Proof.
  unfold calculateDayScore.
  destruct (0 <? Stats.midDayCharges (stats s))%nat;
    (destruct (lastNightDecision _) as [d |]; [| reflexivity]);
    (destruct ((_ >=? 10) && (_ <=? 25)); [reflexivity |]);
    destruct (_ >? 25); reflexivity.
Qed.

Lemma calculateFinalScore_bus (s : State) : bus (calculateFinalScore s) = bus s.
Proof.
  unfold calculateFinalScore. cbv zeta.
  destruct (Qabs _ <=? 3); destruct (Nat.eqb _ 0); destruct (negb _);
    try reflexivity; destruct (0 <? _)%Z; reflexivity.
Qed.

Lemma advanceDay_bus (s : State) : bus (snd (advanceDay s)) = bus s.
Proof.
  unfold advanceDay. cbv zeta. simpl.
  destruct (findSchedule _ _); reflexivity.
Qed.

Lemma handleDayComplete_safe (s : State) :
  energySafe (energyOf s) -> energySafe (energyOf (handleDayComplete s)).
Proof.
  intro H. unfold handleDayComplete. cbv zeta.
  set (s2 := with_stats _ (stopSimulation s)).
  assert (H3 : energySafe (energyOf (calculateDayScore s2))).
  { unfold energyOf. rewrite calculateDayScore_bus. exact H. }
  pose proof (advanceDay_bus (calculateDayScore s2)) as Hb.
  destruct (advanceDay (calculateDayScore s2)) as [hasMoreDays s4]. simpl in Hb.
  assert (H4 : energySafe (energyOf s4)).
  { unfold energyOf. rewrite Hb. exact H3. }
  destruct hasMoreDays.
  - unfold showNightlyChargingDecision.
    destruct (findSchedule _ _); [exact H4 |].
    apply continueToNextDay_safe; [unfold Qle; simpl; lia | apply Qle_refl | exact H4].
  - unfold energyOf. rewrite calculateFinalScore_bus. exact H4.
Qed.

Lemma confirmNightlyCharging_safe (T : Q) (newRouteDistance : option Q)
    (v2gAmount v2gEarned : Q) (regenerated : option Route.t) (s : State) :
  0 <= T -> T <= 100 -> energySafe (energyOf s) ->
  energySafe (energyOf (confirmNightlyCharging T newRouteDistance v2gAmount v2gEarned
                          regenerated s)).
Proof.
  intros H0 H1 H. unfold confirmNightlyCharging. cbv zeta.
  apply continueToNextDay_safe; [exact H0 | exact H1 |].
  destruct (v2gAmount >? 0); destruct newRouteDistance; exact H.
Qed.

Section RunBattery.
Context {geodesy : Geodesy}.

Lemma updateBus_safe (now deltaTime : Q) (s : State) :
  0 <= deltaTime -> energySafe (energyOf s) ->
  energySafe (energyOf (updateBus now deltaTime s)).
Proof.
  intros Hd H. unfold updateBus.
  destruct (dwellPending now (bus s)); [exact H |].
  set (s0 := if truthy (dwellUntil (bus s)) then with_bus (set_dwellUntil None) s else s).
  assert (H0 : energySafe (energyOf s0)).
  { unfold s0. destruct (truthy (dwellUntil (bus s))); exact H. }
  clearbody s0.
  assert (Hrest : energySafe
                    (energyOf
                       (if isCharging (bus s0) then handleCharging deltaTime s0
                        else
                          let s1 :=
                            match status (bus s0) with
                            | waiting =>
                                s0 |> with_bus (set_status moving)
                                   |> with_route (Route.set_status route_active)
                            | _ => s0
                            end in
                          match status (bus s1) with
                          | moving => moveBus now deltaTime s1
                          | _ => s1
                          end))).
  { destruct (isCharging (bus s0)); [now apply handleCharging_safe |].
    cbv zeta.
    destruct (status (bus s0)) eqn:E; rewrite ?E; try exact H0;
      apply moveBus_safe; assumption. }
  destruct (status (bus s0)); try exact Hrest.
  - now apply handleDeadheadTravel_safe.
  - now apply handleReturnFromCharger_safe.
Qed.

Lemma step_safe (e : Event) (s : State) :
  plausible e -> energySafe (energyOf s) -> energySafe (energyOf (step e s)).
Proof.
  destruct e; simpl; intros Hp H.
  - now apply updateBus_safe.
  - now apply dwellTimeout_safe.
  - now apply confirmCharging_safe.
  - now apply handleDayComplete_safe.
  - destruct Hp. now apply confirmNightlyCharging_safe.
Qed.

Lemma run_safe (events : list Event) (s : State) :
  Forall plausible events -> energySafe (energyOf s) -> energySafe (energyOf (run events s)).
Proof.
  revert s. induction events as [| e rest IH]; intros s Hall H; [exact H |].
  inversion Hall as [| ? ? He Hrest]; subst.
  simpl. apply IH; [exact Hrest |]. now apply step_safe.
Qed.

(** C1: from a state whose battery is within its positive capacity and
    agrees with its percentage, after every tick of the bus (moving, deadhead
    travel, return travel, charging), every dwell timer, every station choice,
    every day completion and every overnight reset, with elapsed times that are
    not negative, chargers that deliver energy and charge targets between 0 and
    100, the battery is between 0 and the capacity and the percentage is
    100 times the battery over the capacity. *)
Theorem battery_stays_consistent (events : list Event) (s : State) :
  0 < batteryCapacity (bus s) -> batteryConsistent (bus s) -> chargerSane (bus s) ->
  Forall plausible events ->
  let b := bus (run events s) in
  0 <= batteryKwh b /\ batteryKwh b <= batteryCapacity b
  /\ batteryLevel b == 100 * batteryKwh b / batteryCapacity b.
Proof.
  intros Hc Hb Hr Hall b.
  change (batteryConsistent b). unfold b.
  apply energySafe_consistent.
  apply run_safe; [exact Hall |]. now apply energySafe_of.
Qed.

End RunBattery.

Lemma battery_stays_consistent_witness :
  let b := bus (@run flatMap exampleDay exampleStart) in
  0 <= batteryKwh b /\ batteryKwh b <= batteryCapacity b
  /\ batteryLevel b == 100 * batteryKwh b / batteryCapacity b.
Proof.
  apply (@battery_stays_consistent flatMap exampleDay exampleStart).
  - reflexivity.
  - unfold batteryConsistent. simpl. split; [unfold Qle; simpl; lia |].
    split; [apply Qle_refl | reflexivity].
  - intros r H. discriminate H.
  - unfold exampleDay. repeat constructor; simpl; unfold Qle; simpl; lia.
Defined.

(** ** Stranding and the terminal states *)

Section Stranding.
Context {geodesy : Geodesy}.

Lemma empty_bus_strands (now deltaTime : Q) (s : State) :
  status (bus s) = moving -> batteryKwh (bus s) == 0 -> isCharging (bus s) = false ->
  pathMissing (Route.path (route s)) = false -> dwellPending now (bus s) = false ->
  let s' := updateBus now deltaTime s in
  status (bus s') = stranded /\ position (bus s') = position (bus s)
  /\ progress (bus s') = progress (bus s) /\ batteryKwh (bus s') == 0.
Proof.
  intros Hst Hk Hc Hp Hd. unfold updateBus. rewrite Hd.
  set (s0 := if truthy (dwellUntil (bus s)) then with_bus (set_dwellUntil None) s else s).
  assert (E : status (bus s0) = moving /\ batteryKwh (bus s0) = batteryKwh (bus s)
              /\ isCharging (bus s0) = false /\ route s0 = route s
              /\ position (bus s0) = position (bus s)
              /\ progress (bus s0) = progress (bus s)).
  { unfold s0. destruct (truthy (dwellUntil (bus s))); simpl; auto 10. }
  destruct E as [E1 [E2 [E3 [E4 [E5 E6]]]]]. clearbody s0.
  cbv zeta. rewrite E1, E3. rewrite E1.
  unfold moveBus. rewrite E4, Hp, E2, E3.
  rewrite (Qleb_true (batteryKwh (bus s)) 0) by lra. simpl.
  rewrite E5, E6. repeat split; reflexivity.
Qed.

Lemma halted_step (e : Event) (s : State) :
  tickOrTimer e = true -> halted s ->
  halted (step e s) /\ status (bus (step e s)) = status (bus s)
  /\ position (bus (step e s)) = position (bus s)
  /\ progress (bus (step e s)) = progress (bus s).
Proof.
  intros He [Hs Hc]. destruct e; try discriminate He; simpl.
  - unfold updateBus. destruct (dwellPending now (bus s)); [unfold halted; auto |].
    set (s0 := if truthy (dwellUntil (bus s)) then with_bus (set_dwellUntil None) s else s).
    assert (E : status (bus s0) = status (bus s) /\ isCharging (bus s0) = false
                /\ position (bus s0) = position (bus s)
                /\ progress (bus s0) = progress (bus s)).
    { unfold s0. destruct (truthy (dwellUntil (bus s))); simpl; auto. }
    destruct E as [E1 [E2 [E3 E4]]]. clearbody s0. cbv zeta. rewrite E2.
    unfold halted.
    destruct Hs as [Hs | Hs]; rewrite <- E1 in Hs; rewrite Hs; rewrite ?Hs;
      rewrite <- E1, Hs; auto 10.
  - unfold dwellTimeout, halted.
    destruct Hs as [Hs | Hs]; rewrite Hs; simpl; auto 10.
Qed.

Lemma halted_run (events : list Event) (s : State) :
  forallb tickOrTimer events = true -> halted s ->
  status (bus (run events s)) = status (bus s)
  /\ position (bus (run events s)) = position (bus s)
  /\ progress (bus (run events s)) = progress (bus s).
Proof.
  revert s. induction events as [| e rest IH]; intros s Hall Hh; [auto |].
  simpl in Hall. apply andb_true_iff in Hall. destruct Hall as [He Hrest].
  destruct (halted_step e s He Hh) as [Hh' [H1 [H2 H3]]].
  destruct (IH (step e s) Hrest Hh') as [K1 [K2 K3]].
  simpl. repeat split; congruence.
Qed.

(** C2, amended: a bus that is moving with an empty battery, is not charging,
    has a route path of at least two points and no dwell pending becomes
    stranded on the next tick, with its position and progress unchanged; and
    a bus that is stranded or completed (and not flagged as charging) keeps
    its status, position and progress through every sequence of ticks and
    dwell timers. *)
Theorem empty_bus_strands_and_stays (now deltaTime : Q) (events : list Event)
    (s h : State) :
  (status (bus s) = moving -> batteryKwh (bus s) == 0 -> isCharging (bus s) = false ->
   pathMissing (Route.path (route s)) = false -> dwellPending now (bus s) = false ->
   status (bus (updateBus now deltaTime s)) = stranded
   /\ position (bus (updateBus now deltaTime s)) = position (bus s)
   /\ progress (bus (updateBus now deltaTime s)) = progress (bus s))
  /\ (status (bus h) = stranded \/ status (bus h) = completed ->
      isCharging (bus h) = false -> forallb tickOrTimer events = true ->
      status (bus (run events h)) = status (bus h)
      /\ position (bus (run events h)) = position (bus h)
      /\ progress (bus (run events h)) = progress (bus h)).
Proof.
  split.
  - intros Hst Hk Hc Hp Hd.
    destruct (empty_bus_strands now deltaTime s Hst Hk Hc Hp Hd) as [H1 [H2 [H3 _]]].
    auto.
  - intros Hs Hc Hall. apply halted_run; [exact Hall | split; assumption].
Qed.

End Stranding.

Lemma empty_bus_strands_and_stays_witness :
  status (bus (@updateBus flatMap 0 9600 exampleEmpty)) = stranded
  /\ position (bus (@updateBus flatMap 0 9600 exampleEmpty)) = position (bus exampleEmpty)
  /\ position (bus (@run flatMap [Tick 50 9600; DwellTimer; Tick 100 9600]
                      (@updateBus flatMap 0 9600 exampleEmpty)))
     = position (bus exampleEmpty).
Proof.
  destruct (@empty_bus_strands_and_stays flatMap 0 9600
              [Tick 50 9600; DwellTimer; Tick 100 9600]
              exampleEmpty (@updateBus flatMap 0 9600 exampleEmpty)) as [Hstrand Hstay].
  assert (Hk : batteryKwh (bus exampleEmpty) == 0) by reflexivity.
  destruct (Hstrand eq_refl Hk eq_refl eq_refl eq_refl) as [H1 [H2 _]].
  split; [exact H1 |]. split; [exact H2 |].
  destruct (Hstay (or_introl H1) eq_refl eq_refl) as [_ [H3 _]].
  rewrite H3. exact H2.
Defined.

(** C2, as stated, fails on a route whose path has fewer than two points: the
    tick returns before it looks at the battery, and the bus stays [moving]. *)
Lemma degenerate_path_never_strands :
  status (bus exampleNoPath) = moving
  /\ batteryKwh (bus exampleNoPath) == 0
  /\ isCharging (bus exampleNoPath) = false
  /\ status (bus (@updateBus flatMap 0 9600 exampleNoPath)) = moving.
Proof. repeat split. Qed.

(** ** The mid-day flag *)

Lemma quiet_ledger (s s' : State) : quiet s s' -> ledgerOf s' = ledgerOf s.
Proof. now intros [H _]. Qed.

Lemma quiet_checked (s s' : State) :
  quiet s s' -> midDayChargeChecked (bus s) = true -> midDayChargeChecked (bus s') = true.
Proof. now intros [_ [_ [_ [_ H]]]]. Qed.

Lemma quiet_place (s s' : State) :
  quiet s s' ->
  position (bus s') = position (bus s) /\ progress (bus s') = progress (bus s)
  /\ placesOf s' = placesOf s.
Proof.
  intros [_ [_ [H [H' _]]]]. unfold placeOf in H. injection H as H1 H2 H3. auto.
Qed.

Lemma strandOnRoute_books (s : State) : booksKept s (strandOnRoute s).
Proof. split; reflexivity. Qed.

Lemma handleCharging_books (deltaTime : Q) (s : State) :
  booksKept s (handleCharging deltaTime s).
Proof.
  unfold handleCharging.
  destruct (chargingDone (bus (chargingAccrue deltaTime s))); [| split; reflexivity].
  unfold chargingExit. destruct (returnTripPending _); split; reflexivity.
Qed.

Lemma dwellTimeout_books (s : State) : booksKept s (dwellTimeout s).
Proof.
  unfold dwellTimeout. destruct (BusStatus_eqb (status (bus s)) dwelling); split; reflexivity.
Qed.

Lemma confirmCharging_checked (station : Station) (osrmRoute : OsrmRoute) (s : State) :
  midDayChargeChecked (bus (confirmCharging station osrmRoute s))
  = midDayChargeChecked (bus s).
Proof.
  unfold confirmCharging. destruct (pendingCharge s); [| reflexivity]. cbv zeta.
  destruct ((st_deadheadMiles station >? 0)
            && negb match st_locationType station with
                    | at_the_school => true
                    | _ => false
                    end);
    destruct (st_locationType station); reflexivity.
Qed.

Lemma processStopArrival_rise (now : Q) (currentStop : Stop.t) (s : State) :
  midDayChargeChecked (bus s) = false ->
  midDayChargeChecked (bus (processStopArrival now currentStop s)) = true ->
  Stop.type currentStop = school.
Proof.
  intros Hf Ht. unfold processStopArrival in Ht.
  destruct (Stop.type currentStop); try reflexivity; simpl in Ht; congruence.
Qed.

Section EngineFlag.
Context {geodesy : Geodesy}.

Lemma nearSchool_quiet (s s' : State) : quiet s s' -> nearSchool s' -> nearSchool s.
Proof.
  intros Hq [pos [place [H1 [H2 H3]]]]. destruct (quiet_place s s' Hq) as [P1 [_ P3]].
  exists pos, place. rewrite <- P1, <- P3. auto.
Qed.

Lemma checkStopArrivalsLoop_rise (fuel : nat) (now : Q) (k : nat) (s : State) :
  midDayChargeChecked (bus s) = false ->
  midDayChargeChecked (bus (checkStopArrivalsLoop fuel now k s)) = true ->
  nearSchool s.
Proof.
  revert k s. induction fuel as [| fuel IH]; intros k s Hf Ht; simpl in Ht; [congruence |].
  destruct ((k <? 3)%nat
            && (currentStopIndex (bus s) <? List.length (Route.stops (route s)))%nat);
    [| congruence].
  destruct (nth_error (Route.stops (route s)) (currentStopIndex (bus s))) as [st |] eqn:Hnth;
    [| congruence].
  destruct (Stop.completed st).
  - apply IH in Ht; [| exact Hf].
    eapply nearSchool_quiet; [| exact Ht]. repeat split; auto.
  - destruct (position (bus s)) as [pos |] eqn:Hpos; [| congruence].
    destruct (Qltb_spec (haversineDistance pos (Stop.coords st))
                        (Qmax SIMULATION_CONFIG.arrivalThreshold 0.15)) as [Hnear | _];
      [| congruence].
    set (s1 := with_route _ s) in Ht.
    set (s2 := processStopArrival now (Stop.set_completed true st) s1) in Ht.
    destruct (midDayChargeChecked (bus s2)) eqn:H2.
    + assert (Hschool : Stop.type st = school).
      { apply (processStopArrival_rise now (Stop.set_completed true st) s1); assumption. }
      exists pos, (Stop.coords st). split; [exact Hpos |]. split; [| exact Hnear].
      unfold placesOf. apply nth_error_In in Hnth. rewrite <- Hschool.
      apply (in_map (fun st => (Stop.type st, Stop.coords st))). exact Hnth.
    + apply IH in Ht; [| exact H2].
      assert (Hq : quiet s (with_bus (fun b => set_currentStopIndex (S (currentStopIndex b)) b)
                              s2)).
      { apply (quiet_trans _ s1); [| apply (quiet_trans _ s2)].
        - repeat split; auto. unfold placesOf, s1. simpl. apply markCompleted_places.
        - apply processStopArrival_quiet.
        - repeat split; auto. }
      eapply nearSchool_quiet; [exact Hq | exact Ht].
Qed.

Lemma checkStopArrivals_rise (now : Q) (s : State) :
  midDayChargeChecked (bus s) = false ->
  midDayChargeChecked (bus (checkStopArrivals now s)) = true ->
  nearSchool s.
Proof.
  unfold checkStopArrivals.
  destruct (List.length (Route.stops (route s)) <=? currentStopIndex (bus s))%nat;
    [congruence | apply checkStopArrivalsLoop_rise].
Qed.

Lemma handleDeadheadTravel_books (deltaTime : Q) (s : State) :
  booksKept s (handleDeadheadTravel deltaTime s).
Proof.
  unfold handleDeadheadTravel.
  destruct (negb (isSome (chargerDestination (bus s)))
            || negb (truthy (deadheadDistance (bus s)))); [split; reflexivity |].
  cbv zeta.
  destruct (Qmax 0 _ <=? 0); [split; reflexivity |].
  destruct (hasRoutedPath (deadheadPath (bus s))).
  - destruct (_ >=? _); split; reflexivity.
  - unfold linearPosition.
    destruct (match deadheadStartPosition (bus s) with
              | Some p => Some p
              | None => position (bus s)
              end); destruct (chargerDestination (bus s));
      destruct (_ >=? _); split; reflexivity.
Qed.

Lemma handleReturnFromCharger_books (deltaTime : Q) (s : State) :
  booksKept s (handleReturnFromCharger deltaTime s).
Proof.
  unfold handleReturnFromCharger.
  destruct (negb (isSome (returnDestination (bus s)))
            || negb (truthy (returnDistance (bus s)))); [split; reflexivity |].
  cbv zeta.
  destruct (Qmax 0 _ <=? 0); [split; reflexivity |].
  destruct (hasRoutedPath (returnPath (bus s))).
  - destruct (_ >=? _); split; reflexivity.
  - unfold linearPosition.
    destruct (match chargerDestination (bus s) with
              | Some p => Some p
              | None => position (bus s)
              end); destruct (returnDestination (bus s));
      destruct (_ >=? _); split; reflexivity.
Qed.

(** What a tick of [moveBus] does to the books and to the flag: the books
    are kept, the flag is never cleared, and when it is raised the bus is near
    a school stop or between 48% and 52% of the route. *)
Lemma moveBus_flag (now deltaTime : Q) (s : State) :
  let s' := moveBus now deltaTime s in
  ledgerOf s' = ledgerOf s
  /\ (midDayChargeChecked (bus s) = true -> midDayChargeChecked (bus s') = true)
  /\ (midDayChargeChecked (bus s) = false -> midDayChargeChecked (bus s') = true ->
      nearSchool s' \/ (0.48 <= progress (bus s') /\ progress (bus s') <= 0.52)).
Proof.
  unfold moveBus.
  destruct (pathMissing (Route.path (route s))); [repeat split; auto; congruence |].
  destruct ((batteryKwh (bus s) <=? 0) && negb (isCharging (bus s)));
    [repeat split; auto; simpl; congruence |].
  destruct (calculatePathLength (Route.path (route s)) =? 0);
    [repeat split; auto; congruence |].
  set (s1 := advanceOnRoute deltaTime _ s).
  assert (H1 : booksKept s s1) by (split; reflexivity).
  destruct H1 as [L1 F1]. clearbody s1.
  destruct ((batteryKwh (bus s1) <=? 0) && negb (isCharging (bus s1))).
  { destruct (strandOnRoute_books s1) as [L F]. rewrite L, F, F1.
    split; [exact L1 |]. split; intros; congruence. }
  set (s2 := updateTripPhase s1).
  pose proof (updateTripPhase_quiet s1) as Q2. fold s2 in Q2.
  assert (F2 : midDayChargeChecked (bus s2) = midDayChargeChecked (bus s1)).
  { unfold s2, updateTripPhase.
    destruct ((progress (bus s1) >=? 0.45) && (progress (bus s1) <=? 0.55));
      [reflexivity |].
    destruct (progress (bus s1) >? 0.55); reflexivity. }
  set (s3 := checkStopArrivals now s2).
  pose proof (checkStopArrivals_quiet now s2) as Q3. fold s3 in Q3.
  assert (L3 : ledgerOf s3 = ledgerOf s).
  { rewrite (quiet_ledger _ _ Q3), (quiet_ledger _ _ Q2). exact L1. }
  assert (M3 : midDayChargeChecked (bus s) = true -> midDayChargeChecked (bus s3) = true).
  { intro H. apply (quiet_checked _ _ Q3). rewrite F2, F1. exact H. }
  assert (R3 : midDayChargeChecked (bus s) = false -> midDayChargeChecked (bus s3) = true ->
               nearSchool s3).
  { intros Hf Ht. eapply nearSchool_quiet.
    - apply quiet_refl.
    - assert (N2 : nearSchool s2).
      { apply (checkStopArrivals_rise now s2); [rewrite F2, F1; exact Hf | exact Ht]. }
      destruct N2 as [pos [place [P1 [P2 P3]]]].
      destruct (quiet_place _ _ Q3) as [E1 [_ E3]].
      exists pos, place. rewrite E1, E3. auto. }
  destruct (fallbackDue (bus s3)) eqn:Hdue.
  - pose proof (fallbackSchoolArrival_quiet now s3) as Q4.
    split; [rewrite (quiet_ledger _ _ Q4); exact L3 |].
    split; [intro H; apply (quiet_checked _ _ Q4); auto |].
    intros _ _. right.
    destruct (quiet_place _ _ Q4) as [_ [E2 _]]. rewrite E2.
    unfold fallbackDue in Hdue.
    apply andb_true_iff in Hdue. destruct Hdue as [Hdue _].
    apply andb_true_iff in Hdue. destruct Hdue as [Hdue _].
    apply andb_true_iff in Hdue. destruct Hdue as [Hlo Hhi].
    apply Qle_bool_iff in Hlo. apply Qle_bool_iff in Hhi. auto.
  - destruct (progress (bus s3) >=? 0.99).
    + destruct (completeRoute_calm s3) as [C1 [_ [C3 [C4 C5]]]].
      split; [rewrite C1; exact L3 |].
      split; [rewrite C5; exact M3 |].
      intros Hf Ht. left. rewrite C5 in Ht.
      destruct (R3 Hf Ht) as [pos [place [P1 [P2 P3]]]].
      exists pos, place. rewrite C3, C4. auto.
    + split; [exact L3 |]. split; [exact M3 |]. intros Hf Ht. left. auto.
Qed.

Lemma updateBus_flag (now deltaTime : Q) (s : State) :
  let s' := updateBus now deltaTime s in
  ledgerOf s' = ledgerOf s
  /\ (midDayChargeChecked (bus s) = true -> midDayChargeChecked (bus s') = true)
  /\ (midDayChargeChecked (bus s) = false -> midDayChargeChecked (bus s') = true ->
      nearSchool s' \/ (0.48 <= progress (bus s') /\ progress (bus s') <= 0.52)).
Proof.
  unfold updateBus.
  destruct (dwellPending now (bus s)); [repeat split; auto; congruence |].
  set (s0 := if truthy (dwellUntil (bus s)) then with_bus (set_dwellUntil None) s else s).
  assert (H0 : booksKept s s0).
  { unfold s0. destruct (truthy (dwellUntil (bus s))); split; reflexivity. }
  destruct H0 as [L0 F0]. clearbody s0. cbv zeta.
  assert (Hbooks : forall s', booksKept s0 s' ->
            ledgerOf s' = ledgerOf s
            /\ (midDayChargeChecked (bus s) = true -> midDayChargeChecked (bus s') = true)
            /\ (midDayChargeChecked (bus s) = false ->
                midDayChargeChecked (bus s') = true ->
                nearSchool s'
                \/ (0.48 <= progress (bus s') /\ progress (bus s') <= 0.52))).
  { intros s' [L F]. rewrite L, F, F0. repeat split; auto; congruence. }
  assert (Hmove : forall s1, booksKept s0 s1 ->
            let s' := moveBus now deltaTime s1 in
            ledgerOf s' = ledgerOf s
            /\ (midDayChargeChecked (bus s) = true -> midDayChargeChecked (bus s') = true)
            /\ (midDayChargeChecked (bus s) = false ->
                midDayChargeChecked (bus s') = true ->
                nearSchool s'
                \/ (0.48 <= progress (bus s') /\ progress (bus s') <= 0.52))).
  { intros s1 [L F] s'. destruct (moveBus_flag now deltaTime s1) as [A [B C]].
    fold s' in A, B, C. rewrite A, L, L0. rewrite F, F0 in B, C. auto. }
  assert (Hrest :
            let s' := if isCharging (bus s0) then handleCharging deltaTime s0
                      else match status (bus match status (bus s0) with
                                              | waiting =>
                                                  s0 |> with_bus (set_status moving)
                                                     |> with_route
                                                          (Route.set_status route_active)
                                              | _ => s0
                                              end) with
                           | moving =>
                               moveBus now deltaTime
                                 match status (bus s0) with
                                 | waiting =>
                                     s0 |> with_bus (set_status moving)
                                        |> with_route (Route.set_status route_active)
                                 | _ => s0
                                 end
                           | _ => match status (bus s0) with
                                  | waiting =>
                                      s0 |> with_bus (set_status moving)
                                         |> with_route (Route.set_status route_active)
                                  | _ => s0
                                  end
                           end in
            ledgerOf s' = ledgerOf s
            /\ (midDayChargeChecked (bus s) = true -> midDayChargeChecked (bus s') = true)
            /\ (midDayChargeChecked (bus s) = false ->
                midDayChargeChecked (bus s') = true ->
                nearSchool s'
                \/ (0.48 <= progress (bus s') /\ progress (bus s') <= 0.52))).
  { destruct (isCharging (bus s0)); [apply Hbooks, handleCharging_books |].
    destruct (status (bus s0)) eqn:E; rewrite ?E;
      try (apply Hbooks; split; reflexivity);
      apply Hmove; split; reflexivity. }
  destruct (status (bus s0)); try exact Hrest.
  - apply Hbooks, handleDeadheadTravel_books.
  - apply Hbooks, handleReturnFromCharger_books.
Qed.

End EngineFlag.

Section RunFlag.
Context {geodesy : Geodesy}.

Lemma step_checked (e : Event) (s : State) :
  withinDay e = true -> midDayChargeChecked (bus s) = true ->
  midDayChargeChecked (bus (step e s)) = true.
Proof.
  destruct e; simpl; try discriminate; intros _ H.
  - destruct (updateBus_flag now deltaTime s) as [_ [Hm _]]. auto.
  - destruct (dwellTimeout_books s) as [_ Hf]. congruence.
  - rewrite confirmCharging_checked. exact H.
Qed.

Lemma checked_stays (events : list Event) (s : State) :
  forallb withinDay events = true -> midDayChargeChecked (bus s) = true ->
  risingEdges true (checkedTrace events s) = 0%nat.
Proof.
  revert s. induction events as [| e rest IH]; intros s Hall H; [reflexivity |].
  simpl in Hall. apply andb_true_iff in Hall. destruct Hall as [He Hrest].
  simpl. rewrite (step_checked e s He H). simpl. apply IH; [exact Hrest |].
  now apply step_checked.
Qed.

Lemma checked_once (events : list Event) (s : State) :
  forallb withinDay events = true ->
  (risingEdges (midDayChargeChecked (bus s)) (checkedTrace events s) <= 1)%nat.
Proof.
  revert s. induction events as [| e rest IH]; intros s Hall; [simpl; lia |].
  simpl in Hall. apply andb_true_iff in Hall. destruct Hall as [He Hrest].
  simpl. destruct (midDayChargeChecked (bus s)) eqn:Hs.
  - rewrite (step_checked e s He Hs). simpl.
    rewrite (checked_stays rest (step e s) Hrest (step_checked e s He Hs)). lia.
  - destruct (midDayChargeChecked (bus (step e s))) eqn:Hs'.
    + simpl. rewrite (checked_stays rest (step e s) Hrest Hs'). lia.
    + simpl. specialize (IH (step e s) Hrest). rewrite Hs' in IH. exact IH.
Qed.

(** C7, amended: during a day, that is along any sequence of ticks, dwell
    timers and station choices that starts after the reset has cleared the
    flag, [midDayChargeChecked] goes from false to true at most once; and a
    tick that raises it either finds the bus within the arrival threshold of a
    school stop or, by the progress fallback, between 48% and 52% of the
    route. *)
Theorem midday_flag_at_most_once (events : list Event) (now deltaTime T : Q)
    (d s : State) :
  midDayChargeChecked (bus (resetBusForNewDay T d)) = false
  /\ (forallb withinDay events = true ->
      (risingEdges (midDayChargeChecked (bus d)) (checkedTrace events d) <= 1)%nat)
  /\ (midDayChargeChecked (bus s) = false ->
      midDayChargeChecked (bus (updateBus now deltaTime s)) = true ->
      nearSchool (updateBus now deltaTime s)
      \/ (0.48 <= progress (bus (updateBus now deltaTime s))
          /\ progress (bus (updateBus now deltaTime s)) <= 0.52)).
Proof.
  split; [| split].
  - unfold resetBusForNewDay. destruct (_ >? 0); reflexivity.
  - apply checked_once.
  - destruct (updateBus_flag now deltaTime s) as [_ [_ H]]. exact H.
Qed.

End RunFlag.

Lemma midday_flag_at_most_once_witness :
  (risingEdges false
     (@checkedTrace flatMap [Tick 0 2707200; Tick 50 230400] exampleStart) <= 1)%nat
  /\ (@nearSchool flatMap
        (@updateBus flatMap 50 230400 (@run flatMap [Tick 0 2707200] exampleStart))
      \/ (0.48 <= progress (bus (@updateBus flatMap 50 230400
                                   (@run flatMap [Tick 0 2707200] exampleStart)))
          /\ progress (bus (@updateBus flatMap 50 230400
                              (@run flatMap [Tick 0 2707200] exampleStart))) <= 0.52)).
Proof.
  destruct (@midday_flag_at_most_once flatMap [Tick 0 2707200; Tick 50 230400]
              50 230400 100 exampleStart (@run flatMap [Tick 0 2707200] exampleStart))
    as [_ [Honce Hcause]].
  split; [exact (Honce eq_refl) |].
  apply Hcause; vm_compute; reflexivity.
Defined.

(** C7, as stated, fails twice.  A tick that is late carries the bus from 47%
    to 51% of the route, and the fallback raises the flag there, after the
    half of the route.  And a bus that starts the day with 10% of its battery
    strands on the way to the school: the day ends without the flag ever
    being raised. *)
Lemma midday_flag_late_or_never :
  (midDayChargeChecked (bus (@run flatMap [Tick 0 2707200] exampleStart)) = false
   /\ progress (bus (@run flatMap [Tick 0 2707200] exampleStart)) == 0.47
   /\ midDayChargeChecked
        (bus (@run flatMap [Tick 0 2707200; Tick 50 230400] exampleStart)) = true
   /\ progress (bus (@run flatMap [Tick 0 2707200; Tick 50 230400] exampleStart)) == 0.51
   /\ 0.5 < progress (bus (@run flatMap [Tick 0 2707200; Tick 50 230400] exampleStart)))
  /\ (midDayChargeChecked (bus exampleLowStart) = false
      /\ status (bus (@run flatMap [Tick 0 2880000] exampleLowStart)) = stranded
      /\ risingEdges false (@checkedTrace flatMap [Tick 0 2880000] exampleLowStart) = 0%nat).
Proof.
  split.
  - split; [vm_compute; reflexivity |]. split; [vm_compute; reflexivity |].
    split; [vm_compute; reflexivity |]. split; vm_compute; reflexivity.
  - split; [reflexivity |]. split; vm_compute; reflexivity.
Qed.

(** ** The perfect-week bonus *)

Lemma perfectWeekCount_app (l : list ScoreRecord) (r : ScoreRecord) :
  perfectWeekCount (l ++ [r])
  = (perfectWeekCount l
     + if (sr_reason r =? perfectWeekReason)%string then 1 else 0)%nat.
Proof.
  unfold perfectWeekCount. rewrite filter_app, length_app. simpl.
  destruct (sr_reason r =? perfectWeekReason)%string; reflexivity.
Qed.

Lemma allClean_app (l : list DayResult) (r : DayResult) :
  allClean (l ++ [r]) = allClean l && negb (dr_midDayCharged r).
Proof. unfold allClean. rewrite forallb_app. simpl. now rewrite andb_true_r. Qed.

Lemma startScenario_dayInv (cfg : Config.t) (r : Route.t) : dayInv 1 (startScenario cfg r).
Proof.
  unfold dayInv, startScenario. simpl. repeat split; auto.
Qed.

Lemma calculateDayScore_week (s : State) :
  week (calculateDayScore s) = week s /\ stats (calculateDayScore s) = stats s
  /\ perfectWeekCount (Score.bonuses (score (calculateDayScore s)))
     = perfectWeekCount (Score.bonuses (score s)).
Proof.
  unfold calculateDayScore.
  destruct (0 <? Stats.midDayCharges (stats s))%nat;
    (destruct (lastNightDecision _) as [d |]; [| repeat split; reflexivity]);
    (destruct ((_ >=? 10) && (_ <=? 25));
     [repeat split; try reflexivity; simpl; rewrite perfectWeekCount_app; simpl; lia |]);
    destruct (_ >? 25); repeat split; reflexivity.
Qed.

Lemma difficulty_reason_differs (d : Difficulty) :
  ((difficultyName d ++ " difficulty bonus") =? perfectWeekReason)%string = false.
Proof. destruct d; reflexivity. Qed.

Lemma calculateFinalScore_count (s : State) :
  week (calculateFinalScore s) = week s
  /\ perfectWeekCount (Score.bonuses (score (calculateFinalScore s)))
     = (perfectWeekCount (Score.bonuses (score s))
        + if Nat.eqb (Week.totalMidDayCharges (week s)) 0 then 1 else 0)%nat.
Proof.
  unfold calculateFinalScore. cbv zeta.
  set (d := WEATHER_PATTERNS.difficulty (Config.weatherPattern (config s))).
  pose proof (difficulty_reason_differs d) as Hd.
  destruct (Qabs _ <=? 3); simpl week; simpl Week.totalMidDayCharges;
    destruct (Nat.eqb (Week.totalMidDayCharges (week s)) 0);
    destruct (negb _); try (destruct (0 <? _)%Z);
    split; try reflexivity; simpl; rewrite ?perfectWeekCount_app; simpl;
    rewrite ?Hd; simpl; lia.
Qed.

Lemma resetBusForNewDay_week (T : Q) (s : State) :
  Week.currentDay (week (resetBusForNewDay T s)) = Week.currentDay (week s)
  /\ Week.totalMidDayCharges (week (resetBusForNewDay T s)) = Week.totalMidDayCharges (week s)
  /\ Week.dayResults (week (resetBusForNewDay T s)) = Week.dayResults (week s)
  /\ score (resetBusForNewDay T s) = score s
  /\ Stats.midDayCharges (stats (resetBusForNewDay T s)) = Stats.midDayCharges (stats s).
Proof.
  unfold resetBusForNewDay. destruct (_ >? 0); repeat split; reflexivity.
Qed.

Lemma continueToNextDay_week (T : Q) (newRouteDistance : option Q)
    (regenerated : option Route.t) (s : State) :
  let s' := continueToNextDay T newRouteDistance regenerated s in
  Week.currentDay (week s') = Week.currentDay (week s)
  /\ Week.totalMidDayCharges (week s') = Week.totalMidDayCharges (week s)
  /\ Week.dayResults (week s') = Week.dayResults (week s)
  /\ score s' = score s
  /\ Stats.midDayCharges (stats s') = 0%nat.
Proof.
  unfold continueToNextDay.
  destruct (truthy newRouteDistance); [destruct regenerated |];
    match goal with
    | |- context [resetBusForNewDay T ?x] =>
        destruct (resetBusForNewDay_week T x) as [A [B [C [D E]]]]
    end; cbv zeta; rewrite A, B, C, D, E; repeat split; reflexivity.
Qed.

Lemma nightInv_confirm (n : nat) (T : Q) (newRouteDistance : option Q)
    (v2gAmount v2gEarned : Q) (regenerated : option Route.t) (s : State) :
  nightInv n s ->
  dayInv n (confirmNightlyCharging T newRouteDistance v2gAmount v2gEarned regenerated s).
Proof.
  intros [H1 [H2 [H3 H4]]]. unfold confirmNightlyCharging. cbv zeta.
  match goal with
  | |- dayInv n (continueToNextDay ?t ?d ?r ?x) =>
      destruct (continueToNextDay_week t d r x) as [A [B [C [D E]]]];
      assert (Hx : Week.currentDay (week x) = Week.currentDay (week s)
                   /\ Week.totalMidDayCharges (week x) = Week.totalMidDayCharges (week s)
                   /\ Week.dayResults (week x) = Week.dayResults (week s)
                   /\ score x = score s)
        by (destruct (v2gAmount >? 0); destruct newRouteDistance; repeat split; reflexivity)
  end.
  destruct Hx as [X1 [X2 [X3 X4]]].
  unfold dayInv. rewrite A, B, C, D, E, X1, X2, X3, X4.
  split; [exact H1 |]. split; [exact H2 |]. split; [| exact H4].
  rewrite H3. tauto.
Qed.

Lemma advanceDay_week (s : State) :
  let s' := snd (advanceDay s) in
  fst (advanceDay s) = (S (Week.currentDay (week s)) <=? 3)%nat
  /\ Week.currentDay (week s') = S (Week.currentDay (week s))
  /\ Week.totalMidDayCharges (week s')
     = (Week.totalMidDayCharges (week s) + Stats.midDayCharges (stats s))%nat
  /\ (exists r, Week.dayResults (week s') = Week.dayResults (week s) ++ [r]
                /\ dr_midDayCharged r = (0 <? Stats.midDayCharges (stats s))%nat)
  /\ score s' = score s /\ stats s' = stats s.
Proof.
  unfold advanceDay. cbv zeta. simpl.
  destruct (findSchedule _ _); simpl; repeat split; try reflexivity;
    eexists; split; reflexivity.
Qed.

(** The state that [handleDayComplete] hands to the night or to the final
    score: the day is recorded and the week's count is zero exactly when all
    recorded days are clean. *)
Lemma dayInv_advance (n : nat) (s : State) :
  dayInv n s ->
  let s4 := snd (advanceDay (calculateDayScore
                   (with_stats
                      (Stats.set_electricCost
                         ((Stats.totalEnergyConsumed (stats (stopSimulation s))
                           - Stats.midDayChargingKwh (stats (stopSimulation s)))
                          * FUEL_COSTS.overnight
                          + Stats.midDayChargingCost (stats (stopSimulation s))))
                      (stopSimulation s)))) in
  nightInv (S n) s4.
Proof.
  intros [H1 [H2 [H3 H4]]]. cbv zeta.
  set (s2 := with_stats _ (stopSimulation s)).
  destruct (calculateDayScore_week s2) as [W [St B]].
  destruct (advanceDay_week (calculateDayScore s2)) as [_ [A1 [A2 [[r [A3 A4]] [A5 A6]]]]].
  unfold nightInv. rewrite A1, A2, A3, A5, W, St, B.
  change (Week.currentDay (week s2)) with (Week.currentDay (week s)).
  change (Week.totalMidDayCharges (week s2)) with (Week.totalMidDayCharges (week s)).
  change (Week.dayResults (week s2)) with (Week.dayResults (week s)).
  change (Stats.midDayCharges (stats s2)) with (Stats.midDayCharges (stats s)).
  change (Score.bonuses (score s2)) with (Score.bonuses (score s)).
  rewrite St in A4.
  change (Stats.midDayCharges (stats s2)) with (Stats.midDayCharges (stats s)) in A4.
  split; [now rewrite H1 |]. split; [exact H2 |]. split.
  - rewrite allClean_app, A4, andb_true_iff, negb_true_iff, Nat.ltb_ge.
    split.
    + intro H. assert (Ht : Week.totalMidDayCharges (week s) = 0%nat) by lia.
      apply H3 in Ht. split; [tauto | lia].
    + intros [Hc Hm]. assert (Hm0 : Stats.midDayCharges (stats s) = 0%nat) by lia.
      assert (Ht : Week.totalMidDayCharges (week s) = 0%nat) by (apply H3; auto).
      lia.
  - rewrite length_app. simpl. lia.
Qed.

Lemma confirmCharging_dayInv (n : nat) (station : Station) (osrmRoute : OsrmRoute)
    (s : State) :
  dayInv n s -> dayInv n (confirmCharging station osrmRoute s).
Proof.
  intros [H1 [H2 [H3 H4]]]. unfold confirmCharging.
  destruct (pendingCharge s); [| repeat split; tauto]. cbv zeta.
  unfold dayInv.
  destruct ((st_deadheadMiles station >? 0)
            && negb match st_locationType station with
                    | at_the_school => true
                    | _ => false
                    end);
    destruct (st_locationType station); simpl;
    (split; [exact H1 |]; split; [exact H2 |]; split; [| exact H4];
     split; [discriminate | intros [K _]; discriminate]).
Qed.

Lemma ledger_dayInv (n : nat) (s s' : State) :
  ledgerOf s' = ledgerOf s -> dayInv n s -> dayInv n s'.
Proof.
  unfold ledgerOf. intros H. injection H as Hc Hw Hd Hs Hm.
  unfold dayInv. now rewrite Hw, Hs, Hm.
Qed.

Lemma handleDayComplete_shape (s : State) :
  exists s4 : State,
    advanceDay (calculateDayScore
                  (with_stats
                     (Stats.set_electricCost
                        ((Stats.totalEnergyConsumed (stats (stopSimulation s))
                          - Stats.midDayChargingKwh (stats (stopSimulation s)))
                         * FUEL_COSTS.overnight
                         + Stats.midDayChargingCost (stats (stopSimulation s))))
                     (stopSimulation s)))
    = ((S (Week.currentDay (week s)) <=? 3)%nat, s4)
    /\ handleDayComplete s
       = if (S (Week.currentDay (week s)) <=? 3)%nat then showNightlyChargingDecision s4
         else calculateFinalScore s4.
Proof.
  unfold handleDayComplete. cbv zeta.
  set (s2 := with_stats _ (stopSimulation s)).
  destruct (calculateDayScore_week s2) as [W _].
  destruct (advanceDay_week (calculateDayScore s2)) as [A _].
  rewrite W in A. change (Week.currentDay (week s2)) with (Week.currentDay (week s)) in A.
  destruct (advanceDay (calculateDayScore s2)) as [more s4]. simpl in A. subst more.
  exists s4. split; reflexivity.
Qed.

Lemma handleDayComplete_night (n : nat) (s : State) :
  (n <= 2)%nat -> dayInv n s -> nightInv (S n) (handleDayComplete s).
Proof.
  intros Hn Hinv. pose proof (dayInv_advance n s Hinv) as Hnight. cbv zeta in Hnight.
  destruct (handleDayComplete_shape s) as [s4 [Ha Hh]].
  rewrite Ha in Hnight. simpl in Hnight. rewrite Hh.
  destruct Hinv as [H1 _]. rewrite H1.
  replace (S n <=? 3)%nat with true by (symmetry; apply Nat.leb_le; lia).
  unfold showNightlyChargingDecision.
  destruct (findSchedule _ _); [exact Hnight |].
  destruct (continueToNextDay_week 100 None None s4) as [A [B [C [D _]]]].
  destruct Hnight as [N1 [N2 [N3 N4]]].
  unfold nightInv. rewrite A, B, C, D. auto.
Qed.

Lemma handleDayComplete_final (s : State) :
  dayInv 3 s ->
  let final := handleDayComplete s in
  perfectWeekCount (Score.bonuses (score final))
  = (if Nat.eqb (Week.totalMidDayCharges (week final)) 0 then 1 else 0)%nat
  /\ (Week.totalMidDayCharges (week final) = 0%nat <->
      allClean (Week.dayResults (week final)) = true)
  /\ List.length (Week.dayResults (week final)) = 3%nat.
Proof.
  intros Hinv. pose proof (dayInv_advance 3 s Hinv) as Hnight. cbv zeta in Hnight.
  destruct (handleDayComplete_shape s) as [s4 [Ha Hh]].
  rewrite Ha in Hnight. simpl in Hnight. cbv zeta. rewrite Hh.
  destruct Hinv as [H1 _]. rewrite H1. simpl.
  destruct (calculateFinalScore_count s4) as [W C].
  destruct Hnight as [N1 [N2 [N3 N4]]].
  rewrite W, C, N2. split; [reflexivity |]. split; [exact N3 | lia].
Qed.

Section RunWeek.
Context {geodesy : Geodesy}.

Lemma step_dayInv (n : nat) (e : Event) (s : State) :
  withinDay e = true -> dayInv n s -> dayInv n (step e s).
Proof.
  destruct e; simpl; try discriminate; intros _ H.
  - destruct (updateBus_flag now deltaTime s) as [L _]. exact (ledger_dayInv _ _ _ L H).
  - destruct (dwellTimeout_books s) as [L _]. exact (ledger_dayInv _ _ _ L H).
  - now apply confirmCharging_dayInv.
Qed.

Lemma run_dayInv (n : nat) (events : list Event) (s : State) :
  forallb withinDay events = true -> dayInv n s -> dayInv n (run events s).
Proof.
  revert s. induction events as [| e rest IH]; intros s Hall H; [exact H |].
  simpl in Hall. apply andb_true_iff in Hall. destruct Hall as [He Hrest].
  simpl. apply IH; [exact Hrest |]. now apply step_dayInv.
Qed.

Lemma run_app (a b : list Event) (s : State) : run (a ++ b) s = run b (run a s).
Proof. unfold run. apply fold_left_app. Qed.

Lemma night_step (n : nat) (e : Event) (s : State) :
  overnightChoice e = true -> nightInv n s -> dayInv n (step e s).
Proof.
  destruct e; simpl; try discriminate. intros _ H. now apply nightInv_confirm.
Qed.

End RunWeek.

(** * Further properties of the engine *)

(** ** The score ledger *)

Lemma sumDayScores_app (l : list DayScore) (d : DayScore) :
  sumDayScores (l ++ [d]) = (sumDayScores l + ds_points d)%Z.
Proof. induction l as [| x l IH]; simpl; [lia | rewrite IH; lia]. Qed.

Lemma sumRecords_app (l : list ScoreRecord) (r : ScoreRecord) :
  sumRecords (l ++ [r]) = (sumRecords l + sr_points r)%Z.
Proof. induction l as [| x l IH]; simpl; [lia | rewrite IH; lia]. Qed.

Lemma addDayScore_balanced (d : DayScore) (s : State) :
  balanced (score s) -> balanced (score (addDayScore d s)).
Proof.
  unfold balanced, addDayScore. simpl. intro H. rewrite sumDayScores_app, H. lia.
Qed.

Lemma addBonus_balanced (r : ScoreRecord) (s : State) :
  balanced (score s) -> balanced (score (addBonus r s)).
Proof.
  unfold balanced, addBonus. simpl. intro H. rewrite sumRecords_app, H. lia.
Qed.

Lemma addPenalty_balanced (r : ScoreRecord) (s : State) :
  balanced (score s) -> balanced (score (addPenalty r s)).
Proof.
  unfold balanced, addPenalty. simpl. intro H. rewrite sumRecords_app, H. lia.
Qed.

Lemma calculateDayScore_balanced (s : State) :
  balanced (score s) -> balanced (score (calculateDayScore s)).
Proof.
  intro H. unfold calculateDayScore.
  destruct (0 <? Stats.midDayCharges (stats s))%nat;
    (destruct (lastNightDecision _) as [d |];
     [destruct ((_ >=? 10) && (_ <=? 25)); [| destruct (_ >? 25)] |]);
    cbv beta iota zeta.
  all: repeat first [apply addDayScore_balanced | apply addBonus_balanced
                    | apply addPenalty_balanced].
  all: exact H.
Qed.

Lemma calculateFinalScore_balanced (s : State) :
  balanced (score s) -> balanced (score (calculateFinalScore s)).
Proof.
  intro H. unfold calculateFinalScore. cbv zeta.
  destruct (Qabs _ <=? 3); destruct (Nat.eqb _ 0); destruct (negb _);
    try destruct (0 <? _)%Z.
  all: repeat apply addBonus_balanced.
  all: exact H.
Qed.

Lemma confirmCharging_score (station : Station) (osrmRoute : OsrmRoute) (s : State) :
  score (confirmCharging station osrmRoute s) = score s
  \/ exists r, score (confirmCharging station osrmRoute s) = score (addPenalty r s).
Proof.
  unfold confirmCharging. destruct (pendingCharge s); [| left; reflexivity]. cbv zeta.
  destruct ((st_deadheadMiles station >? 0)
            && negb match st_locationType station with
                    | at_the_school => true
                    | _ => false
                    end);
    destruct (st_locationType station);
    first [left; reflexivity | right; eexists; reflexivity].
Qed.

Lemma confirmCharging_balanced (station : Station) (osrmRoute : OsrmRoute) (s : State) :
  balanced (score s) -> balanced (score (confirmCharging station osrmRoute s)).
Proof.
  intro H. destruct (confirmCharging_score station osrmRoute s) as [E | [r E]]; rewrite E.
  - exact H.
  - now apply addPenalty_balanced.
Qed.

Lemma continueToNextDay_score (T : Q) (newRouteDistance : option Q)
    (regenerated : option Route.t) (s : State) :
  score (continueToNextDay T newRouteDistance regenerated s) = score s.
Proof.
  destruct (continueToNextDay_week T newRouteDistance regenerated s) as [_ [_ [_ [H _]]]].
  exact H.
Qed.

Lemma handleDayComplete_balanced (s : State) :
  balanced (score s) -> balanced (score (handleDayComplete s)).
Proof.
  intro H. destruct (handleDayComplete_shape s) as [s4 [Ha Hh]]. rewrite Hh.
  set (s2 := with_stats _ (stopSimulation s)) in Ha.
  assert (H4 : balanced (score s4)).
  { destruct (advanceDay_week (calculateDayScore s2)) as [_ [_ [_ [_ [Hs _]]]]].
    rewrite Ha in Hs. simpl in Hs. rewrite Hs. apply calculateDayScore_balanced. exact H. }
  destruct (S (Week.currentDay (week s)) <=? 3)%nat.
  - unfold showNightlyChargingDecision. destruct (findSchedule _ _); [exact H4 |].
    rewrite continueToNextDay_score. exact H4.
  - now apply calculateFinalScore_balanced.
Qed.

Lemma confirmNightlyCharging_score (T : Q) (newRouteDistance : option Q)
    (v2gAmount v2gEarned : Q) (regenerated : option Route.t) (s : State) :
  score (confirmNightlyCharging T newRouteDistance v2gAmount v2gEarned regenerated s)
  = score s.
Proof.
  unfold confirmNightlyCharging. cbv zeta. rewrite continueToNextDay_score.
  destruct (v2gAmount >? 0); destruct newRouteDistance; reflexivity.
Qed.

Section RunLedger.
Context {geodesy : Geodesy}.

Lemma step_balanced (e : Event) (s : State) :
  balanced (score s) -> balanced (score (step e s)).
Proof.
  intro H. destruct e; simpl.
  - destruct (updateBus_flag now deltaTime s) as [L _]. unfold ledgerOf in L.
    injection L as _ _ _ Hs _. now rewrite Hs.
  - destruct (dwellTimeout_books s) as [L _]. unfold ledgerOf in L.
    injection L as _ _ _ Hs _. now rewrite Hs.
  - now apply confirmCharging_balanced.
  - now apply handleDayComplete_balanced.
  - now rewrite confirmNightlyCharging_score.
Qed.

(** X1: from the start of a scenario, whatever happens, the score total is
    the sum of the points of the day scores, the bonuses and the penalties
    that the score display lists. *)
Theorem score_total_is_sum_of_items (cfg : Config.t) (r : Route.t) (events : list Event) :
  let sc := score (run events (startScenario cfg r)) in
  Score.total sc
  = (sumDayScores (Score.dayScores sc) + sumRecords (Score.bonuses sc)
     + sumRecords (Score.penalties sc))%Z.
Proof.
  cbv zeta. change (balanced (score (run events (startScenario cfg r)))).
  assert (H0 : balanced (score (startScenario cfg r))) by reflexivity.
  generalize dependent (startScenario cfg r). clear cfg r.
  induction events as [| e rest IH]; intros s H; [exact H |].
  simpl. apply IH. now apply step_balanced.
Qed.

End RunLedger.

(** ** The perfect-week bonus in the final score *)

Lemma sumRecords_split (f : ScoreRecord -> bool) (l : list ScoreRecord) :
  sumRecords l
  = (sumRecords (filter f l) + sumRecords (filter (fun r => negb (f r)) l))%Z.
Proof.
  induction l as [| r rest IH]; simpl; [reflexivity |].
  destruct (f r); simpl; rewrite IH; lia.
Qed.

Lemma perfectWeekBonuses_none (l : list ScoreRecord) :
  perfectWeekCount l = 0%nat -> perfectWeekBonuses l = [].
Proof. unfold perfectWeekCount, perfectWeekBonuses. apply length_zero_iff_nil. Qed.

Lemma calculateFinalScore_bonuses (s : State) :
  perfectWeekBonuses (Score.bonuses (score (calculateFinalScore s)))
  = perfectWeekBonuses (Score.bonuses (score s))
    ++ (if Nat.eqb (Week.totalMidDayCharges (week s)) 0 then [perfectWeekRecord] else []).
Proof.
  unfold calculateFinalScore. cbv zeta.
  set (d := WEATHER_PATTERNS.difficulty (Config.weatherPattern (config s))).
  pose proof (difficulty_reason_differs d) as Hd.
  unfold perfectWeekBonuses.
  destruct (Qabs _ <=? 3); simpl week; simpl Week.totalMidDayCharges;
    destruct (Nat.eqb (Week.totalMidDayCharges (week s)) 0);
    destruct (negb _); try (destruct (0 <? _)%Z);
    simpl; rewrite ?filter_app; simpl; rewrite ?Hd; simpl;
    rewrite <- ?app_assoc, ?app_nil_r; reflexivity.
Qed.

Lemma handleDayComplete_final_bonuses (s : State) :
  dayInv 3 s ->
  let final := handleDayComplete s in
  perfectWeekBonuses (Score.bonuses (score final))
  = if Nat.eqb (Week.totalMidDayCharges (week final)) 0 then [perfectWeekRecord] else [].
Proof.
  intros Hinv. pose proof (dayInv_advance 3 s Hinv) as Hnight. cbv zeta in Hnight.
  destruct (handleDayComplete_shape s) as [s4 [Ha Hh]].
  rewrite Ha in Hnight. simpl in Hnight. cbv zeta. rewrite Hh.
  destruct Hinv as [H1 _]. rewrite H1. simpl.
  destruct (calculateFinalScore_count s4) as [W _].
  destruct Hnight as [_ [N2 _]].
  rewrite calculateFinalScore_bonuses, W, (perfectWeekBonuses_none _ N2). reflexivity.
Qed.

Section FinalScore.
Context {geodesy : Geodesy}.

Lemma run_balanced (events : list Event) (s : State) :
  balanced (score s) -> balanced (score (run events s)).
Proof.
  revert s. induction events as [| e rest IH]; intros s H; [exact H |].
  simpl. apply IH. now apply step_balanced.
Qed.

(** C9: at the end of a three-day scenario the bonuses contain the
    perfect-week bonus, a record of 1000 points, once when the week's count of
    mid-day charges is zero and not at all otherwise, and the total of the
    final score is the sum of the points of all other items (the day scores,
    the penalties and the other bonuses) plus those 1000 points, once, when
    the count is zero, and plus nothing otherwise; and that count is zero
    exactly when none of the three recorded days had a mid-day charge. *)
Theorem perfect_week_bonus_once (cfg : Config.t) (r : Route.t)
    (day1 day2 day3 : list Event) (night1 night2 : Event) :
  forallb withinDay day1 = true -> forallb withinDay day2 = true ->
  forallb withinDay day3 = true ->
  overnightChoice night1 = true -> overnightChoice night2 = true ->
  let final := run (threeDays day1 day2 day3 night1 night2) (startScenario cfg r) in
  (perfectWeekCount (Score.bonuses (score final)) = 1%nat <->
   Week.totalMidDayCharges (week final) = 0%nat)
  /\ (perfectWeekCount (Score.bonuses (score final)) = 0%nat <->
      Week.totalMidDayCharges (week final) <> 0%nat)
  /\ (Week.totalMidDayCharges (week final) = 0%nat <->
      allClean (Week.dayResults (week final)) = true)
  /\ List.length (Week.dayResults (week final)) = 3%nat
  /\ perfectWeekBonuses (Score.bonuses (score final))
     = (if Nat.eqb (Week.totalMidDayCharges (week final)) 0
        then [{| sr_reason := perfectWeekReason; sr_points := 1000; sr_day := None |}]
        else [])
  /\ Score.total (score final)
     = (otherPoints (score final)
        + if Nat.eqb (Week.totalMidDayCharges (week final)) 0 then 1000 else 0)%Z.
Proof.
  intros D1 D2 D3 N1 N2 final.
  assert (Hfinal : final = handleDayComplete
                             (run day3 (step night2 (handleDayComplete
                                (run day2 (step night1 (handleDayComplete
                                   (run day1 (startScenario cfg r))))))))).
  { unfold final, threeDays. repeat rewrite run_app. reflexivity. }
  assert (H3 : dayInv 3 (run day3 (step night2 (handleDayComplete
                  (run day2 (step night1 (handleDayComplete
                     (run day1 (startScenario cfg r))))))))).
  { apply run_dayInv; [exact D3 |]. apply night_step; [exact N2 |].
    apply handleDayComplete_night; [lia |].
    apply run_dayInv; [exact D2 |]. apply night_step; [exact N1 |].
    apply handleDayComplete_night; [lia |].
    apply run_dayInv; [exact D1 |]. apply startScenario_dayInv. }
  destruct (handleDayComplete_final _ H3) as [C [A L]].
  pose proof (handleDayComplete_final_bonuses _ H3) as B. cbv zeta in B.
  rewrite <- Hfinal in C, A, L, B.
  assert (Hbal : balanced (score final)).
  { unfold final. apply run_balanced. reflexivity. }
  clearbody final.
  split; [| split; [| split; [exact A | split; [exact L | split; [exact B |]]]]].
  - rewrite C. destruct (Nat.eqb_spec (Week.totalMidDayCharges (week final)) 0);
      split; intro; congruence.
  - rewrite C. destruct (Nat.eqb_spec (Week.totalMidDayCharges (week final)) 0);
      split; intro; congruence.
  - unfold balanced in Hbal. rewrite Hbal. unfold otherPoints.
    rewrite (sumRecords_split (fun r => (sr_reason r =? perfectWeekReason)%string)
               (Score.bonuses (score final))).
    fold (perfectWeekBonuses (Score.bonuses (score final))). rewrite B.
    assert (E1 : sumRecords [perfectWeekRecord] = 1000%Z) by reflexivity.
    assert (E0 : sumRecords [] = 0%Z) by reflexivity.
    destruct (Nat.eqb (Week.totalMidDayCharges (week final)) 0); rewrite ?E1, ?E0; lia.
Qed.

End FinalScore.

Lemma perfect_week_bonus_once_witness :
  let final :=
    @run flatMap
      (threeDays exampleQuietDay exampleQuietDay exampleQuietDay
         (NightlyChosen 80 None 0 0 None) (NightlyChosen 80 None 0 0 None))
      exampleStart in
  perfectWeekCount (Score.bonuses (score final)) = 1%nat
  /\ Week.totalMidDayCharges (week final) = 0%nat
  /\ Score.total (score final) = (otherPoints (score final) + 1000)%Z.
Proof.
  intro final.
  destruct (@perfect_week_bonus_once flatMap exampleConfig exampleRoute
              exampleQuietDay exampleQuietDay exampleQuietDay
              (NightlyChosen 80 None 0 0 None) (NightlyChosen 80 None 0 0 None)
              eq_refl eq_refl eq_refl eq_refl eq_refl) as [Hone [_ [_ [_ [_ Htotal]]]]].
  assert (Hzero : Week.totalMidDayCharges (week final) = 0%nat)
    by (vm_compute; reflexivity).
  split; [apply Hone; exact Hzero | split; [exact Hzero |]].
  change (Score.total (score final)
          = (otherPoints (score final)
             + if Nat.eqb (Week.totalMidDayCharges (week final)) 0 then 1000 else 0)%Z)
    in Htotal.
  rewrite Hzero in Htotal. exact Htotal.
Defined.

(** ** The stop processing of a tick *)

Lemma stopsOnly_refl (s : State) : stopsOnly s s.
Proof. unfold stopsOnly. auto 10. Qed.

Lemma stopsOnly_trans (s1 s2 s3 : State) :
  stopsOnly s1 s2 -> stopsOnly s2 s3 -> stopsOnly s1 s3.
Proof.
  intros [A1 [B1 [C1 [D1 [E1 F1]]]]] [A2 [B2 [C2 [D2 [E2 F2]]]]].
  unfold stopsOnly. rewrite A2, B2, C2, D2.
  repeat split; auto; [| lia].
  destruct E2 as [E2 | [E2 | E2]]; rewrite E2; auto.
Qed.

Lemma checkChargingNeeds_stopsOnly (s : State) : stopsOnly s (snd (checkChargingNeeds s)).
Proof.
  unfold checkChargingNeeds.
  destruct (isCharging (bus s) || midDayChargeChecked (bus s)
            || BusStatus_eqb (status (bus s)) traveling_to_charger);
    [apply stopsOnly_refl |].
  destruct (negb (hasSchoolStop (route s))); [apply stopsOnly_refl |].
  destruct (needsCharging s); unfold stopsOnly; simpl; auto 10.
Qed.

Lemma processStopArrival_stopsOnly (now : Q) (currentStop : Stop.t) (s : State) :
  stopsOnly s (processStopArrival now currentStop s).
Proof.
  unfold processStopArrival.
  destruct (StopType_eqb (Stop.type currentStop) school && negb (midDayChargeChecked (bus s))).
  - set (s1 := with_bus _ s).
    assert (H1 : stopsOnly s s1) by (unfold stopsOnly; simpl; auto 10).
    pose proof (checkChargingNeeds_stopsOnly s1) as H2.
    destruct (checkChargingNeeds s1) as [needs s2]. simpl in H2.
    apply (stopsOnly_trans _ _ _ H1). apply (stopsOnly_trans _ _ _ H2).
    destruct needs; unfold stopsOnly; simpl; auto 10.
  - destruct (StopType_eqb (Stop.type currentStop) pickup
              || StopType_eqb (Stop.type currentStop) dropoff);
      unfold stopsOnly; simpl; auto 10.
Qed.

Lemma fallbackSchoolArrival_stopsOnly (now : Q) (s : State) :
  stopsOnly s (fallbackSchoolArrival now s).
Proof.
  unfold fallbackSchoolArrival. set (s1 := with_bus _ s).
  assert (H1 : stopsOnly s s1) by (unfold stopsOnly; simpl; auto 10).
  pose proof (checkChargingNeeds_stopsOnly s1) as H2.
  destruct (checkChargingNeeds s1) as [needs s2]. simpl in H2.
  apply (stopsOnly_trans _ _ _ H1). apply (stopsOnly_trans _ _ _ H2).
  destruct needs; unfold stopsOnly; simpl; auto 10.
Qed.

Lemma updateTripPhase_stopsOnly (s : State) : stopsOnly s (updateTripPhase s).
Proof.
  unfold updateTripPhase.
  destruct ((progress (bus s) >=? 0.45) && (progress (bus s) <=? 0.55));
    [unfold stopsOnly; simpl; auto 10 |].
  destruct (progress (bus s) >? 0.55); unfold stopsOnly; simpl; auto 10.
Qed.

Section EngineStops.
Context {geodesy : Geodesy}.

Lemma checkStopArrivalsLoop_stopsOnly (fuel : nat) (now : Q) (k : nat) (s : State) :
  stopsOnly s (checkStopArrivalsLoop fuel now k s).
Proof.
  revert k s. induction fuel as [| fuel IH]; intros k s; simpl; [apply stopsOnly_refl |].
  destruct ((k <? 3)%nat
            && (currentStopIndex (bus s) <? List.length (Route.stops (route s)))%nat);
    [| apply stopsOnly_refl].
  destruct (nth_error (Route.stops (route s)) (currentStopIndex (bus s))) as [st |];
    [| apply stopsOnly_refl].
  destruct (Stop.completed st).
  - eapply stopsOnly_trans; [| apply IH]. unfold stopsOnly. simpl. auto 10.
  - destruct (position (bus s)) as [pos |]; [| apply stopsOnly_refl].
    destruct (haversineDistance pos (Stop.coords st)
              <? Qmax SIMULATION_CONFIG.arrivalThreshold 0.15); [| apply stopsOnly_refl].
    eapply stopsOnly_trans; [| apply IH].
    set (s1 := with_route _ s).
    assert (H1 : stopsOnly s s1) by (unfold stopsOnly; simpl; auto 10).
    apply (stopsOnly_trans _ _ _ H1).
    eapply stopsOnly_trans; [apply processStopArrival_stopsOnly |].
    unfold stopsOnly. simpl. auto 10.
Qed.

Lemma checkStopArrivals_stopsOnly (now : Q) (s : State) :
  stopsOnly s (checkStopArrivals now s).
Proof.
  unfold checkStopArrivals.
  destruct (List.length (Route.stops (route s)) <=? currentStopIndex (bus s))%nat;
    [apply stopsOnly_refl | apply checkStopArrivalsLoop_stopsOnly].
Qed.

Lemma moveBus_shape (now deltaTime : Q) (s : State) :
  moveBus now deltaTime s = s
  \/ moveBus now deltaTime s = strandOnRoute s
  \/ (let s1 := advanceOnRoute deltaTime (calculatePathLength (Route.path (route s))) s in
      pathMissing (Route.path (route s)) = false
      /\ ~ calculatePathLength (Route.path (route s)) == 0
      /\ (moveBus now deltaTime s = strandOnRoute s1
          \/ (0 < batteryKwh (bus s1) \/ isCharging (bus s1) = true)
             /\ moveBus now deltaTime s = afterMovement now s1)).
Proof.
  unfold moveBus, afterMovement.
  destruct (pathMissing (Route.path (route s))); [left; reflexivity |].
  destruct ((batteryKwh (bus s) <=? 0) && negb (isCharging (bus s)));
    [right; left; reflexivity |].
  destruct (Qeqb_spec (calculatePathLength (Route.path (route s))) 0) as [| Hlen];
    [left; reflexivity |].
  right. right. cbv zeta. split; [reflexivity |]. split; [exact Hlen |].
  set (s1 := advanceOnRoute deltaTime _ s). clearbody s1.
  destruct (Qleb_spec (batteryKwh (bus s1)) 0) as [Hk | Hk]; simpl.
  - destruct (isCharging (bus s1)); simpl; [right; split; [now right | reflexivity] |].
    left. reflexivity.
  - right. split; [left; lra | reflexivity].
Qed.

Lemma afterMovement_frames (now : Q) (s1 : State) :
  let s' := afterMovement now s1 in
  distanceTraveled (bus s') = distanceTraveled (bus s1)
  /\ energyConsumed (bus s') = energyConsumed (bus s1)
  /\ Stats.totalDistance (stats s') = Stats.totalDistance (stats s1)
  /\ Stats.totalEnergyConsumed (stats s') = Stats.totalEnergyConsumed (stats s1)
  /\ (status (bus s') = status (bus s1) \/ status (bus s') = at_school
      \/ status (bus s') = dwelling \/ status (bus s') = completed)
  /\ isCharging (bus s') = isCharging (bus s1)
  /\ energyOf s' = energyOf s1
  /\ position (bus s') = position (bus s1)
  /\ (progress (bus s') = progress (bus s1) \/ progress (bus s') = 1).
Proof.
  unfold afterMovement. cbv zeta.
  set (s3 := checkStopArrivals now (updateTripPhase s1)).
  assert (S3 : stopsOnly s1 s3).
  { eapply stopsOnly_trans; [apply updateTripPhase_stopsOnly |].
    apply checkStopArrivals_stopsOnly. }
  assert (Q3 : quiet s1 s3).
  { eapply quiet_trans; [apply updateTripPhase_quiet | apply checkStopArrivals_quiet]. }
  clearbody s3.
  assert (Hq : forall s', quiet s1 s' ->
                 isCharging (bus s') = isCharging (bus s1) /\ energyOf s' = energyOf s1
                 /\ position (bus s') = position (bus s1)
                 /\ progress (bus s') = progress (bus s1)).
  { intros s' [_ [He [Hp _]]]. unfold placeOf in Hp. injection Hp as P1 P2 P3. auto. }
  destruct (fallbackDue (bus s3)).
  - pose proof (stopsOnly_trans _ _ _ S3 (fallbackSchoolArrival_stopsOnly now s3)) as S4.
    pose proof (quiet_trans _ _ _ Q3 (fallbackSchoolArrival_quiet now s3)) as Q4.
    destruct S4 as [A [B [C [D [E _]]]]]. destruct (Hq _ Q4) as [I [En [P Pr]]].
    repeat split; auto. tauto.
  - destruct S3 as [A [B [C [D [E _]]]]]. destruct (Hq _ Q3) as [I [En [P Pr]]].
    destruct (progress (bus s3) >=? 0.99).
    + destruct (completeRoute_calm s3) as [_ [He [Hp _]]].
      repeat split; auto; simpl; try congruence.
    + repeat split; auto. tauto.
Qed.

End EngineStops.

(** ** What the handlers of a tick change *)

Lemma handleCharging_frames (deltaTime : Q) (s : State) :
  let s' := handleCharging deltaTime s in
  distanceTraveled (bus s') = distanceTraveled (bus s)
  /\ energyConsumed (bus s') = energyConsumed (bus s)
  /\ Stats.totalDistance (stats s') = Stats.totalDistance (stats s)
  /\ Stats.totalEnergyConsumed (stats s') = Stats.totalEnergyConsumed (stats s)
  /\ pendingCharge s' = pendingCharge s
  /\ position (bus s') = position (bus s)
  /\ progress (bus s') = progress (bus s)
  /\ ((isCharging (bus s') = isCharging (bus s) /\ status (bus s') = status (bus s))
      \/ (isCharging (bus s') = false
          /\ (status (bus s') = returning_from_charger \/ status (bus s') = moving))).
Proof.
  unfold handleCharging.
  destruct (chargingDone (bus (chargingAccrue deltaTime s))).
  - unfold chargingExit. destruct (returnTripPending _); simpl; repeat split; auto.
  - simpl. repeat split; auto.
Qed.

Section EngineHandlers.
Context {geodesy : Geodesy}.

Lemma handleDeadheadTravel_frames (deltaTime : Q) (s : State) :
  let s' := handleDeadheadTravel deltaTime s in
  pendingCharge s' = pendingCharge s
  /\ progress (bus s') = progress (bus s)
  /\ ((distanceTraveled (bus s') = distanceTraveled (bus s)
       /\ energyConsumed (bus s') = energyConsumed (bus s)
       /\ Stats.totalDistance (stats s') = Stats.totalDistance (stats s)
       /\ Stats.totalEnergyConsumed (stats s') = Stats.totalEnergyConsumed (stats s)
       /\ position (bus s') = position (bus s)
       /\ isCharging (bus s') = true /\ status (bus s') = charging)
      \/ (distanceTraveled (bus s') = distanceTraveled (bus s) + distanceToTravel deltaTime
          /\ energyConsumed (bus s') = energyConsumed (bus s) + deadheadEnergy deltaTime s
          /\ Stats.totalDistance (stats s')
             = Stats.totalDistance (stats s) + distanceToTravel deltaTime
          /\ Stats.totalEnergyConsumed (stats s')
             = Stats.totalEnergyConsumed (stats s) + deadheadEnergy deltaTime s
          /\ batteryKwh (bus s') = Qmax 0 (batteryKwh (bus s) - deadheadEnergy deltaTime s)
          /\ batteryLevel (bus s') = batteryKwh (bus s') / batteryCapacity (bus s) * 100
          /\ ((status (bus s') = stranded /\ batteryKwh (bus s') <= 0
               /\ isCharging (bus s') = isCharging (bus s)
               /\ position (bus s') = position (bus s))
              \/ (status (bus s') = status (bus s)
                  /\ isCharging (bus s') = isCharging (bus s))
              \/ (status (bus s') = charging /\ isCharging (bus s') = true
                  /\ position (bus s') = chargerDestination (bus s))))).
Proof.
  unfold handleDeadheadTravel, deadheadEnergy.
  destruct (negb (isSome (chargerDestination (bus s)))
            || negb (truthy (deadheadDistance (bus s))));
    [simpl; split; [reflexivity |]; split; [reflexivity |]; left; repeat split |].
  cbv zeta.
  set (e := distanceToTravel deltaTime * getEfficiency (busType (bus s)) (weather s)
            * MIDDAY_CHARGING.energyCostDeadhead).
  destruct (Qleb_spec (Qmax 0 (batteryKwh (bus s) - e)) 0) as [Hk | Hk].
  { simpl. split; [reflexivity |]. split; [reflexivity |]. right.
    repeat split; auto 10. }
  destruct (hasRoutedPath (deadheadPath (bus s))).
  - destruct (_ >=? _); simpl;
      (split; [reflexivity |]; split; [reflexivity |]; right; repeat split; auto 10).
  - unfold linearPosition.
    destruct (match deadheadStartPosition (bus s) with
              | Some p => Some p
              | None => position (bus s)
              end); destruct (chargerDestination (bus s)) eqn:Hcd;
      destruct (_ >=? _); simpl; rewrite ?Hcd;
      (split; [reflexivity |]; split; [reflexivity |]; right; repeat split; auto 10).
Qed.

Lemma handleReturnFromCharger_frames (deltaTime : Q) (s : State) :
  let s' := handleReturnFromCharger deltaTime s in
  pendingCharge s' = pendingCharge s
  /\ progress (bus s') = progress (bus s)
  /\ isCharging (bus s') = isCharging (bus s)
  /\ ((distanceTraveled (bus s') = distanceTraveled (bus s)
       /\ energyConsumed (bus s') = energyConsumed (bus s)
       /\ Stats.totalDistance (stats s') = Stats.totalDistance (stats s)
       /\ Stats.totalEnergyConsumed (stats s') = Stats.totalEnergyConsumed (stats s)
       /\ position (bus s') = position (bus s)
       /\ status (bus s') = moving)
      \/ (distanceTraveled (bus s') = distanceTraveled (bus s) + distanceToTravel deltaTime
          /\ energyConsumed (bus s') = energyConsumed (bus s) + deadheadEnergy deltaTime s
          /\ Stats.totalDistance (stats s')
             = Stats.totalDistance (stats s) + distanceToTravel deltaTime
          /\ Stats.totalEnergyConsumed (stats s')
             = Stats.totalEnergyConsumed (stats s) + deadheadEnergy deltaTime s
          /\ batteryKwh (bus s') = Qmax 0 (batteryKwh (bus s) - deadheadEnergy deltaTime s)
          /\ batteryLevel (bus s') = batteryKwh (bus s') / batteryCapacity (bus s) * 100
          /\ ((status (bus s') = stranded /\ batteryKwh (bus s') <= 0
               /\ position (bus s') = position (bus s))
              \/ status (bus s') = status (bus s)
              \/ (status (bus s') = moving
                  /\ position (bus s') = returnDestination (bus s))))).
Proof.
  unfold handleReturnFromCharger, deadheadEnergy.
  destruct (negb (isSome (returnDestination (bus s)))
            || negb (truthy (returnDistance (bus s))));
    [simpl; repeat (split; [reflexivity |]); left; repeat split |].
  cbv zeta.
  set (e := distanceToTravel deltaTime * getEfficiency (busType (bus s)) (weather s)
            * MIDDAY_CHARGING.energyCostDeadhead).
  destruct (Qleb_spec (Qmax 0 (batteryKwh (bus s) - e)) 0) as [Hk | Hk].
  { simpl. repeat (split; [reflexivity |]). right.
    repeat split; auto 10. }
  destruct (hasRoutedPath (returnPath (bus s))).
  - destruct (_ >=? _); simpl;
      (repeat (split; [reflexivity |]); right; repeat split; auto 10).
  - unfold linearPosition.
    destruct (match chargerDestination (bus s) with
              | Some p => Some p
              | None => position (bus s)
              end); destruct (returnDestination (bus s)) eqn:Hrd;
      destruct (_ >=? _); simpl; rewrite ?Hrd;
      (repeat (split; [reflexivity |]); right; repeat split; auto 10).
Qed.

End EngineHandlers.

Section UpdateShape.
Context {geodesy : Geodesy}.

(** The cases of [updateBus]. *)
Lemma updateBus_shape (now deltaTime : Q) (s : State) :
  (dwellPending now (bus s) = true /\ updateBus now deltaTime s = s)
  \/ (dwellPending now (bus s) = false
      /\ let s0 := clearDwell s in
         (status (bus s0) = traveling_to_charger
          /\ updateBus now deltaTime s = handleDeadheadTravel deltaTime s0)
         \/ (status (bus s0) = returning_from_charger
             /\ updateBus now deltaTime s = handleReturnFromCharger deltaTime s0)
         \/ (isCharging (bus s0) = true /\ status (bus s0) <> traveling_to_charger
             /\ status (bus s0) <> returning_from_charger
             /\ updateBus now deltaTime s = handleCharging deltaTime s0)
         \/ (isCharging (bus s0) = false /\ status (bus s0) = waiting
             /\ updateBus now deltaTime s = moveBus now deltaTime (startMoving s0))
         \/ (isCharging (bus s0) = false /\ status (bus s0) = moving
             /\ updateBus now deltaTime s = moveBus now deltaTime s0)
         \/ (isCharging (bus s0) = false /\ status (bus s0) <> traveling_to_charger
             /\ status (bus s0) <> returning_from_charger
             /\ status (bus s0) <> waiting /\ status (bus s0) <> moving
             /\ updateBus now deltaTime s = s0)).
Proof.
  unfold updateBus. destruct (dwellPending now (bus s)); [left; auto |].
  right. split; [reflexivity |]. fold (clearDwell s). cbv zeta.
  generalize (clearDwell s). intro s0.
  destruct (status (bus s0)) eqn:E; try (left; split; reflexivity);
    try (right; left; split; reflexivity);
    (destruct (isCharging (bus s0)) eqn:C;
     [right; right; left; repeat split; congruence |]).
  - right. right. right. left. repeat split.
  - right. right. right. right. left. rewrite E. repeat split.
  - right. right. right. right. right. rewrite E. repeat split; congruence.
  - right. right. right. right. right. rewrite E. repeat split; congruence.
  - right. right. right. right. right. rewrite E. repeat split; congruence.
  - right. right. right. right. right. rewrite E. repeat split; congruence.
  - right. right. right. right. right. rewrite E. repeat split; congruence.
Qed.

Lemma clearDwell_same (s : State) :
  let s0 := clearDwell s in
  status (bus s0) = status (bus s) /\ isCharging (bus s0) = isCharging (bus s)
  /\ pendingCharge s0 = pendingCharge s /\ energyOf s0 = energyOf s
  /\ distanceTraveled (bus s0) = distanceTraveled (bus s)
  /\ energyConsumed (bus s0) = energyConsumed (bus s)
  /\ stats s0 = stats s /\ position (bus s0) = position (bus s)
  /\ progress (bus s0) = progress (bus s) /\ route s0 = route s
  /\ weather s0 = weather s /\ busType (bus s0) = busType (bus s).
Proof.
  unfold clearDwell. destruct (truthy (dwellUntil (bus s))); simpl; repeat split.
Qed.

End UpdateShape.

(** ** Reachable states *)

Lemma coherent_idle (s : State) :
  isCharging (bus s) = false -> status (bus s) <> traveling_to_charger ->
  status (bus s) <> stranded -> coherent s.
Proof.
  intros Hc Ht Hs. unfold coherent. split; [congruence |]. split; [auto |].
  intro H. contradiction.
Qed.

Lemma coherent_stranded (s : State) :
  isCharging (bus s) = false -> status (bus s) = stranded ->
  batteryKwh (bus s) == 0 -> batteryLevel (bus s) == 0 -> coherent s.
Proof.
  intros Hc Hs Hk Hl. unfold coherent. split; [congruence |].
  split; [intros _; split; [exact Hc | congruence] | auto].
Qed.

Lemma coherent_charging (s : State) :
  isCharging (bus s) = true -> status (bus s) = charging -> pendingCharge s = None ->
  coherent s.
Proof.
  intros Hc Hs Hp. unfold coherent. split; [auto |].
  split; [intro H; contradiction | congruence].
Qed.

Lemma coherent_settled (s : State) :
  isCharging (bus s) = false -> pendingCharge s = None -> status (bus s) <> stranded ->
  coherent s.
Proof.
  intros Hc Hp Hs. unfold coherent. split; [congruence |].
  split; [intro K; contradiction | intro K; contradiction].
Qed.

Lemma coherent_same (s s' : State) :
  status (bus s') = status (bus s) -> isCharging (bus s') = isCharging (bus s) ->
  pendingCharge s' = pendingCharge s -> energyOf s' = energyOf s ->
  coherent s -> coherent s'.
Proof.
  intros Hs Hc Hp He. unfold energyOf in He. injection He as _ Hk Hl _.
  unfold coherent. now rewrite Hs, Hc, Hp, Hk, Hl.
Qed.

Lemma emptied_level (kwh capacity : Q) :
  0 <= kwh -> kwh <= 0 -> kwh == 0 /\ kwh / capacity * 100 == 0.
Proof.
  intros H0 H1. assert (E : kwh == 0) by lra. split; [exact E |].
  rewrite E. unfold Qdiv. ring.
Qed.

Lemma confirmCharging_frames (station : Station) (osrmRoute : OsrmRoute) (s : State) :
  let s' := confirmCharging station osrmRoute s in
  (pendingCharge s = None /\ s' = s)
  \/ (pendingCharge s <> None /\ pendingCharge s' = None
      /\ batteryKwh (bus s') = batteryKwh (bus s)
      /\ batteryLevel (bus s') = batteryLevel (bus s)
      /\ distanceTraveled (bus s') = distanceTraveled (bus s)
      /\ energyConsumed (bus s') = energyConsumed (bus s)
      /\ Stats.totalDistance (stats s') = Stats.totalDistance (stats s)
      /\ Stats.totalEnergyConsumed (stats s') = Stats.totalEnergyConsumed (stats s)
      /\ position (bus s') = position (bus s)
      /\ progress (bus s') = progress (bus s)
      /\ ((st_locationType station = at_the_school
           /\ isCharging (bus s') = true /\ status (bus s') = charging)
          \/ (st_locationType station <> at_the_school
              /\ isCharging (bus s') = isCharging (bus s)
              /\ status (bus s') = traveling_to_charger))).
Proof.
  unfold confirmCharging. destruct (pendingCharge s) eqn:Hp; [| left; auto].
  right. cbv zeta. split; [discriminate |].
  destruct ((st_deadheadMiles station >? 0)
            && negb match st_locationType station with
                    | at_the_school => true
                    | _ => false
                    end);
    destruct (st_locationType station); simpl; repeat split;
    first [left; repeat split; reflexivity | right; repeat split; congruence].
Qed.

Lemma continueToNextDay_fresh (T : Q) (newRouteDistance : option Q)
    (regenerated : option Route.t) (s : State) :
  let s' := continueToNextDay T newRouteDistance regenerated s in
  status (bus s') = waiting /\ isCharging (bus s') = false
  /\ pendingCharge s' = pendingCharge s
  /\ distanceTraveled (bus s') = 0 /\ energyConsumed (bus s') = 0
  /\ Stats.totalDistance (stats s') = 0 /\ Stats.totalEnergyConsumed (stats s') = 0
  /\ progress (bus s') = 0.
Proof.
  unfold continueToNextDay.
  destruct (truthy newRouteDistance); [destruct regenerated |];
    unfold resetBusForNewDay; destruct (_ >? 0); simpl; repeat split.
Qed.

Lemma handleDayComplete_frames (s : State) :
  let s' := handleDayComplete s in
  pendingCharge s' = pendingCharge s
  /\ ((bus s' = bus s
       /\ Stats.totalDistance (stats s') = Stats.totalDistance (stats s)
       /\ Stats.totalEnergyConsumed (stats s') = Stats.totalEnergyConsumed (stats s))
      \/ (status (bus s') = waiting /\ isCharging (bus s') = false
          /\ distanceTraveled (bus s') = 0 /\ energyConsumed (bus s') = 0
          /\ Stats.totalDistance (stats s') = 0
          /\ Stats.totalEnergyConsumed (stats s') = 0
          /\ progress (bus s') = 0)).
Proof.
  cbv zeta. destruct (handleDayComplete_shape s) as [s4 [Ha Hh]]. rewrite Hh.
  set (s2 := with_stats _ (stopSimulation s)) in Ha.
  assert (H4 : bus s4 = bus s /\ pendingCharge s4 = pendingCharge s
               /\ Stats.totalDistance (stats s4) = Stats.totalDistance (stats s)
               /\ Stats.totalEnergyConsumed (stats s4)
                  = Stats.totalEnergyConsumed (stats s)).
  { assert (E : s4 = snd (advanceDay (calculateDayScore s2))) by (now rewrite Ha).
    rewrite E. clear E Ha Hh.
    destruct (advanceDay_week (calculateDayScore s2)) as [_ [_ [_ [_ [_ St]]]]].
    rewrite St, advanceDay_bus, calculateDayScore_bus.
    destruct (calculateDayScore_week s2) as [_ [St2 _]]. rewrite St2.
    split; [reflexivity |]. split; [| split; reflexivity].
    unfold advanceDay. cbv zeta. simpl.
    assert (Hp : pendingCharge (calculateDayScore s2) = pendingCharge s).
    { unfold calculateDayScore.
      destruct (0 <? Stats.midDayCharges (stats s2))%nat;
        (destruct (lastNightDecision _) as [d |]; [| reflexivity]);
        (destruct ((_ >=? 10) && (_ <=? 25)); [reflexivity |]);
        destruct (_ >? 25); reflexivity. }
    destruct (findSchedule _ _); simpl; exact Hp. }
  destruct H4 as [Hb [Hp [Hd He]]].
  destruct (S (Week.currentDay (week s)) <=? 3)%nat.
  - unfold showNightlyChargingDecision. destruct (findSchedule _ _).
    + simpl. split; [exact Hp |]. left. auto.
    + destruct (continueToNextDay_fresh 100 None None s4) as [A [B [C D]]].
      split; [congruence |]. right. auto.
  - split.
    + rewrite <- Hp. unfold calculateFinalScore. cbv zeta.
      destruct (Qabs _ <=? 3); destruct (Nat.eqb _ 0); destruct (negb _);
        try reflexivity; destruct (0 <? _)%Z; reflexivity.
    + left. rewrite calculateFinalScore_bus. split; [exact Hb |].
      rewrite <- Hd, <- He. unfold calculateFinalScore. cbv zeta.
      destruct (Qabs _ <=? 3); destruct (Nat.eqb _ 0); destruct (negb _);
        try (split; reflexivity); destruct (0 <? _)%Z; split; reflexivity.
Qed.

Lemma confirmNightlyCharging_fresh (T : Q) (newRouteDistance : option Q)
    (v2gAmount v2gEarned : Q) (regenerated : option Route.t) (s : State) :
  let s' := confirmNightlyCharging T newRouteDistance v2gAmount v2gEarned regenerated s in
  status (bus s') = waiting /\ isCharging (bus s') = false
  /\ pendingCharge s' = pendingCharge s
  /\ distanceTraveled (bus s') = 0 /\ energyConsumed (bus s') = 0
  /\ Stats.totalDistance (stats s') = 0 /\ Stats.totalEnergyConsumed (stats s') = 0
  /\ progress (bus s') = 0.
Proof.
  unfold confirmNightlyCharging. cbv zeta.
  match goal with
  | |- context [continueToNextDay ?t ?d ?r ?x] =>
      destruct (continueToNextDay_fresh t d r x) as [A [B [C D]]];
      assert (Hx : pendingCharge x = pendingCharge s)
        by (destruct (v2gAmount >? 0); destruct newRouteDistance; reflexivity)
  end.
  rewrite <- Hx. auto.
Qed.

Section RunCoherent.
Context {geodesy : Geodesy}.

Lemma moveBus_coherent (now deltaTime : Q) (s : State) :
  status (bus s) = moving -> isCharging (bus s) = false ->
  coherent (moveBus now deltaTime s).
Proof.
  intros Hs Hc.
  destruct (moveBus_shape now deltaTime s) as [E | [E | [_ [_ [E | [_ E]]]]]]; rewrite E.
  - apply coherent_idle; congruence.
  - apply coherent_stranded; simpl; auto; reflexivity.
  - apply coherent_stranded; simpl; auto; reflexivity.
  - set (s1 := advanceOnRoute deltaTime _ s).
    assert (H1 : status (bus s1) = moving /\ isCharging (bus s1) = false)
      by (split; [exact Hs | exact Hc]).
    destruct H1 as [Hs1 Hc1]. clearbody s1.
    destruct (afterMovement_frames now s1) as [_ [_ [_ [_ [St [Ic _]]]]]].
    apply coherent_idle; [congruence | |];
      destruct St as [St | [St | [St | St]]]; rewrite St; congruence.
Qed.

Lemma handleDeadheadTravel_coherent (deltaTime : Q) (s : State) :
  coherent s -> status (bus s) = traveling_to_charger ->
  coherent (handleDeadheadTravel deltaTime s).
Proof.
  intros [Ha [Hb Hc]] Hs.
  assert (Hidle : isCharging (bus s) = false).
  { destruct (isCharging (bus s)); [| reflexivity]. specialize (Ha eq_refl). congruence. }
  assert (Hnone : pendingCharge s = None).
  { destruct (pendingCharge s) eqn:E; [| reflexivity].
    assert (K : Some p <> None) by discriminate. destruct (Hb K) as [_ K']. contradiction. }
  destruct (handleDeadheadTravel_frames deltaTime s) as [Hp [_ H]].
  destruct H as [[_ [_ [_ [_ [_ [I S]]]]]] | [_ [_ [_ [_ [Hk [Hl H]]]]]]].
  - apply coherent_charging; congruence.
  - destruct H as [[S [K [I _]]] | [[S I] | [S [I _]]]].
    + assert (K0 : 0 <= batteryKwh (bus (handleDeadheadTravel deltaTime s)))
        by (rewrite Hk; apply Q.le_max_l).
      destruct (emptied_level _ (batteryCapacity (bus s)) K0 K) as [E1 E2].
      apply coherent_stranded; [congruence | exact S | exact E1 |].
      rewrite Hl. exact E2.
    + unfold coherent. rewrite S, I, Hp, Hnone, Hs, Hidle.
      split; [discriminate |]. split; [intro K; contradiction | discriminate].
    + apply coherent_charging; congruence.
Qed.

Lemma handleReturnFromCharger_coherent (deltaTime : Q) (s : State) :
  coherent s -> status (bus s) = returning_from_charger ->
  coherent (handleReturnFromCharger deltaTime s).
Proof.
  intros [Ha [Hb Hc]] Hs.
  assert (Hidle : isCharging (bus s) = false).
  { destruct (isCharging (bus s)); [| reflexivity]. specialize (Ha eq_refl). congruence. }
  destruct (handleReturnFromCharger_frames deltaTime s) as [Hp [_ [I H]]].
  rewrite Hidle in I.
  destruct H as [[_ [_ [_ [_ [_ S]]]]] | [_ [_ [_ [_ [Hk [Hl H]]]]]]].
  - apply coherent_idle; congruence.
  - destruct H as [[S [K _]] | [S | [S _]]].
    + assert (K0 : 0 <= batteryKwh (bus (handleReturnFromCharger deltaTime s)))
        by (rewrite Hk; apply Q.le_max_l).
      destruct (emptied_level _ (batteryCapacity (bus s)) K0 K) as [E1 E2].
      apply coherent_stranded; [exact I | exact S | exact E1 |].
      rewrite Hl. exact E2.
    + apply coherent_idle; congruence.
    + apply coherent_idle; congruence.
Qed.

Lemma handleCharging_coherent (deltaTime : Q) (s : State) :
  coherent s -> isCharging (bus s) = true -> coherent (handleCharging deltaTime s).
Proof.
  intros [Ha [Hb Hc]] Hi.
  assert (Hnone : pendingCharge s = None).
  { destruct (pendingCharge s) eqn:E; [| reflexivity].
    assert (K : Some p <> None) by discriminate. destruct (Hb K) as [K' _]. congruence. }
  destruct (handleCharging_frames deltaTime s) as [_ [_ [_ [_ [Hp [_ [_ H]]]]]]].
  destruct H as [[I S] | [I S]].
  - apply coherent_charging; [congruence | rewrite S; auto | congruence].
  - apply coherent_idle; [exact I | |]; destruct S as [S | S]; rewrite S; discriminate.
Qed.

Lemma updateBus_coherent (now deltaTime : Q) (s : State) :
  coherent s -> coherent (updateBus now deltaTime s).
Proof.
  intro H.
  destruct (updateBus_shape now deltaTime s) as [[_ E] | [_ Hcase]]; [now rewrite E |].
  cbv zeta in Hcase.
  destruct (clearDwell_same s) as [C1 [C2 [C3 [C4 _]]]].
  assert (H0 : coherent (clearDwell s)) by (apply (coherent_same s); assumption).
  clear C1 C2 C3 C4. generalize dependent (clearDwell s). intros s0 Hcase H0.
  destruct Hcase as [[S E] | [[S E] | [[I [_ [_ E]]] | [[I [S E]] | [[I [S E]] | R]]]]];
    try rewrite E.
  - now apply handleDeadheadTravel_coherent.
  - now apply handleReturnFromCharger_coherent.
  - now apply handleCharging_coherent.
  - apply moveBus_coherent; [reflexivity | exact I].
  - now apply moveBus_coherent.
  - destruct R as [_ [_ [_ [_ [_ E]]]]]. now rewrite E.
Qed.

Lemma dwellTimeout_coherent (s : State) : coherent s -> coherent (dwellTimeout s).
Proof.
  intros [Ha [Hb Hc]]. unfold dwellTimeout.
  destruct (status (bus s)) eqn:S; simpl; try (unfold coherent; rewrite S; auto; fail).
  apply coherent_idle; simpl; try discriminate.
  destruct (isCharging (bus s)); [| reflexivity]. specialize (Ha eq_refl). discriminate.
Qed.

Lemma confirmCharging_coherent (station : Station) (osrmRoute : OsrmRoute) (s : State) :
  coherent s -> coherent (confirmCharging station osrmRoute s).
Proof.
  intros H. destruct (confirmCharging_frames station osrmRoute s)
    as [[_ E] | [Hp [Hn [_ [_ [_ [_ [_ [_ [_ [_ Hc]]]]]]]]]]]; [now rewrite E |].
  destruct H as [Ha [Hb _]]. destruct (Hb Hp) as [I _].
  destruct Hc as [[_ [I' S]] | [_ [I' S]]].
  - now apply coherent_charging.
  - apply coherent_settled; [congruence | exact Hn | rewrite S; discriminate].
Qed.

End RunCoherent.

Lemma odometer_same (s s' : State) :
  distanceTraveled (bus s') = distanceTraveled (bus s) ->
  energyConsumed (bus s') = energyConsumed (bus s) ->
  Stats.totalDistance (stats s') = Stats.totalDistance (stats s) ->
  Stats.totalEnergyConsumed (stats s') = Stats.totalEnergyConsumed (stats s) ->
  odometerAgrees s -> odometerAgrees s'.
Proof. intros A B C D. unfold odometerAgrees. now rewrite A, B, C, D. Qed.

Lemma odometer_added (s s' : State) (d e : Q) :
  distanceTraveled (bus s') = distanceTraveled (bus s) + d ->
  energyConsumed (bus s') = energyConsumed (bus s) + e ->
  Stats.totalDistance (stats s') = Stats.totalDistance (stats s) + d ->
  Stats.totalEnergyConsumed (stats s') = Stats.totalEnergyConsumed (stats s) + e ->
  odometerAgrees s -> odometerAgrees s'.
Proof.
  intros A B C D [H1 H2]. unfold odometerAgrees. rewrite A, B, C, D, H1, H2.
  split; reflexivity.
Qed.

Lemma odometer_zero (s : State) :
  distanceTraveled (bus s) = 0 -> energyConsumed (bus s) = 0 ->
  Stats.totalDistance (stats s) = 0 -> Stats.totalEnergyConsumed (stats s) = 0 ->
  odometerAgrees s.
Proof. intros A B C D. unfold odometerAgrees. rewrite A, B, C, D. split; reflexivity. Qed.

Section RunReachable.
Context {geodesy : Geodesy}.

Lemma step_coherent (e : Event) (s : State) : coherent s -> coherent (step e s).
Proof.
  intro H. destruct e; simpl.
  - now apply updateBus_coherent.
  - now apply dwellTimeout_coherent.
  - now apply confirmCharging_coherent.
  - destruct (handleDayComplete_frames s) as [Hp [[Hb _] | [S [I _]]]].
    + apply (coherent_same s); try assumption; unfold energyOf; now rewrite Hb.
    + apply coherent_idle; congruence.
  - destruct (confirmNightlyCharging_fresh targetPercent newRouteDistance v2gAmount
                v2gEarned regenerated s) as [S [I _]].
    apply coherent_idle; congruence.
Qed.

Lemma run_coherent (events : list Event) (s : State) :
  coherent s -> coherent (run events s).
Proof.
  revert s. induction events as [| e rest IH]; intros s H; [exact H |].
  simpl. apply IH. now apply step_coherent.
Qed.

Lemma startScenario_coherent (cfg : Config.t) (r : Route.t) :
  coherent (startScenario cfg r).
Proof. apply coherent_idle; simpl; [reflexivity | discriminate | discriminate]. Qed.

(** X2: in every state that a scenario reaches, a bus that is flagged as
    charging has the status [charging]; so a stranded or completed bus is
    never charging, and neither is a bus on its way to a charger. *)
Theorem charging_flag_agrees_with_status (cfg : Config.t) (r : Route.t)
    (events : list Event) :
  let b := bus (run events (startScenario cfg r)) in
  (isCharging b = true -> status b = charging)
  /\ (status b = stranded \/ status b = completed \/ status b = traveling_to_charger
      \/ status b = returning_from_charger -> isCharging b = false).
Proof.
  cbv zeta.
  destruct (run_coherent events _ (startScenario_coherent cfg r)) as [Ha _].
  split; [exact Ha |].
  intro H. destruct (isCharging (bus (run events (startScenario cfg r)))); [| reflexivity].
  specialize (Ha eq_refl). destruct H as [H | [H | [H | H]]]; congruence.
Qed.

(** X3: in every state that a scenario reaches, a stranded bus has an empty
    battery and a level of zero. *)
Theorem stranded_bus_is_empty (cfg : Config.t) (r : Route.t) (events : list Event) :
  let b := bus (run events (startScenario cfg r)) in
  status b = stranded -> batteryKwh b == 0 /\ batteryLevel b == 0.
Proof.
  cbv zeta.
  destruct (run_coherent events _ (startScenario_coherent cfg r)) as [_ [_ Hc]].
  exact Hc.
Qed.

(** X4: once a scenario has left the bus stranded or completed, no sequence
    of ticks and dwell timers changes its status, its position or its
    progress. *)
Theorem terminal_states_are_final (cfg : Config.t) (r : Route.t)
    (before after : list Event) :
  let s := run before (startScenario cfg r) in
  status (bus s) = stranded \/ status (bus s) = completed ->
  forallb tickOrTimer after = true ->
  status (bus (run after s)) = status (bus s)
  /\ position (bus (run after s)) = position (bus s)
  /\ progress (bus (run after s)) = progress (bus s).
Proof.
  cbv zeta. intros Hs Hall.
  destruct (charging_flag_agrees_with_status cfg r before) as [_ Hidle].
  apply halted_run; [exact Hall |]. split; [exact Hs |].
  apply Hidle. tauto.
Qed.

Lemma moveBus_odometer (now deltaTime : Q) (s : State) :
  odometerAgrees s -> odometerAgrees (moveBus now deltaTime s).
Proof.
  intro H.
  destruct (moveBus_shape now deltaTime s) as [E | [E | [_ [_ [E | [_ E]]]]]]; rewrite E.
  - exact H.
  - apply (odometer_same s); auto.
  - apply (odometer_added s _ (distanceToTravel deltaTime)
             (distanceToTravel deltaTime * getEfficiency (busType (bus s)) (weather s)));
      auto.
  - set (s1 := advanceOnRoute deltaTime _ s).
    assert (H1 : odometerAgrees s1).
    { apply (odometer_added s _ (distanceToTravel deltaTime)
               (distanceToTravel deltaTime * getEfficiency (busType (bus s)) (weather s)));
        auto. }
    clearbody s1.
    destruct (afterMovement_frames now s1) as [A [B [C [D _]]]].
    now apply (odometer_same s1).
Qed.

Lemma updateBus_odometer (now deltaTime : Q) (s : State) :
  odometerAgrees s -> odometerAgrees (updateBus now deltaTime s).
Proof.
  intro H.
  destruct (updateBus_shape now deltaTime s) as [[_ E] | [_ Hcase]]; [now rewrite E |].
  cbv zeta in Hcase.
  destruct (clearDwell_same s) as [_ [_ [_ [_ [C5 [C6 [C7 _]]]]]]].
  assert (H0 : odometerAgrees (clearDwell s)).
  { apply (odometer_same s); auto; now rewrite C7. }
  clear C5 C6 C7. generalize dependent (clearDwell s). intros s0 Hcase H0.
  destruct Hcase as [[S E] | [[S E] | [[I [_ [_ E]]] | [[I [S E]] | [[I [S E]] | R]]]]];
    try rewrite E.
  - destruct (handleDeadheadTravel_frames deltaTime s0)
      as [_ [_ [[A [B [C [D _]]]] | [A [B [C [D _]]]]]]].
    + now apply (odometer_same s0).
    + now apply (odometer_added s0 _ _ _ A B C D).
  - destruct (handleReturnFromCharger_frames deltaTime s0)
      as [_ [_ [_ [[A [B [C [D _]]]] | [A [B [C [D _]]]]]]]].
    + now apply (odometer_same s0).
    + now apply (odometer_added s0 _ _ _ A B C D).
  - destruct (handleCharging_frames deltaTime s0) as [A [B [C [D _]]]].
    now apply (odometer_same s0).
  - apply moveBus_odometer. apply (odometer_same s0); auto.
  - now apply moveBus_odometer.
  - destruct R as [_ [_ [_ [_ [_ E]]]]]. now rewrite E.
Qed.

Lemma step_odometer (e : Event) (s : State) : odometerAgrees s -> odometerAgrees (step e s).
Proof.
  intro H. destruct e; simpl.
  - now apply updateBus_odometer.
  - unfold dwellTimeout. destruct (BusStatus_eqb (status (bus s)) dwelling); exact H.
  - destruct (confirmCharging_frames station osrmRoute s)
      as [[_ E] | [_ [_ [_ [_ [A [B [C [D _]]]]]]]]]; [now rewrite E |].
    now apply (odometer_same s).
  - destruct (handleDayComplete_frames s)
      as [_ [[Hb [C D]] | [_ [_ [A [B [C D]]]]]]].
    + apply (odometer_same s); auto; now rewrite Hb.
    + destruct D as [D _]. now apply odometer_zero.
  - destruct (confirmNightlyCharging_fresh targetPercent newRouteDistance v2gAmount
                v2gEarned regenerated s) as [_ [_ [_ [A [B [C [D _]]]]]]].
    now apply odometer_zero.
Qed.

(** X5: in every state that a scenario reaches, the distance and the energy
    in the statistics of the day equal the distance travelled and the energy
    consumed that the bus records itself. *)
Theorem statistics_agree_with_bus (cfg : Config.t) (r : Route.t) (events : list Event) :
  let s := run events (startScenario cfg r) in
  Stats.totalDistance (stats s) == distanceTraveled (bus s)
  /\ Stats.totalEnergyConsumed (stats s) == energyConsumed (bus s).
Proof.
  cbv zeta. change (odometerAgrees (run events (startScenario cfg r))).
  assert (H0 : odometerAgrees (startScenario cfg r)) by (split; reflexivity).
  generalize dependent (startScenario cfg r). clear cfg r.
  induction events as [| e rest IH]; intros s H; [exact H |].
  simpl. apply IH. now apply step_odometer.
Qed.

End RunReachable.

Lemma charging_flag_agrees_with_status_witness :
  status (bus (@run flatMap [Tick 0 2880000; StationChosen schoolFastCharger legToPublicCharger]
                 exampleHardStart)) = charging.
Proof.
  apply (@charging_flag_agrees_with_status flatMap _ _
           [Tick 0 2880000; StationChosen schoolFastCharger legToPublicCharger]).
  vm_compute. reflexivity.
Defined.

Lemma stranded_bus_is_empty_witness :
  batteryKwh (bus (@run flatMap [Tick 0 11520000] exampleStart)) == 0
  /\ batteryLevel (bus (@run flatMap [Tick 0 11520000] exampleStart)) == 0.
Proof.
  apply (@stranded_bus_is_empty flatMap exampleConfig exampleRoute [Tick 0 11520000]).
  vm_compute. reflexivity.
Defined.

Lemma terminal_states_are_final_witness :
  position (bus (@run flatMap [Tick 50 19200; DwellTimer; Tick 100 19200]
                   (@run flatMap [Tick 0 11520000] exampleStart)))
  = position (bus (@run flatMap [Tick 0 11520000] exampleStart)).
Proof.
  apply (@terminal_states_are_final flatMap exampleConfig exampleRoute [Tick 0 11520000]
           [Tick 50 19200; DwellTimer; Tick 100 19200]).
  - left. vm_compute. reflexivity.
  - reflexivity.
Defined.

(** ** The progress along the route *)

Lemma fold_left_Qplus_nonneg (ls : list Q) (acc : Q) :
  Forall (fun x => 0 <= x) ls -> 0 <= acc -> 0 <= fold_left Qplus ls acc.
Proof.
  revert acc. induction ls as [| x ls IH]; intros acc Hall Hacc; [exact Hacc |].
  inversion Hall as [| ? ? Hx Hrest]; subst. simpl. apply IH; [exact Hrest | lra].
Qed.

Lemma flatMap_nonnegative : nonnegative flatMap.
Proof.
  intros a b. cbn [haversineDistance flatMap].
  generalize (Qabs_nonneg (fst b - fst a)) (Qabs_nonneg (snd b - snd a)).
  generalize (Qabs (fst b - fst a)) (Qabs (snd b - snd a)). intros x y Hx Hy. lra.
Qed.

Section Progress.
Context {geodesy : Geodesy}.
Hypothesis distances : nonnegative geodesy.

Lemma segmentLengths_nonneg (path : list Coord) :
  Forall (fun x => 0 <= x) (segmentLengths path).
Proof.
  induction path as [| a rest IH]; [constructor |].
  destruct rest as [| b rest']; [constructor |].
  simpl. constructor; [apply distances | exact IH].
Qed.

Lemma calculatePathLength_nonneg (path : option (list Coord)) :
  0 <= calculatePathLength path.
Proof.
  unfold calculatePathLength. destruct path as [p |]; [| apply Qle_refl].
  destruct (List.length p <? 2)%nat; [apply Qle_refl |].
  apply fold_left_Qplus_nonneg; [apply segmentLengths_nonneg | apply Qle_refl].
Qed.

Lemma moveBus_progress (now deltaTime : Q) (s : State) :
  0 <= deltaTime -> progressInRange s ->
  progress (bus s) <= progress (bus (moveBus now deltaTime s))
  /\ progress (bus (moveBus now deltaTime s)) <= 1.
Proof.
  intros Hd [H0 H1].
  destruct (moveBus_shape now deltaTime s) as [E | [E | H]];
    [rewrite E; split; [apply Qle_refl | exact H1]
    | rewrite E; split; [apply Qle_refl | exact H1] |].
  cbv zeta in H. destruct H as [_ [Hlen H]].
  pose proof (calculatePathLength_nonneg (Route.path (route s))) as Hn.
  generalize dependent (calculatePathLength (Route.path (route s))). intros len Hlen H Hn.
  assert (Hpos : 0 < len).
  { destruct (Qlt_le_dec 0 len) as [K | K]; [exact K |].
    exfalso. apply Hlen. lra. }
  assert (Hinc : 0 <= distanceToTravel deltaTime / len).
  { apply Qle_shift_div_l; [exact Hpos |].
    pose proof (distanceToTravel_nonneg deltaTime Hd). lra. }
  assert (B1 : progress (bus s) <= progress (bus (advanceOnRoute deltaTime len s))
               /\ progress (bus (advanceOnRoute deltaTime len s)) <= 1).
  { change (progress (bus (advanceOnRoute deltaTime len s)))
      with (Qmin 1 (progress (bus s) + distanceToTravel deltaTime / len)).
    split; [apply Q.min_glb; lra | apply Q.le_min_l]. }
  generalize dependent (advanceOnRoute deltaTime len s). intros s1 H [B0 B1].
  destruct H as [E | [_ E]]; rewrite E.
  - simpl. auto.
  - destruct (afterMovement_frames now s1) as [_ [_ [_ [_ [_ [_ [_ [_ P]]]]]]]].
    destruct P as [P | P]; rewrite P; split; auto; lra.
Qed.

Lemma updateBus_progress (now deltaTime : Q) (s : State) :
  0 <= deltaTime -> progressInRange s ->
  progress (bus s) <= progress (bus (updateBus now deltaTime s))
  /\ progress (bus (updateBus now deltaTime s)) <= 1.
Proof.
  intros Hd [H0 H1].
  destruct (updateBus_shape now deltaTime s) as [[_ E] | [_ Hcase]];
    [rewrite E; split; [apply Qle_refl | exact H1] |].
  cbv zeta in Hcase.
  destruct (clearDwell_same s) as [_ [_ [_ [_ [_ [_ [_ [_ [C9 _]]]]]]]]].
  rewrite <- C9. rewrite <- C9 in H0, H1. clear C9.
  set (s0 := clearDwell s) in *. clearbody s0.
  destruct Hcase as [[S E] | [[S E] | [[I [_ [_ E]]] | [[I [S E]] | [[I [S E]] | R]]]]];
    try rewrite E.
  - destruct (handleDeadheadTravel_frames deltaTime s0) as [_ [P _]]. rewrite P.
    split; [apply Qle_refl | exact H1].
  - destruct (handleReturnFromCharger_frames deltaTime s0) as [_ [P _]]. rewrite P.
    split; [apply Qle_refl | exact H1].
  - destruct (handleCharging_frames deltaTime s0) as [_ [_ [_ [_ [_ [_ [P _]]]]]]].
    rewrite P. split; [apply Qle_refl | exact H1].
  - apply (moveBus_progress now deltaTime (startMoving s0) Hd). split; assumption.
  - apply (moveBus_progress now deltaTime s0 Hd). split; assumption.
  - destruct R as [_ [_ [_ [_ [_ E]]]]]. rewrite E. split; [apply Qle_refl | exact H1].
Qed.

Lemma step_progress (e : Event) (s : State) :
  plausible e -> progressInRange s ->
  progressInRange (step e s)
  /\ (withinDay e = true -> progress (bus s) <= progress (bus (step e s))).
Proof.
  intros Hp [H0 H1]. destruct e; simpl.
  - destruct (updateBus_progress now deltaTime s Hp (conj H0 H1)) as [A B].
    split; [split; lra | auto].
  - unfold dwellTimeout. destruct (BusStatus_eqb (status (bus s)) dwelling); simpl;
      (split; [split; assumption | intros _; apply Qle_refl]).
  - destruct (confirmCharging_frames station osrmRoute s)
      as [[_ E] | [_ [_ [_ [_ [_ [_ [_ [_ [_ [P _]]]]]]]]]]].
    + rewrite E. split; [split; assumption | intros _; apply Qle_refl].
    + unfold progressInRange. rewrite P.
      split; [split; assumption | intros _; apply Qle_refl].
  - split; [| discriminate].
    destruct (handleDayComplete_frames s) as [_ [[Hb _] | [_ [_ [_ [_ [_ [_ P]]]]]]]].
    + unfold progressInRange. rewrite Hb. split; assumption.
    + unfold progressInRange. rewrite P. split; [apply Qle_refl | unfold Qle; simpl; lia].
  - split; [| discriminate].
    destruct (confirmNightlyCharging_fresh targetPercent newRouteDistance v2gAmount
                v2gEarned regenerated s) as [_ [_ [_ [_ [_ [_ [_ P]]]]]]].
    unfold progressInRange. rewrite P. split; [apply Qle_refl | unfold Qle; simpl; lia].
Qed.

(** X6: whatever happens in a scenario, with distances and elapsed times that
    are not negative, the progress of the bus stays between 0 and 1. *)
Theorem progress_stays_in_range (cfg : Config.t) (r : Route.t) (events : list Event) :
  Forall plausible events ->
  let b := bus (run events (startScenario cfg r)) in
  0 <= progress b /\ progress b <= 1.
Proof.
  intros Hall. cbv zeta. change (progressInRange (run events (startScenario cfg r))).
  assert (H0 : progressInRange (startScenario cfg r)).
  { split; simpl; [apply Qle_refl | unfold Qle; simpl; lia]. }
  generalize dependent (startScenario cfg r). clear cfg r.
  induction events as [| e rest IH]; intros s H; [exact H |].
  inversion Hall as [| ? ? He Hrest]; subst.
  simpl. apply IH; [exact Hrest |]. now apply step_progress.
Qed.

(** X7: during a day, along ticks, dwell timers and station choices with
    elapsed times that are not negative, the progress of the bus never goes
    back. *)
Theorem progress_never_goes_back (events : list Event) (s : State) :
  0 <= progress (bus s) -> progress (bus s) <= 1 ->
  Forall plausible events -> forallb withinDay events = true ->
  progress (bus s) <= progress (bus (run events s)).
Proof.
  revert s. induction events as [| e rest IH]; intros s H0 H1 Hall Hday;
    [apply Qle_refl |].
  inversion Hall as [| ? ? He Hrest]; subst.
  simpl in Hday. apply andb_true_iff in Hday. destruct Hday as [Hd Hdrest].
  destruct (step_progress e s He (conj H0 H1)) as [[A0 A1] Hmono].
  simpl. apply (Qle_trans _ (progress (bus (step e s)))); [now apply Hmono |].
  now apply IH.
Qed.

End Progress.

Lemma progress_stays_in_range_witness :
  let b := bus (@run flatMap exampleDay exampleStart) in
  0 <= progress b /\ progress b <= 1.
Proof.
  apply (@progress_stays_in_range flatMap flatMap_nonnegative exampleConfig exampleRoute
           exampleDay).
  unfold exampleDay. repeat constructor; simpl; unfold Qle; simpl; lia.
Defined.

Lemma progress_never_goes_back_witness :
  progress (bus exampleStart) <= progress (bus (@run flatMap exampleQuietDay exampleStart)).
Proof.
  apply (@progress_never_goes_back flatMap flatMap_nonnegative exampleQuietDay exampleStart).
  - apply Qle_refl.
  - unfold Qle; simpl; lia.
  - unfold exampleQuietDay. repeat constructor; simpl; unfold Qle; simpl; lia.
  - reflexivity.
Defined.

(** ** Charging, the clock and the score, function by function *)

(** X8: a tick of charging with an elapsed time that is not negative, on a bus
    whose battery is within its capacity and whose charger does not drain,
    adds to the battery no more than the charger delivers in that time, and
    bills exactly the energy that went into the battery, at the rate of the
    station, on the electric cost and on the mid-day charging cost. *)
Theorem charging_bills_the_energy_added (deltaTime : Q) (s : State) :
  0 <= deltaTime -> batteryKwh (bus s) <= batteryCapacity (bus s) ->
  (forall r, chargingKwhPerHour (bus s) = Some r -> 0 <= r) ->
  let s' := handleCharging deltaTime s in
  let gained := batteryKwh (bus s') - batteryKwh (bus s) in
  let rate := orElse (chargingRate (bus s)) FUEL_COSTS.daytime in
  0 <= gained
  /\ gained <= orElse (chargingKwhPerHour (bus s)) BATTERY_CONFIG.chargingRateKwhPerHour
               * (deltaTime / (3600 * 1000))
  /\ Stats.midDayChargingKwh (stats s') == Stats.midDayChargingKwh (stats s) + gained
  /\ Stats.midDayChargingCost (stats s') == Stats.midDayChargingCost (stats s) + gained * rate
  /\ Stats.electricCost (stats s') == Stats.electricCost (stats s) + gained * rate.
Proof.
  intros Hd Hcap Hrate.
  assert (Hr : 0 <= orElse (chargingKwhPerHour (bus s))
                           BATTERY_CONFIG.chargingRateKwhPerHour).
  { apply orElse_nonneg; [exact Hrate | unfold Qle; simpl; lia]. }
  assert (Hadd : 0 <= orElse (chargingKwhPerHour (bus s))
                             BATTERY_CONFIG.chargingRateKwhPerHour
                      * (deltaTime / (3600 * 1000))).
  { apply Qmult_le_0_compat; [exact Hr |].
    apply Qle_shift_div_l; [reflexivity | lra]. }
  set (added := orElse (chargingKwhPerHour (bus s)) BATTERY_CONFIG.chargingRateKwhPerHour
                * (deltaTime / (3600 * 1000))) in *.
  assert (Hsame : batteryKwh (bus (handleCharging deltaTime s))
                  = batteryKwh (bus (chargingAccrue deltaTime s))
                  /\ stats (handleCharging deltaTime s)
                     = stats (chargingAccrue deltaTime s)).
  { unfold handleCharging.
    destruct (chargingDone (bus (chargingAccrue deltaTime s))); [| split; reflexivity].
    unfold chargingExit. destruct (returnTripPending _); split; reflexivity. }
  destruct Hsame as [Hk Hs]. cbv zeta. rewrite Hk, Hs.
  assert (Ek : batteryKwh (bus (chargingAccrue deltaTime s))
               = Qmin (batteryCapacity (bus s)) (batteryKwh (bus s) + added)) by reflexivity.
  rewrite Ek. unfold chargingAccrue. cbv zeta. fold added. simpl.
  generalize dependent (orElse (chargingRate (bus s)) FUEL_COSTS.daytime). intro rate.
  clearbody added.
  destruct (Q.min_spec (batteryCapacity (bus s)) (batteryKwh (bus s) + added))
    as [[Hm E] | [Hm E]]; rewrite E; repeat split; lra.
Qed.

Lemma charging_bills_the_energy_added_witness :
  Stats.midDayChargingKwh (stats (handleCharging 3600000 exampleCharging))
  == Stats.midDayChargingKwh (stats exampleCharging)
     + (batteryKwh (bus (handleCharging 3600000 exampleCharging))
        - batteryKwh (bus exampleCharging)).
Proof.
  apply (charging_bills_the_energy_added 3600000 exampleCharging).
  - unfold Qle; simpl; lia.
  - vm_compute. discriminate.
  - intros r Hr. vm_compute in Hr. injection Hr as <-. unfold Qle; simpl; lia.
Defined.

(** X9: for a progress between 0 and 1 and a charging time that is not
    negative, the simulated clock stays between the start of the day at 5:00
    and its end at 16:00, and a larger progress never gives an earlier time. *)
Theorem clock_stays_within_the_day (progress progress' chargingTimeHours : Q)
    (atSchool : bool) :
  0 <= progress -> progress <= progress' -> progress' <= 1 -> 0 <= chargingTimeHours ->
  TIME_WINDOWS.dayStart <= calculateTimeFromProgress progress chargingTimeHours atSchool
  /\ calculateTimeFromProgress progress chargingTimeHours atSchool
     <= calculateTimeFromProgress progress' chargingTimeHours atSchool
  /\ calculateTimeFromProgress progress' chargingTimeHours atSchool <= TIME_WINDOWS.dayEnd.
Proof.
  intros H0 Hle H1 Hc.
  unfold calculateTimeFromProgress, TIME_WINDOWS.amTripStart, TIME_WINDOWS.amTripEnd,
    TIME_WINDOWS.midDayStart, TIME_WINDOWS.midDayEnd, TIME_WINDOWS.pmTripStart,
    TIME_WINDOWS.pmTripEnd, TIME_WINDOWS.dayStart, TIME_WINDOWS.dayEnd.
  assert (Hm : 0 <= Qmin chargingTimeHours (12 - 9) /\ Qmin chargingTimeHours (12 - 9) <= 3).
  { split; [apply Q.min_glb; [exact Hc | unfold Qle; simpl; lia] |].
    apply (Qle_trans _ (12 - 9)); [apply Q.le_min_r | unfold Qle; simpl; lia]. }
  generalize dependent (Qmin chargingTimeHours (12 - 9)). intros m [Hm0 Hm3].
  assert (Ea : progress / 0.5 == 2 * progress) by (unfold Qdiv; field).
  assert (Ea' : progress' / 0.5 == 2 * progress') by (unfold Qdiv; field).
  assert (Eb : (progress - 0.5) / 0.5 == 2 * progress - 1) by (unfold Qdiv; field).
  assert (Eb' : (progress' - 0.5) / 0.5 == 2 * progress' - 1) by (unfold Qdiv; field).
  generalize dependent (progress / 0.5). generalize dependent (progress' / 0.5).
  generalize dependent ((progress - 0.5) / 0.5).
  generalize dependent ((progress' - 0.5) / 0.5). intros b' b a' Eb' Eb a Ea' Ea.
  destruct (Qltb_spec progress 0.5); destruct (Qltb_spec progress' 0.5);
    destruct atSchool; simpl;
    destruct (Qltb_spec 0 chargingTimeHours); simpl; repeat split; lra.
Qed.

Lemma clock_stays_within_the_day_witness :
  TIME_WINDOWS.dayStart <= calculateTimeFromProgress 0.25 0 false
  /\ calculateTimeFromProgress 0.25 0 false <= calculateTimeFromProgress 0.75 0 false
  /\ calculateTimeFromProgress 0.75 0 false <= TIME_WINDOWS.dayEnd.
Proof.
  apply (clock_stays_within_the_day 0.25 0.75 0 false); unfold Qle; simpl; lia.
Defined.


(** X11: the end-of-week scoring only adds bonuses: the total never goes down,
    and the day scores and the penalties stay as they are. *)
Theorem final_score_only_adds (s : State) :
  (Score.total (score s) <= Score.total (score (calculateFinalScore s)))%Z
  /\ Score.dayScores (score (calculateFinalScore s)) = Score.dayScores (score s)
  /\ Score.penalties (score (calculateFinalScore s)) = Score.penalties (score s)
  /\ exists added, Score.bonuses (score (calculateFinalScore s))
                   = Score.bonuses (score s) ++ added.
Proof.
  unfold calculateFinalScore. cbv zeta.
  set (s1 := if Qabs _ <=? 3 then _ else s).
  assert (H1 : (Score.total (score s) <= Score.total (score s1))%Z
               /\ Score.dayScores (score s1) = Score.dayScores (score s)
               /\ Score.penalties (score s1) = Score.penalties (score s)
               /\ exists added, Score.bonuses (score s1) = Score.bonuses (score s) ++ added).
  { unfold s1. destruct (Qabs _ <=? 3); simpl.
    - repeat split; [scoring_constants; lia | eexists; reflexivity].
    - repeat split; [lia | exists []; now rewrite app_nil_r]. }
  clearbody s1.
  set (s2 := if Nat.eqb _ 0 then _ else s1).
  assert (H2 : (Score.total (score s) <= Score.total (score s2))%Z
               /\ Score.dayScores (score s2) = Score.dayScores (score s)
               /\ Score.penalties (score s2) = Score.penalties (score s)
               /\ exists added, Score.bonuses (score s2) = Score.bonuses (score s) ++ added).
  { destruct H1 as [A [B [C [added D]]]].
    unfold s2. destruct (Nat.eqb _ 0); simpl.
    - repeat split; [scoring_constants; lia | exact B | exact C |].
      rewrite D. rewrite <- app_assoc. eexists; reflexivity.
    - repeat split; [exact A | exact B | exact C | exists added; exact D]. }
  clearbody s2. clear H1 s1.
  destruct H2 as [A [B [C [added D]]]].
  destruct (negb _); [| repeat split; [exact A | exact B | exact C | exists added; exact D]].
  destruct (Z.ltb_spec 0 (Math_round (inject_Z (Score.total (score s2))
              * (SCORING.difficultyMultiplier
                   (WEATHER_PATTERNS.difficulty (Config.weatherPattern (config s))) - 1))));
    simpl.
  - repeat split; [lia | exact B | exact C |].
    rewrite D. rewrite <- app_assoc. eexists; reflexivity.
  - repeat split; [exact A | exact B | exact C | exists added; exact D].
Qed.

(** X12: a pickup or drop-off credits the CO2 of two miles of a Type A diesel
    bus, whatever the type of the bus is: for the two bus types of the game,
    [A] and [C], the credit is the same. *)
Theorem pickup_credit_ignores_bus_type (now : Q) (currentStop : Stop.t) (s : State) :
  Stop.type currentStop = pickup \/ Stop.type currentStop = dropoff ->
  busType (bus s) = "A"%string \/ busType (bus s) = "C"%string ->
  let s' := processStopArrival now currentStop s in
  Stats.co2Avoided (stats s')
  == Stats.co2Avoided (stats s) + 2 / DIESEL_MPG.typeA * CO2_CONFIG.poundsPerGallon
  /\ Stats.pickupsCompleted (stats s') = S (Stats.pickupsCompleted (stats s)).
Proof.
  intros Hstop Htype. cbv zeta. unfold processStopArrival.
  assert (E : calculateCO2Avoided 2 (busType (bus s))
              == 2 / DIESEL_MPG.typeA * CO2_CONFIG.poundsPerGallon).
  { unfold calculateCO2Avoided. destruct Htype as [-> | ->]; reflexivity. }
  destruct Hstop as [-> | ->]; simpl; rewrite E; split; reflexivity.
Qed.

Lemma pickup_credit_ignores_bus_type_witness :
  Stats.pickupsCompleted
    (stats (processStopArrival 0
              {| Stop.type := pickup; Stop.coords := (0.2, 0); Stop.completed := true |}
              exampleHardStart))
  = 1%nat.
Proof.
  apply (pickup_credit_ignores_bus_type 0
           {| Stop.type := pickup; Stop.coords := (0.2, 0); Stop.completed := true |}
           exampleHardStart).
  - left. reflexivity.
  - right. reflexivity.
Defined.

(** ** Compositions *)

(** X13: the overnight decision books the cost of the charge on the week's
    overnight cost twice: once with the decision that it records, and once
    more when the bus is reset for the new day.  The first booking counts the
    energy discharged to the grid, the second does not; without a discharge
    the week's overnight cost grows by twice the cost of the charge. *)
Theorem overnight_cost_is_booked_twice (targetPercent : Q) (newRouteDistance : option Q)
    (v2gAmount v2gEarned : Q) (regenerated : option Route.t) (s : State) :
  let targetKwh := (targetPercent / 100) * batteryCapacity (bus s) in
  let decisionCost :=
    Qmax 0 (targetKwh - (batteryKwh (bus s) - v2gAmount)) * FUEL_COSTS.overnight in
  let resetCost := Qmax 0 (targetKwh - batteryKwh (bus s)) * FUEL_COSTS.overnight in
  Week.totalOvernightCost
    (week (confirmNightlyCharging targetPercent newRouteDistance v2gAmount v2gEarned
             regenerated s))
  == Week.totalOvernightCost (week s) + decisionCost + resetCost
  /\ Week.totalOvernightCost
       (week (confirmNightlyCharging targetPercent newRouteDistance 0 0 regenerated s))
     == Week.totalOvernightCost (week s) + 2 * resetCost.
Proof.
  assert (G : forall v e,
    Week.totalOvernightCost
      (week (confirmNightlyCharging targetPercent newRouteDistance v e regenerated s))
    == Week.totalOvernightCost (week s)
       + Qmax 0 ((targetPercent / 100) * batteryCapacity (bus s) - (batteryKwh (bus s) - v))
         * FUEL_COSTS.overnight
       + Qmax 0 ((targetPercent / 100) * batteryCapacity (bus s) - batteryKwh (bus s))
         * FUEL_COSTS.overnight).
  { intros v e. unfold confirmNightlyCharging. cbv zeta.
    set (s1 := if v >? 0 then _ else s).
    assert (B1 : bus s1 = bus s) by (unfold s1; destruct (v >? 0); reflexivity).
    assert (W1 : Week.totalOvernightCost (week s1) = Week.totalOvernightCost (week s))
      by (unfold s1; destruct (v >? 0); reflexivity).
    clearbody s1.
    set (s2 := match newRouteDistance with Some d => _ | None => s1 end).
    assert (B2 : bus s2 = bus s)
      by (unfold s2; destruct newRouteDistance; simpl; exact B1).
    assert (W2 : week s2 = week s1) by (unfold s2; destruct newRouteDistance; reflexivity).
    clearbody s2.
    set (cost := Qmax 0 _ * FUEL_COSTS.overnight).
    match goal with |- context [recordNightlyCharging ?d s2] => set (dd := d) end.
    assert (C : nd_cost dd = cost) by reflexivity.
    clearbody dd.
    set (s3 := set_showNightlyChargingModal false (recordNightlyCharging dd s2)).
    assert (B3 : bus s3 = bus s) by exact B2.
    assert (W3 : Week.totalOvernightCost (week s3)
                 = Week.totalOvernightCost (week s) + cost).
    { unfold s3, recordNightlyCharging. simpl. rewrite W2, W1, C. reflexivity. }
    clearbody s3. clear C.
    match goal with |- context [continueToNextDay _ ?n _ _] => set (nrd := n) end.
    clearbody nrd.
    assert (R : forall s4, bus s4 = bus s ->
                Week.totalOvernightCost (week s4) = Week.totalOvernightCost (week s) + cost ->
                Week.totalOvernightCost (week (resetBusForNewDay targetPercent s4))
                == Week.totalOvernightCost (week s) + cost
                   + Qmax 0 ((targetPercent / 100) * batteryCapacity (bus s)
                             - batteryKwh (bus s)) * FUEL_COSTS.overnight).
    { intros s4 B4 W4. unfold resetBusForNewDay. cbv zeta.
      unfold overnightChargingCost, overnightEnergyToAdd, overnightTargetKwh.
      rewrite B4.
      destruct (Qltb_spec 0 (Qmax 0 (targetPercent / 100 * batteryCapacity (bus s)
                                     - batteryKwh (bus s)))) as [Hpos | Hzero];
        simpl; rewrite W4; [reflexivity |].
      assert (Z0 : Qmax 0 (targetPercent / 100 * batteryCapacity (bus s)
                           - batteryKwh (bus s)) == 0).
      { apply Qle_antisym; [apply Qnot_lt_le; exact Hzero | apply Q.le_max_l]. }
      rewrite Z0. ring. }
    unfold continueToNextDay.
    destruct (truthy nrd); [destruct regenerated as [newRoute |] |]; apply R;
      try exact B3; exact W3. }
  cbv zeta. split; [apply G |].
  rewrite (G 0 0).
  assert (E : batteryKwh (bus s) - 0 == batteryKwh (bus s)) by ring.
  rewrite E. ring.
Qed.



(** ** Stops and paths *)





Section StopArrivals.
Context {geodesy : Geodesy}.



Lemma last_in (l : list Coord) (d : Coord) : l <> [] -> In (last l d) l.
Proof.
  induction l as [| a rest IH]; [congruence |]. intros _.
  destruct rest as [| b rest']; [left; reflexivity |].
  right. apply IH. discriminate.
Qed.

Hypothesis distances : nonnegative geodesy.

Lemma walkSegments_onPath (path l1 : list Coord) (targetDistance accumulated : Q)
    (lastPoint : Coord) :
  accumulated <= targetDistance -> In lastPoint (l1 ++ path) ->
  onPath (l1 ++ path) (walkSegments path targetDistance accumulated lastPoint).
Proof.
  revert l1 accumulated.
  induction path as [| a rest IH]; intros l1 acc Hacc Hlast; [left; exact Hlast |].
  destruct rest as [| b rest']; [left; exact Hlast |].
  change (walkSegments (a :: b :: rest') targetDistance acc lastPoint)
    with (if haversineDistance a b =? 0
          then walkSegments (b :: rest') targetDistance acc lastPoint
          else if acc + haversineDistance a b >=? targetDistance
               then (lerp (fst a) (fst b) ((targetDistance - acc) / haversineDistance a b),
                     lerp (snd a) (snd b) ((targetDistance - acc) / haversineDistance a b))
               else walkSegments (b :: rest') targetDistance (acc + haversineDistance a b)
                      lastPoint).
  assert (Happ : l1 ++ a :: b :: rest' = (l1 ++ [a]) ++ b :: rest')
    by (rewrite <- app_assoc; reflexivity).
  destruct (Qeqb_spec (haversineDistance a b) 0) as [Hz | Hz].
  - rewrite Happ. apply IH; [exact Hacc | rewrite <- Happ; exact Hlast].
  - assert (Hpos : 0 < haversineDistance a b).
    { pose proof (distances a b) as Hn.
      destruct (Qlt_le_dec 0 (haversineDistance a b)) as [K | K]; [exact K |].
      exfalso. apply Hz. lra. }
    destruct (Qleb_spec targetDistance (acc + haversineDistance a b)) as [Hin | Hout].
    + right. exists l1, a, b, rest'. split; [reflexivity |].
      exists ((targetDistance - acc) / haversineDistance a b).
      split; [apply Qle_shift_div_l; [exact Hpos | lra] |].
      split; [apply Qle_shift_div_r; [exact Hpos | lra] | reflexivity].
    + rewrite Happ. apply IH; [lra | rewrite <- Happ; exact Hlast].
Qed.

(** X16: with distances that are not negative, the interpolated position on
    a path that is not empty is a point of the path or lies on one of its
    segments, whatever the progress is. *)
Theorem interpolated_position_is_on_the_path (path : list Coord) (progress : Q) :
  path <> [] -> onPath path (interpolatePosition path progress).
Proof.
  intro Hne. destruct path as [| first rest]; [congruence |].
  destruct rest as [| second rest']; [left; left; reflexivity |].
  unfold interpolatePosition.
  set (path := first :: second :: rest') in *.
  set (p := Qmax 0 (Qmin 1 progress)).
  assert (Hp : 0 <= p) by apply Q.le_max_l.
  clearbody p. cbv zeta.
  destruct (p <=? 0); [left; left; reflexivity |].
  destruct (p >=? 1); [left; apply last_in; exact Hne |].
  destruct (_ =? 0); [left; left; reflexivity |].
  apply (walkSegments_onPath path [] (p * sumLengths (segmentLengths path)) 0
           (last path first)).
  - apply Qmult_le_0_compat; [exact Hp |].
    apply fold_left_Qplus_nonneg; [| apply Qle_refl].
    apply (segmentLengths_nonneg distances).
  - apply last_in. exact Hne.
Qed.

End StopArrivals.

Lemma interpolated_position_is_on_the_path_witness :
  onPath [(0, 0); (0.4, 0); (0, 0)]
    (@interpolatePosition flatMap [(0, 0); (0.4, 0); (0, 0)] 0.3).
Proof.
  apply (@interpolated_position_is_on_the_path flatMap flatMap_nonnegative
           [(0, 0); (0.4, 0); (0, 0)] 0.3).
  discriminate.
Defined.

(** ** The leg to a charger and back *)

Lemma legInv_off (origin : option Coord) (along : Q) (s : State) :
  isCharging (bus s) = false -> status (bus s) <> traveling_to_charger ->
  status (bus s) <> returning_from_charger -> legInv origin along s.
Proof. intros A B C. right. right. right. auto. Qed.

Lemma handleCharging_leg (origin : option Coord) (along : Q) (deltaTime : Q) (s : State) :
  status (bus s) = charging -> isCharging (bus s) = true -> needsReturnTrip (bus s) = true ->
  returnDestination (bus s) = origin -> progress (bus s) = along ->
  truthy (returnDistance (bus s)) = true ->
  legInv origin along (handleCharging deltaTime s).
Proof.
  intros S I N R P T. unfold handleCharging.
  destruct (chargingDone (bus (chargingAccrue deltaTime s))).
  - unfold chargingExit, returnTripPending. simpl. rewrite N, R. simpl.
    destruct origin as [o |]; simpl.
    + right. right. left. simpl. repeat split; auto.
    + apply legInv_off; simpl; congruence.
  - right. left. simpl. repeat split; auto.
Qed.

Section Leg.
Context {geodesy : Geodesy}.

Lemma handleDeadheadTravel_leg (origin : option Coord) (along : Q) (deltaTime : Q)
    (s : State) :
  status (bus s) = traveling_to_charger -> isCharging (bus s) = false ->
  originalPosition (bus s) = origin -> progress (bus s) = along ->
  isSome (chargerDestination (bus s)) = true -> truthy (deadheadDistance (bus s)) = true ->
  legInv origin along (handleDeadheadTravel deltaTime s).
Proof.
  intros S I O P C T. unfold handleDeadheadTravel. cbv zeta. rewrite C, T. simpl.
  destruct (_ <=? 0); [apply legInv_off; simpl; congruence |].
  destruct (_ >=? _).
  - right. left.
    destruct (hasRoutedPath _); simpl;
      [| unfold linearPosition;
         destruct (match deadheadStartPosition (bus s) with Some p => Some p | None => _ end);
         destruct (chargerDestination (bus s)) eqn:Hcd; simpl; rewrite ?Hcd];
      repeat split; auto.
  - left.
    destruct (hasRoutedPath _); simpl;
      [| unfold linearPosition;
         destruct (match deadheadStartPosition (bus s) with Some p => Some p | None => _ end);
         destruct (chargerDestination (bus s)) eqn:Hcd; simpl; rewrite ?Hcd];
      repeat split; auto.
Qed.

Lemma handleReturnFromCharger_leg (origin : option Coord) (along : Q) (deltaTime : Q)
    (s : State) :
  status (bus s) = returning_from_charger -> isCharging (bus s) = false ->
  returnDestination (bus s) = origin -> progress (bus s) = along ->
  isSome origin = true -> truthy (returnDistance (bus s)) = true ->
  let s' := handleReturnFromCharger deltaTime s in
  legInv origin along s'
  /\ (status (bus s') = moving -> position (bus s') = origin /\ progress (bus s') = along).
Proof.
  intros S I R P O T. cbv zeta. unfold handleReturnFromCharger. cbv zeta.
  destruct origin as [o |]; [| discriminate].
  rewrite R, T. simpl.
  destruct (_ <=? 0);
    [split; [apply legInv_off; simpl; congruence | simpl; discriminate] |].
  destruct (_ >=? _); (destruct (hasRoutedPath _); simpl;
    [| unfold linearPosition;
       destruct (chargerDestination (bus s)); [| destruct (position (bus s))]; simpl]).
  all: try (split; [apply legInv_off; simpl; congruence | intros _; simpl; auto]).
  all: split; [right; right; left; simpl; repeat split; auto
              | simpl; rewrite ?S; discriminate].
Qed.

Lemma moveBus_off (now deltaTime : Q) (s : State) :
  isCharging (bus s) = false -> status (bus s) <> traveling_to_charger ->
  status (bus s) <> returning_from_charger ->
  let s' := moveBus now deltaTime s in
  isCharging (bus s') = false /\ status (bus s') <> traveling_to_charger
  /\ status (bus s') <> returning_from_charger.
Proof.
  intros I A B. cbv zeta.
  destruct (moveBus_shape now deltaTime s) as [E | [E | H]];
    [rewrite E; auto | rewrite E; simpl; repeat split; congruence |].
  cbv zeta in H. destruct H as [_ [_ H]].
  set (s1 := advanceOnRoute deltaTime _ s) in *.
  assert (I1 : isCharging (bus s1) = false) by exact I.
  assert (S1 : status (bus s1) = status (bus s)) by reflexivity.
  clearbody s1.
  destruct H as [E | [_ E]]; rewrite E; [simpl; repeat split; congruence |].
  destruct (afterMovement_frames now s1) as [_ [_ [_ [_ [St [Ic _]]]]]].
  rewrite Ic. split; [exact I1 |].
  destruct St as [St | [St | [St | St]]]; rewrite St; split; congruence.
Qed.

Lemma updateBus_leg (origin : option Coord) (along : Q) (now deltaTime : Q) (s : State) :
  legInv origin along s -> legInv origin along (updateBus now deltaTime s).
Proof.
  intros H.
  destruct (updateBus_shape now deltaTime s) as [[_ E] | [_ Hcase]]; [rewrite E; exact H |].
  cbv zeta in Hcase.
  assert (H0 : legInv origin along (clearDwell s)).
  { unfold clearDwell. destruct (truthy (dwellUntil (bus s))); exact H. }
  set (s0 := clearDwell s) in *. clearbody s0. clear H.
  destruct Hcase as [[S E] | [[S E] | [[I [N1 [N2 E]]] | [[I [S E]] | [[I [S E]] | R]]]]];
    try rewrite E.
  - destruct H0 as [[_ [I [O [P [C T]]]]] | [[S' _] | [[S' _] | [_ [S' _]]]]];
      try congruence.
    now apply handleDeadheadTravel_leg.
  - destruct H0 as [[S' _] | [[S' _] | [[_ [I [O [P [C T]]]]] | [_ [_ S']]]]];
      try congruence.
    now apply handleReturnFromCharger_leg.
  - destruct H0 as [[_ [I' _]] | [[S' [_ [N [R [P T]]]]] | [[_ [I' _]] | [I' _]]]];
      try congruence.
    now apply handleCharging_leg.
  - destruct (moveBus_off now deltaTime (startMoving s0)) as [A [B C]];
      simpl; try congruence; try discriminate.
    now apply legInv_off.
  - destruct (moveBus_off now deltaTime s0) as [A [B C]]; try congruence.
    now apply legInv_off.
  - destruct R as [I [N1 [N2 [_ [_ E]]]]]. rewrite E. now apply legInv_off.
Qed.

Lemma run_leg (origin : option Coord) (along : Q) (events : list Event) (s : State) :
  forallb tickOrTimer events = true -> legInv origin along s ->
  legInv origin along (run events s).
Proof.
  revert s. induction events as [| e rest IH]; intros s Hall H; [exact H |].
  simpl in Hall. apply andb_true_iff in Hall. destruct Hall as [He Hrest].
  simpl. apply IH; [exact Hrest |].
  destruct e; try discriminate; simpl.
  - now apply updateBus_leg.
  - unfold dwellTimeout.
    destruct (BusStatus_eqb (status (bus s)) dwelling) eqn:D; [| exact H].
    destruct (status (bus s)) eqn:S; try discriminate.
    destruct H as [[S' _] | [[S' _] | [[S' _] | [I _]]]]; try congruence.
    apply legInv_off; simpl; [exact I | discriminate | discriminate].
Qed.

(** X17: after the player has sent the bus to a charger away from the school
    over a leg of some length, ticks and dwell timers take the bus to the
    charger and back: the tick that ends the return puts the bus exactly
    where it had left the route, with the progress it had there. *)
Theorem bus_returns_to_where_it_left (station : Station) (osrmRoute : OsrmRoute)
    (during : list Event) (now deltaTime : Q) (s : State) :
  pendingCharge s <> None -> isCharging (bus s) = false ->
  st_locationType station <> at_the_school -> ~ osrm_distance osrmRoute == 0 ->
  forallb tickOrTimer during = true ->
  let s1 := run during (confirmCharging station osrmRoute s) in
  let s2 := updateBus now deltaTime s1 in
  status (bus s1) = returning_from_charger -> status (bus s2) = moving ->
  position (bus s2) = position (bus s) /\ progress (bus s2) = progress (bus s).
Proof.
  intros Hp Hi Hloc Hdist Hall s1 s2 Hret Hmov.
  assert (H0 : legInv (position (bus s)) (progress (bus s))
                 (confirmCharging station osrmRoute s)).
  { unfold confirmCharging. destruct (pendingCharge s) as [pending |]; [| congruence].
    cbv zeta. left.
    destruct (st_locationType station) eqn:L; [congruence | |];
      (destruct (_ && _); simpl; rewrite ?L; simpl;
       repeat split; auto;
       destruct (Qeqb_spec (osrm_distance osrmRoute) 0); try contradiction; reflexivity). }
  pose proof (run_leg _ _ during _ Hall H0) as H1. fold s1 in H1.
  clearbody s1. clear H0.
  destruct H1 as [[S' _] | [[S' _] | [[_ [I [R [P [O T]]]]] | [_ [_ S']]]]]; try congruence.
  unfold s2 in *. clear s2.
  destruct (updateBus_shape now deltaTime s1) as [[_ E] | [_ Hcase]];
    [rewrite E in Hmov; congruence |].
  cbv zeta in Hcase.
  destruct (clearDwell_same s1) as [C1 [C2 _]].
  assert (F : returnDestination (bus (clearDwell s1)) = returnDestination (bus s1)
              /\ progress (bus (clearDwell s1)) = progress (bus s1)
              /\ returnDistance (bus (clearDwell s1)) = returnDistance (bus s1)).
  { unfold clearDwell. destruct (truthy (dwellUntil (bus s1))); repeat split. }
  destruct F as [F1 [F2 F3]].
  set (s0 := clearDwell s1) in *. clearbody s0.
  rewrite <- C1 in Hret. rewrite <- C2 in I. rewrite <- F1 in R. rewrite <- F2 in P.
  rewrite <- F3 in T.
  destruct Hcase as [[S E] | [[S E] | [[I' [N1 [N2 E]]] | [[I' [S E]] | [[I' [S E]]
                     | [_ [_ [K _]]]]]]]];
    try congruence.
  rewrite E in *.
  destruct (handleReturnFromCharger_leg _ _ deltaTime s0 Hret I R P O T) as [_ Hback].
  exact (Hback Hmov).
Qed.

End Leg.

Lemma bus_returns_to_where_it_left_witness :
  let s := snd (checkChargingNeeds exampleAtSchool) in
  let s1 := @run flatMap [Tick 0 720000; Tick 1 3600000; Tick 2 3600000]
              (confirmCharging publicFastCharger legToPublicCharger s) in
  position (bus (@updateBus flatMap 3 720000 s1)) = position (bus s)
  /\ progress (bus (@updateBus flatMap 3 720000 s1)) = progress (bus s).
Proof.
  apply (@bus_returns_to_where_it_left flatMap publicFastCharger legToPublicCharger
           [Tick 0 720000; Tick 1 3600000; Tick 2 3600000] 3 720000
           (snd (checkChargingNeeds exampleAtSchool))).
  - discriminate.
  - reflexivity.
  - discriminate.
  - intro H. vm_compute in H. discriminate.
  - reflexivity.
  - vm_compute. reflexivity.
  - vm_compute. reflexivity.
Defined.

(** ** The leaderboard *)

Lemma insertByScore_perm (x : LeaderboardEntry) (l : list LeaderboardEntry) :
  Permutation (insertByScore x l) (x :: l).
Proof.
  induction l as [| y rest IH]; simpl; [apply Permutation_refl |].
  destruct (lb_score y <=? lb_score x)%Z; [apply Permutation_refl |].
  apply (Permutation_trans (perm_skip y IH)). apply perm_swap.
Qed.

Lemma sortByScore_perm (l : list LeaderboardEntry) : Permutation (sortByScore l) l.
Proof.
  induction l as [| x rest IH]; simpl; [apply Permutation_refl |].
  apply (Permutation_trans (insertByScore_perm x (sortByScore rest))).
  now apply perm_skip.
Qed.

Lemma insertByScore_descending (x : LeaderboardEntry) (l : list LeaderboardEntry) :
  descending l -> descending (insertByScore x l).
Proof.
  unfold descending. induction l as [| y rest IH]; intros H; simpl.
  - constructor; constructor.
  - inversion H as [| ? ? Hrest Hall]; subst.
    destruct (Z.leb_spec (lb_score y) (lb_score x)) as [Hle | Hgt].
    + constructor; [exact H |]. constructor; [exact Hle |].
      apply (Forall_impl _ (P := fun b => (lb_score b <= lb_score y)%Z)); [| exact Hall].
      intros b Hb. lia.
    + constructor; [now apply IH |].
      apply (Permutation_Forall (Permutation_sym (insertByScore_perm x rest))).
      constructor; [lia | exact Hall].
Qed.

Lemma sortByScore_descending (l : list LeaderboardEntry) : descending (sortByScore l).
Proof.
  induction l as [| x rest IH]; simpl; [constructor | now apply insertByScore_descending].
Qed.







Lemma findIndex_range {A : Type} (f : A -> bool) (l : list A) :
  (-1 <= findIndex f l < Z.of_nat (List.length l))%Z.
Proof.
  induction l as [| x rest IH]; simpl List.length; simpl findIndex; [lia |].
  destruct (f x); [lia |]. cbv zeta.
  destruct (Z.ltb_spec (findIndex f rest) 0); lia.
Qed.

Lemma findIndex_none {A : Type} (f : A -> bool) (l : list A) :
  Forall (fun x => f x = false) l -> findIndex f l = (-1)%Z.
Proof.
  induction 1 as [| x rest Hx Hrest IH]; simpl; [reflexivity |].
  rewrite Hx, IH. reflexivity.
Qed.

Lemma betterThan_perm (total : Z) (l l' : list LeaderboardEntry) :
  Permutation l l' -> List.length (betterThan total l) = List.length (betterThan total l').
Proof.
  unfold betterThan. induction 1; simpl;
    repeat match goal with |- context [(total <? lb_score ?e)%Z] =>
             destruct (total <? lb_score e)%Z end; simpl; congruence.
Qed.

Lemma descending_prefix (total : Z) (n : nat) (l : list LeaderboardEntry) :
  descending l -> (n <= List.length (betterThan total l))%nat ->
  Forall (fun e => (total < lb_score e)%Z) (firstn n l).
Proof.
  unfold descending, betterThan. revert n.
  induction l as [| y rest IH]; intros n H Hn;
    [rewrite firstn_nil; constructor | destruct n as [| n]; [constructor |]].
  simpl in *. inversion H as [| ? ? Hrest Hall]; subst.
  destruct (Z.ltb_spec total (lb_score y)) as [Hy | Hy]; simpl in Hn.
  - constructor; [exact Hy | apply IH; [exact Hrest | lia]].
  - exfalso.
    assert (E : filter (fun e => (total <? lb_score e)%Z) rest = []).
    { clear -Hall Hy. induction rest as [| z rest IH]; [reflexivity |].
      inversion Hall; subst. simpl.
      destruct (Z.ltb_spec total (lb_score z)); [lia | now apply IH]. }
    rewrite E in Hn. simpl in Hn. lia.
Qed.

Lemma saveToLeaderboard_top (entry : LeaderboardEntry)
    (stored : option (list LeaderboardEntry)) :
  let top := fst (saveToLeaderboard entry stored) in
  (List.length top <= 10)%nat
  /\ ((10 <= List.length (betterThan (lb_score entry) (getLeaderboard stored)))%nat ->
      Forall (fun e => (lb_score entry < lb_score e)%Z) top).
Proof.
  cbv zeta.
  change (fst (saveToLeaderboard entry stored))
    with (firstn 10 (sortByScore (getLeaderboard stored ++ [entry]))).
  split; [rewrite length_firstn; lia |].
  intros Hten. apply descending_prefix; [apply sortByScore_descending |].
  rewrite (betterThan_perm _ _ _ (sortByScore_perm _)).
  unfold betterThan. rewrite filter_app, length_app. unfold betterThan in Hten. lia.
Qed.

(** X19: the position that the week result looks up in the saved leaderboard
    is never above 10, so the result always shows it; when ten stored entries
    have more points than the player, the player is not on the leaderboard
    and the position shown is 0. *)
Theorem leaderboard_position_is_always_shown (entry : LeaderboardEntry)
    (stored : option (list LeaderboardEntry)) :
  let top := fst (saveToLeaderboard entry stored) in
  let position := leaderboardPosition (lb_name entry) (lb_score entry) top in
  (0 <= position <= 10)%Z /\ positionShown position = true
  /\ ((10 <= List.length (betterThan (lb_score entry) (getLeaderboard stored)))%nat ->
      position = 0%Z).
Proof.
  cbv zeta.
  destruct (saveToLeaderboard_top entry stored) as [Hlen Htop].
  set (top := fst (saveToLeaderboard entry stored)) in *.
  unfold leaderboardPosition, positionShown.
  pose proof (findIndex_range
                (fun e => (lb_score e =? lb_score entry)%Z && (lb_name e =? lb_name entry)%string)
                top) as Hr.
  split; [lia |]. split; [apply Z.leb_le; lia |].
  intros Hten. rewrite findIndex_none; [reflexivity |].
  apply (Forall_impl _ (P := fun e => (lb_score entry < lb_score e)%Z));
    [intros e He; destruct (Z.eqb_spec (lb_score e) (lb_score entry)); [lia | reflexivity] |].
  apply Htop. exact Hten.
Qed.

Lemma leaderboard_position_is_always_shown_witness :
  leaderboardPosition (lb_name exampleNewcomer) (lb_score exampleNewcomer)
    (fst (saveToLeaderboard exampleNewcomer (Some exampleLeaderboard))) = 0%Z.
Proof.
  apply (leaderboard_position_is_always_shown exampleNewcomer (Some exampleLeaderboard)).
  vm_compute. lia.
Defined.

(** ** The weather of the day *)

Lemma sameForecast_refl (s : State) : sameForecast s s.
Proof. repeat split. Qed.

Lemma sameForecast_trans (s s' s'' : State) :
  sameForecast s s' -> sameForecast s' s'' -> sameForecast s s''.
Proof. intros [A [B C]] [A' [B' C']]. repeat split; congruence. Qed.

Lemma sameForecast_forecast (s s' : State) : sameForecast s s' -> forecast s -> forecast s'.
Proof. intros [A [B C]]. unfold forecast. now rewrite A, B, C. Qed.

Lemma checkChargingNeeds_weather (s : State) : weather (snd (checkChargingNeeds s)) = weather s.
Proof.
  unfold checkChargingNeeds.
  destruct (_ || _); [reflexivity |]. destruct (negb _); [reflexivity |].
  destruct (needsCharging s); reflexivity.
Qed.

Lemma processStopArrival_weather (now : Q) (currentStop : Stop.t) (s : State) :
  weather (processStopArrival now currentStop s) = weather s.
Proof.
  unfold processStopArrival.
  destruct (_ && _).
  - cbv zeta.
    pose proof (checkChargingNeeds_weather
                  (with_bus (fun b => b |> set_arrivedAtSchool true |> set_status at_school) s))
      as H.
    destruct (checkChargingNeeds _) as [needs s2]. simpl in H.
    destruct (negb needs); simpl; exact H.
  - destruct (_ || _); reflexivity.
Qed.

Lemma handleCharging_weather (deltaTime : Q) (s : State) :
  weather (handleCharging deltaTime s) = weather s.
Proof.
  unfold handleCharging. destruct (chargingDone _); [| reflexivity].
  unfold chargingExit. destruct (returnTripPending _); reflexivity.
Qed.

Section Weather.
Context {geodesy : Geodesy}.

Lemma checkStopArrivalsLoop_weather (fuel : nat) (now : Q) (k : nat) (s : State) :
  weather (checkStopArrivalsLoop fuel now k s) = weather s.
Proof.
  revert k s. induction fuel as [| fuel IH]; intros k s; simpl; [reflexivity |].
  destruct (_ && _); [| reflexivity].
  destruct (nth_error _ _) as [currentStop |]; [| reflexivity].
  destruct (Stop.completed currentStop); [now rewrite IH |].
  destruct (position (bus s)) as [pos |]; [| reflexivity].
  destruct (_ <? _); [| reflexivity].
  rewrite IH. simpl. now rewrite processStopArrival_weather.
Qed.

Lemma afterMovement_weather (now : Q) (s : State) : weather (afterMovement now s) = weather s.
Proof.
  unfold afterMovement. cbv zeta.
  set (s3 := checkStopArrivals now (updateTripPhase s)).
  assert (W3 : weather s3 = weather s).
  { unfold s3, checkStopArrivals. cbv zeta.
    assert (W : weather (updateTripPhase s) = weather s).
    { unfold updateTripPhase. cbv zeta. destruct (_ && _); [reflexivity |].
      destruct (_ >? _); reflexivity. }
    destruct (_ <=? _)%nat; [exact W |]. now rewrite checkStopArrivalsLoop_weather. }
  clearbody s3.
  destruct (fallbackDue (bus s3)).
  - unfold fallbackSchoolArrival. cbv zeta.
    pose proof (checkChargingNeeds_weather
                  (with_bus (fun b => b |> set_arrivedAtSchool true |> set_status at_school) s3))
      as H.
    destruct (checkChargingNeeds _) as [needs s2]. simpl in H.
    destruct (negb needs); simpl; congruence.
  - destruct (_ >=? _); simpl; exact W3.
Qed.

Lemma moveBus_weather (now deltaTime : Q) (s : State) :
  weather (moveBus now deltaTime s) = weather s.
Proof.
  destruct (moveBus_shape now deltaTime s) as [E | [E | H]];
    [rewrite E; reflexivity | rewrite E; reflexivity |].
  cbv zeta in H. destruct H as [_ [_ [E | [_ E]]]]; rewrite E; [reflexivity |].
  now rewrite afterMovement_weather.
Qed.

Lemma handleDeadheadTravel_weather (deltaTime : Q) (s : State) :
  weather (handleDeadheadTravel deltaTime s) = weather s.
Proof.
  unfold handleDeadheadTravel. cbv zeta.
  destruct (_ || _); [reflexivity |].
  destruct (_ <=? 0); [reflexivity |].
  destruct (_ >=? _); destruct (hasRoutedPath _); reflexivity.
Qed.

Lemma handleReturnFromCharger_weather (deltaTime : Q) (s : State) :
  weather (handleReturnFromCharger deltaTime s) = weather s.
Proof.
  unfold handleReturnFromCharger. cbv zeta.
  destruct (_ || _); [reflexivity |].
  destruct (_ <=? 0); [reflexivity |].
  destruct (_ >=? _); destruct (hasRoutedPath _); reflexivity.
Qed.

Lemma updateBus_weather (now deltaTime : Q) (s : State) :
  weather (updateBus now deltaTime s) = weather s.
Proof.
  destruct (updateBus_shape now deltaTime s) as [[_ E] | [_ Hcase]]; [now rewrite E |].
  cbv zeta in Hcase.
  destruct (clearDwell_same s) as [_ [_ [_ [_ [_ [_ [_ [_ [_ [_ [W _]]]]]]]]]]].
  rewrite <- W. set (s0 := clearDwell s) in *. clearbody s0.
  destruct Hcase as [[_ E] | [[_ E] | [[_ [_ [_ E]]] | [[_ [_ E]] | [[_ [_ E]]
                     | [_ [_ [_ [_ [_ E]]]]]]]]]]; rewrite E.
  - apply handleDeadheadTravel_weather.
  - apply handleReturnFromCharger_weather.
  - apply handleCharging_weather.
  - now rewrite moveBus_weather.
  - apply moveBus_weather.
  - reflexivity.
Qed.

Lemma updateBus_sameForecast (now deltaTime : Q) (s : State) :
  sameForecast s (updateBus now deltaTime s).
Proof.
  destruct (updateBus_flag now deltaTime s) as [L _]. cbv zeta in L.
  unfold ledgerOf in L. injection L as _ Hw _ _ _.
  split; [apply updateBus_weather | now rewrite Hw].
Qed.

End Weather.

Lemma confirmCharging_sameForecast (station : Station) (osrmRoute : OsrmRoute) (s : State) :
  sameForecast s (confirmCharging station osrmRoute s).
Proof.
  unfold confirmCharging. destruct (pendingCharge s); [| apply sameForecast_refl].
  cbv zeta. destruct (_ && _); destruct (st_locationType station); repeat split.
Qed.

Lemma continueToNextDay_sameForecast (T : Q) (newRouteDistance : option Q)
    (regenerated : option Route.t) (s : State) :
  sameForecast s (continueToNextDay T newRouteDistance regenerated s).
Proof.
  unfold continueToNextDay.
  destruct (truthy newRouteDistance); [destruct regenerated |];
    unfold resetBusForNewDay; destruct (_ >? 0); repeat split.
Qed.

Lemma confirmNightlyCharging_sameForecast (T : Q) (newRouteDistance : option Q)
    (v2gAmount v2gEarned : Q) (regenerated : option Route.t) (s : State) :
  sameForecast s
    (confirmNightlyCharging T newRouteDistance v2gAmount v2gEarned regenerated s).
Proof.
  unfold confirmNightlyCharging. cbv zeta.
  eapply sameForecast_trans; [| apply continueToNextDay_sameForecast].
  destruct (v2gAmount >? 0); destruct newRouteDistance; repeat split.
Qed.

Lemma calculateDayScore_weather (s : State) : weather (calculateDayScore s) = weather s.
Proof.
  unfold calculateDayScore.
  destruct (0 <? Stats.midDayCharges (stats s))%nat;
    (destruct (lastNightDecision _) as [d |]; [| reflexivity]);
    (destruct ((_ >=? 10) && (_ <=? 25)); [reflexivity |]);
    destruct (_ >? 25); reflexivity.
Qed.

Lemma calculateFinalScore_sameForecast (s : State) : sameForecast s (calculateFinalScore s).
Proof.
  destruct (calculateFinalScore_count s) as [W _].
  split; [| now rewrite W].
  unfold calculateFinalScore. cbv zeta.
  destruct (Qabs _ <=? 3); destruct (Nat.eqb _ 0); destruct (negb _);
    try destruct (0 <? _)%Z; reflexivity.
Qed.

Lemma advanceDay_forecast (s : State) :
  forecast (snd (advanceDay s))
  /\ Week.schedule (week (snd (advanceDay s))) = Week.schedule (week s)
  /\ Week.currentDay (week (snd (advanceDay s))) = S (Week.currentDay (week s)).
Proof.
  unfold advanceDay, forecast. cbv zeta. simpl.
  destruct (findSchedule (S (Week.currentDay (week s))) (Week.schedule (week s))) as [d |] eqn:E;
    simpl; rewrite E; repeat split.
Qed.

Lemma handleDayComplete_forecast (s : State) :
  forecast (handleDayComplete s)
  /\ Week.schedule (week (handleDayComplete s)) = Week.schedule (week s)
  /\ Week.currentDay (week (handleDayComplete s)) = S (Week.currentDay (week s)).
Proof.
  destruct (handleDayComplete_shape s) as [s4 [Ha Hh]]. rewrite Hh.
  set (s2 := with_stats _ (stopSimulation s)) in Ha.
  destruct (advanceDay_forecast (calculateDayScore s2)) as [F [Sc D]].
  rewrite Ha in F, Sc, D. simpl in F, Sc, D.
  destruct (calculateDayScore_week s2) as [W _]. rewrite W in Sc, D.
  change (week s2) with (week s) in Sc, D.
  assert (K : forall s', sameForecast s4 s' ->
              forecast s' /\ Week.schedule (week s') = Week.schedule (week s)
              /\ Week.currentDay (week s') = S (Week.currentDay (week s))).
  { intros s' Hs. split; [now apply (sameForecast_forecast s4) |].
    destruct Hs as [_ [B C]]. rewrite B, C. auto. }
  destruct (_ <=? 3)%nat; apply K.
  - unfold showNightlyChargingDecision. destruct (findSchedule _ _);
      [repeat split | apply continueToNextDay_sameForecast].
  - apply calculateFinalScore_sameForecast.
Qed.

Section WeatherRun.
Context {geodesy : Geodesy}.

Lemma step_forecast (e : Event) (s : State) :
  forecast s ->
  forecast (step e s) /\ Week.schedule (week (step e s)) = Week.schedule (week s).
Proof.
  intro H.
  assert (K : forall s', sameForecast s s' ->
              forecast s' /\ Week.schedule (week s') = Week.schedule (week s)).
  { intros s' Hs. split; [now apply (sameForecast_forecast s) | now destruct Hs as [_ [B _]]]. }
  destruct e; simpl.
  - apply K, updateBus_sameForecast.
  - apply K. unfold dwellTimeout. destruct (BusStatus_eqb _ _); repeat split.
  - apply K, confirmCharging_sameForecast.
  - destruct (handleDayComplete_forecast s) as [A [B _]]. auto.
  - apply K, confirmNightlyCharging_sameForecast.
Qed.

(** X20: in every state of a scenario the week keeps the schedule of the
    chosen weather pattern, and the weather is what that schedule says for
    the current day, as long as the schedule has that day. *)
Theorem weather_follows_the_schedule (cfg : Config.t) (r : Route.t) (events : list Event) :
  let s := run events (startScenario cfg r) in
  Week.schedule (week s) = WEATHER_PATTERNS.schedule (Config.weatherPattern cfg)
  /\ match findSchedule (Week.currentDay (week s)) (Week.schedule (week s)) with
     | Some d => weather s = sd_weather d
     | None => True
     end.
Proof.
  cbv zeta. fold (forecast (run events (startScenario cfg r))).
  assert (H0 : Week.schedule (week (startScenario cfg r))
               = WEATHER_PATTERNS.schedule (Config.weatherPattern cfg)
               /\ forecast (startScenario cfg r)).
  { unfold forecast, startScenario. simpl.
    destruct (Config.weatherPattern cfg); split; reflexivity. }
  generalize dependent (startScenario cfg r). intros s0 [A B].
  revert s0 A B. induction events as [| e rest IH]; intros s0 A B; [split; assumption |].
  simpl. destruct (step_forecast e s0 B) as [F Sc].
  apply IH; [now rewrite Sc | exact F].
Qed.

End WeatherRun.

(** ** The frame loop *)

Section FrameProofs.
Context {geodesy : Geodesy}.

Lemma simulationLoop_gated (now : Q) (l : Loop) :
  gated (world l) = true ->
  simulationLoop now l = mkLoop (Some now) (elapsedTime l) (speedMultiplier l) (world l).
Proof.
  unfold gated, simulationLoop. cbv zeta. simpl.
  destruct (negb (running (world l)) || paused (world l)); [reflexivity |].
  destruct (isSome (pendingCharge (world l))); [reflexivity |].
  destruct (showNightlyChargingModal (world l)); [reflexivity | discriminate].
Qed.



Lemma runFrames_gated (frames : list Q) (l : Loop) :
  gated (world l) = true ->
  world (runFrames frames l) = world l /\ elapsedTime (runFrames frames l) = elapsedTime l.
Proof.
  revert l. induction frames as [| now rest IH]; intros l G; [split; reflexivity |].
  unfold runFrames. simpl. fold (runFrames rest (simulationLoop now l)).
  rewrite (simulationLoop_gated now l G).
  apply (IH (mkLoop (Some now) (elapsedTime l) (speedMultiplier l) (world l))). exact G.
Qed.

(** X22: pausing a running simulation freezes it: whatever frames follow,
    the world stays as it was when it was paused and no simulated time is
    added; starting it again clears the pause and measures the next frame
    from the start, so that the time of the pause is never simulated. *)
Theorem pause_freezes_the_world (frames : list Q) (resumed : Q) (l : Loop) :
  running (world l) = true ->
  let paused := runFrames frames (pauseSimulation l) in
  world paused = set_paused true (world l)
  /\ elapsedTime paused = elapsedTime l
  /\ world (startSimulation resumed paused) = set_paused false (set_paused true (world l))
  /\ lastFrameTime (startSimulation resumed paused) = Some resumed.
Proof.
  intros Hrun. cbv zeta.
  assert (P : pauseSimulation l
              = mkLoop (lastFrameTime l) (elapsedTime l) (speedMultiplier l)
                  (set_paused true (world l))).
  { unfold pauseSimulation. rewrite Hrun. reflexivity. }
  rewrite P.
  destruct (runFrames_gated frames
              (mkLoop (lastFrameTime l) (elapsedTime l) (speedMultiplier l)
                 (set_paused true (world l)))) as [W E].
  { unfold gated. simpl. rewrite Hrun. reflexivity. }
  simpl in W, E. split; [exact W |]. split; [exact E |].
  unfold startSimulation. cbv zeta. rewrite W. simpl. rewrite Hrun. simpl.
  split; reflexivity.
Qed.

End FrameProofs.


Lemma pause_freezes_the_world_witness :
  world (@runFrames flatMap [50; 100; 150] (pauseSimulation exampleLoop))
  = set_paused true (world exampleLoop).
Proof.
  assert (R : running (world exampleLoop) = true) by (vm_compute; reflexivity).
  destruct (@pause_freezes_the_world flatMap [50; 100; 150] 200 exampleLoop R) as [H _].
  exact H.
Defined.

